(** * Verification of the ATT platform data import (complete_data_import.py)

    The script seeds domains, indicators and resources into two HTTP
    services.  It is embedded here as a program in a small state and
    exception monad: the state holds the services (an abstract world), the
    sequence of HTTP exchanges the script has had with them, and the part
    of the console the reports are printed on.

    Conventions of the embedding:
    - JSON objects are records; a field read with [dict.get] is an
      [option], [None] standing for a missing key; the body of a response
      is taken decoded, with the shape its endpoint gives it;
    - strings are byte strings; [str.lower] lowers the ASCII letters;
    - an f-string renders [None] as the text None ([fmt]);
    - Python truthiness of an optional string is [truthy];
    - [requests.exceptions.RequestException] and [SystemExit] are the two
      exceptions that occur; [try ... except] is [try_except];
    - the [while True] loop of the paginated fetch takes fuel and answers
      [OutOfFuel] when it runs out;
    - a [for] loop is [for_each] over the body of the loop, which is a
      definition of its own;
    - timeouts and [time.sleep] are not modelled; of the console, the
      lines printed by [add_resources_to_all_indicators] and the import
      summary are kept.

    The first part is the model: the script, the vocabulary of the
    properties, a reference implementation of the two services and sample
    data.  The second part has the properties, first for any services,
    then against the reference services.  The last part has further
    properties of the script: the order and the bounds of its requests,
    what it does when a service fails, and what a run leaves behind. *)

From Stdlib Require Import ZArith Ascii.
From stdpp Require Import base gmap strings list pretty.

Local Open Scope Z_scope.

(** ** Python string operations on byte strings *)

Module PyStr.

Definition lower_ascii (c : ascii) : ascii :=
  let n := N_of_ascii c in
  if ((65 <=? n) && (n <=? 90))%N then ascii_of_N (n + 32) else c.

(** [str.lower] (ASCII letters; other bytes are left as they are). *)
Fixpoint lower (s : string) : string :=
  match s with
  | EmptyString => EmptyString
  | String c s' => String (lower_ascii c) (lower s')
  end.

(** [s.startswith(p)] *)
Fixpoint startswith (s p : string) {struct p} : bool :=
  match p, s with
  | EmptyString, _ => true
  | String _ _, EmptyString => false
  | String a p', String b s' => bool_decide (a = b) && startswith s' p'
  end.

(** [s.endswith(p)]: some suffix of [s] is [p]. *)
Fixpoint endswith (s p : string) : bool :=
  bool_decide (s = p)
  || match s with
     | EmptyString => false
     | String _ s' => endswith s' p
     end.

(** [p in s] *)
Fixpoint contains (p s : string) : bool :=
  startswith s p
  || match s with
     | EmptyString => false
     | String _ s' => contains p s'
     end.

End PyStr.

(** ** Data model *)

(** The desired-state document (domains.json). *)
Record characteristics := {
  periodicity : string;
  source : string;
  scale : string;
}.

Record indicator_spec := {
  i_name : string;
  i_id : option Z;                    (* indicator_json.get('id', 0) *)
  i_categorization : option string;   (* indicator_json.get('categorization', '') *)
  i_characteristics : characteristics;
}.

Record subdomain_spec := {
  s_name : string;
  s_indicators : list indicator_spec; (* subdomain.get('indicators', []) *)
}.

Record domain_spec := {
  d_name : string;
  d_color : option string;            (* domain_json.get('DomainColor', '#000000') *)
  d_image : option string;            (* domain_json.get('DomainImage', '') *)
  d_subdomains : list subdomain_spec; (* domain_json.get('subdomains', []) *)
}.

(** What opening and decoding DOMAINS_FILE gives: one of the two errors
    line 265 catches, a JSON object without the key, or a JSON object
    with it.  An error line 265 does not catch (the path is a directory,
    permission is refused, the bytes are not UTF-8) and a document that
    is not an object are not values of this type. *)
Inductive domains_file :=
| Unreadable                          (* FileNotFoundError or JSONDecodeError *)
| NoDomainsKey                        (* 'domains' not in domains_data *)
| Domains (domains : list domain_spec).

(** Records returned by the services. *)
Record domain_record := {
  dom_id : option string;
  dom_name : option string;
}.

Record indicator_record := {
  ind_id : option string;
  ind_name : option string;
  ind_periodicity : option string;
  ind_resources : list string;        (* indicator.get('resources', []) *)
  ind_domain : option string;         (* owning domain; the script never reads it *)
}.

Record resource_record := {
  res_id : option string;
}.

(** Request bodies built by the script. *)
Record domain_data := {
  dd_name : string;
  dd_color : string;
  dd_image : string;
  dd_subdomains : list string;
}.

Record indicator_data := {
  id_name : string;
  id_periodicity : string;
  id_favourites : Z;
  id_governance : bool;
  id_description : string;
  id_font : string;
  id_scale : string;
}.

Record resource_data := {
  rd_wrapper_id : string;
  rd_name : string;
  rd_type : string;
}.

Global Instance domain_record_eq_dec : EqDecision domain_record.
Proof. solve_decision. Defined.
Global Instance indicator_record_eq_dec : EqDecision indicator_record.
Proof. solve_decision. Defined.
Global Instance resource_record_eq_dec : EqDecision resource_record.
Proof. solve_decision. Defined.
Global Instance domain_data_eq_dec : EqDecision domain_data.
Proof. solve_decision. Defined.
Global Instance indicator_data_eq_dec : EqDecision indicator_data.
Proof. solve_decision. Defined.
Global Instance resource_data_eq_dec : EqDecision resource_data.
Proof. solve_decision. Defined.

(** ** HTTP exchanges *)

Inductive request :=
| GET_health                                        (* GET  {INDICATOR_SERVICE}/health *)
| GET_domains                                       (* GET  {INDICATOR_SERVICE}/domains/ *)
| POST_domains (data : domain_data)                 (* POST {INDICATOR_SERVICE}/domains/ *)
| GET_indicators (skip : option nat) (limit : nat)  (* GET  {INDICATOR_SERVICE}/indicators/?skip=&limit= *)
| GET_indicators_domain (domain_id : string) (limit : nat)
                                                    (* GET  {INDICATOR_SERVICE}/indicators/domain/{id}?limit= *)
| POST_indicators (domain_id subdomain_name : string) (data : indicator_data)
                                                    (* POST {INDICATOR_SERVICE}/indicators/{id}/{subdomain}/ *)
| GET_resources                                     (* GET  {RESOURCE_SERVICE}/resources/ *)
| POST_resources (data : resource_data)             (* POST {RESOURCE_SERVICE}/resources/ *)
| POST_indicator_resources (indicator_id resource_id : string).
                                                    (* POST {INDICATOR_SERVICE}/indicators/{id}/resources *)

(** The decoded JSON body of the response to each request. *)
Definition body (r : request) : Type :=
  match r with
  | GET_health => unit
  | GET_domains => list domain_record
  | POST_domains _ => domain_record
  | GET_indicators _ _ => list indicator_record
  | GET_indicators_domain _ _ => list indicator_record
  | POST_indicators _ _ _ => unit
  | GET_resources => list resource_record
  | POST_resources _ => resource_record
  | POST_indicator_resources _ _ => unit
  end.

Record response (A : Type) := Response {
  status_code : Z;
  json : A;
}.
Arguments Response {A} status_code json.
Arguments status_code {A} r.
Arguments json {A} r.

(** The two services, as the script sees them: a state that answers a
    request with a response, or with none (connection error, timeout),
    in which case the call raises RequestException. *)
Class Services (W : Type) :=
  serve : ∀ r : request, W → option (response (body r)) * W.

(** One entry of the exchange log: the request and the status code of its
    response ([None] for a transport error). *)
Definition exchange : Type := request * option Z.

(** Lines of the console that are modelled, each with the values it
    prints. *)
Inductive line :=
| AddingResources                       (* Adding resources to all indicators... *)
| NoIndicatorsFound                     (* No indicators found *)
| FoundTotalIndicators (n : nat)        (* Found {n} total indicators *)
| ReplacingDummy (indicator_name : string)
                                        (* ... (replacing dummy 'string' resource) *)
| ReplacingGenerated (indicator_name : string)
                                        (* ... (replacing generated resource ID) *)
| ResourceNotFound (indicator_name resource_id : string)
                                        (* ... (resource {id} not found in resource-service) *)
| SkippingIndicator (indicator_name resource_id : string)
                                        (* Skipping indicator ... (resource {id} exists ...) *)
| CannotVerify (indicator_name : string)
                                        (* ... (cannot verify resource existence) *)
| ErrorChecking (indicator_name : string)
                                        (* ... (error checking resource-service) *)
| CreatingResource (indicator_name : string)
                                        (* Creating resource for indicator: {name} *)
| AddedResource (resource_id indicator_name : string)
                                        (* Added resource {id} to indicator {name} *)
| FailedToLink (resource_id indicator_name : string)
                                        (* Failed to link resource {id} to indicator {name} *)
| NoResourceCreated (indicator_name : string)
                                        (* No resource created for indicator {name} *)
| ResourceSummary (total_indicators updated_indicators total_resources : nat)
                                        (* the Resource Addition Summary and its three counts *)
| ImportSummary (domains total_indicators created_indicators skipped_indicators : nat)
                (failed_indicators : Z).
                                        (* the Import Summary and its five counts *)

Global Instance request_eq_dec : EqDecision request.
Proof. solve_decision. Defined.
Global Instance line_eq_dec : EqDecision line.
Proof. solve_decision. Defined.

(** ** The monad *)

Inductive exn :=
| RequestException
| SystemExit (code : Z).

Inductive outcome (A : Type) :=
| Return (a : A)
| Raise (e : exn)
| OutOfFuel.
Arguments Return {A} a.
Arguments Raise {A} e.
Arguments OutOfFuel {A}.

Section Script.

Context {W : Type} `{!Services W}.

Record state := State {
  world : W;
  log : list exchange;
  console : list line;
}.

Definition M (A : Type) : Type := state → outcome A * state.

Definition ret {A} (a : A) : M A := λ s, (Return a, s).

Definition bind {A B} (m : M A) (f : A → M B) : M B := λ s,
  match m s with
  | (Return a, s') => f a s'
  | (Raise e, s') => (Raise e, s')
  | (OutOfFuel, s') => (OutOfFuel, s')
  end.

Definition raise {A} (e : exn) : M A := λ s, (Raise e, s).

Definition out_of_fuel {A} : M A := λ s, (OutOfFuel, s).

(** [try: m  except <handles>: h] *)
Definition try_except {A} (handles : exn → bool) (m : M A) (h : M A) : M A := λ s,
  match m s with
  | (Raise e, s') => if handles e then h s' else (Raise e, s')
  | r => r
  end.

(** except requests.exceptions.RequestException *)
Definition request_exception (e : exn) : bool :=
  match e with RequestException => true | SystemExit _ => false end.
(** except Exception: SystemExit derives from BaseException only *)
Definition any_Exception (e : exn) : bool :=
  match e with RequestException => true | SystemExit _ => false end.
(** a bare except *)
Definition anything (e : exn) : bool := true.

Definition print (l : line) : M unit := λ s,
  (Return tt, State (world s) (log s) (console s ++ [l])).

(** requests.get / requests.post: the exchange is logged; a transport
    error raises. *)
Definition requests (r : request) : M (response (body r)) := λ s,
  match serve r (world s) with
  | (None, w) =>
    (Raise RequestException, State w (log s ++ [(r, None)]) (console s))
  | (Some resp, w) =>
    (Return resp, State w (log s ++ [(r, Some (status_code resp))]) (console s))
  end.

(** sys.exit(code) *)
Definition sys_exit {A} (code : Z) : M A := raise (SystemExit code).

(** [for x in l: acc = body(x, acc)]; a [continue] is a body that
    returns its accumulator early. *)
Fixpoint for_each {A S} (l : list A) (body : A → S → M S) (acc : S) : M S :=
  match l with
  | [] => ret acc
  | x :: l' => bind (body x acc) (for_each l' body)
  end.

End Script.

Arguments state W : clear implicits.
Arguments M W A : clear implicits.

Notation "x <- m ;; k" := (bind m (λ x, k))
  (at level 100, m at next level, right associativity, only parsing).

(** ** The script *)

(** An optional string inside an f-string. *)
Definition fmt (o : option string) : string := default "None" o.

(** Truthiness of an optional string: the string, when it is there and
    not empty. *)
Definition truthy (o : option string) : option string :=
  match o with
  | Some s => if bool_decide (s = "") then None else Some s
  | None => None
  end.

(** [status_code in [200, 201]] *)
Definition in_200_201 (status_code : Z) : bool :=
  bool_decide (status_code = 200) || bool_decide (status_code = 201).

(** Counters of the backfill loop. *)
Record counters := Counters {
  total_indicators : nat;
  updated_indicators : nat;
  total_resources : nat;
}.

(** Counters of the indicator phase of the import. *)
Record import_counters := ImportCounters {
  imp_total_indicators : nat;
  imp_created_indicators : nat;
  imp_skipped_indicators : nat;
}.

(** [any(r.get('id') == existing_resource_id for r in resources_list)] *)
Definition resource_exists (existing_resource_id : string)
    (resources_list : list resource_record) : bool :=
  existsb (λ r, bool_decide (res_id r = Some existing_resource_id)) resources_list.

(** The request body of lines 344-352. *)
Definition make_indicator_data (indicator_json : indicator_spec)
    (subdomain_name : string) : indicator_data :=
  let indicator_name := i_name indicator_json in
  let categorization := default "" (i_categorization indicator_json) in
  {| id_name := indicator_name;
     id_periodicity := periodicity (i_characteristics indicator_json);
     id_favourites := default 0 (i_id indicator_json) `mod` 5;
     id_governance :=
       PyStr.contains "baseline" (PyStr.lower categorization)
       || PyStr.contains "required" (PyStr.lower categorization);
     id_description :=
       "Indicator " +:+ indicator_name +:+ " from domain " +:+ subdomain_name;
     id_font := source (i_characteristics indicator_json);
     id_scale := scale (i_characteristics indicator_json) |}.

(** The request body of lines 295-300. *)
Definition make_domain_data (domain_json : domain_spec) : domain_data :=
  {| dd_name := d_name domain_json;
     dd_color := default "#000000" (d_color domain_json);
     dd_image := default "" (d_image domain_json);
     dd_subdomains := s_name <$> d_subdomains domain_json |}.

(** The request body of lines 113-120. *)
Definition make_resource_data (indicator_name indicator_id : option string)
    : resource_data :=
  let wrapper_id := "wrapper_" +:+ fmt indicator_id in
  {| rd_wrapper_id := wrapper_id;
     rd_name := "Resource for " +:+ fmt indicator_name;
     rd_type := "indicator_data" |}.

(** The lookup by name of [get_existing_indicators]. *)
Definition index_by_name (indicators : list indicator_record)
    : gmap string indicator_record :=
  foldl (λ existing_indicators indicator,
           match truthy (ind_name indicator) with
           | Some indicator_name => <[indicator_name := indicator]> existing_indicators
           | None => existing_indicators
           end) ∅ indicators.

(** [domain_id_map] as filled from the existing domains (lines 278-281). *)
Definition map_domain_ids (existing_domains : list domain_record)
    : gmap (option string) (option string) :=
  foldl (λ domain_id_map domain, <[dom_name domain := dom_id domain]> domain_id_map)
        ∅ existing_domains.

Section Importer.

Context {W : Type} `{!Services W}.

Definition check_service_health : M W bool :=
  try_except request_exception
    (response <- requests GET_health;;
     if bool_decide (status_code response = 200) then ret true else ret false)
    (ret false).

Definition create_domain (domain_data : domain_data) : M W (option string) :=
  try_except request_exception
    (response <- requests (POST_domains domain_data);;
     if in_200_201 (status_code response) then
       let domain := json response in
       ret (dom_id domain)
     else ret None)
    (ret None).

Definition limit : nat := 50.

(** The [while True] loop of [get_all_indicators_with_pagination]; the
    [try] block answers [None] for a [break]. *)
Fixpoint pagination_loop (fuel : nat) (all_indicators : list indicator_record)
    (skip : nat) : M W (list indicator_record) :=
  match fuel with
  | O => out_of_fuel
  | S fuel =>
    next <- try_except request_exception
      (response <- requests (GET_indicators (Some skip) limit);;
       if bool_decide (status_code response = 200) then
         let indicators := json response in
         match indicators with
         | [] => ret None
         | _ :: _ => ret (Some (all_indicators ++ indicators, (skip + limit)%nat))
         end
       else ret None)
      (ret None);;
    match next with
    | None => ret all_indicators
    | Some (all_indicators, skip) => pagination_loop fuel all_indicators skip
    end
  end.

Definition get_all_indicators_with_pagination (fuel : nat)
    : M W (list indicator_record) :=
  pagination_loop fuel [] 0%nat.

Definition get_existing_indicators (fuel : nat)
    : M W (gmap string indicator_record) :=
  indicators <- get_all_indicators_with_pagination fuel;;
  ret (index_by_name indicators).

Definition create_indicator (indicator_data : indicator_data)
    (domain_id subdomain_name : string) : M W bool :=
  try_except request_exception
    (response <- requests (POST_indicators domain_id subdomain_name indicator_data);;
     if in_200_201 (status_code response) then ret true else ret false)
    (ret false).

Definition create_resource_in_service (indicator_name indicator_id : option string)
    : M W (option string) :=
  try_except request_exception
    (let resource_data := make_resource_data indicator_name indicator_id in
     response <- requests (POST_resources resource_data);;
     if in_200_201 (status_code response) then
       let resource := json response in
       ret (res_id resource)
     else ret None)
    (ret None).

Definition add_resource_to_indicator (indicator_id : option string)
    (resource_id : string) : M W bool :=
  try_except request_exception
    (response <- requests (POST_indicator_resources (fmt indicator_id) resource_id);;
     if in_200_201 (status_code response) then ret true else ret false)
    (ret false).

(** Lines 185-218 of [add_resources_to_all_indicators]: [true] when
    the loop body goes on to create a resource, [false] when it reaches
    a [continue]. *)
Definition needs_backfill (indicator : indicator_record) : M W bool :=
  let indicator_name := fmt (ind_name indicator) in
  let existing_resources := ind_resources indicator in
  match existing_resources return M W bool with
  | [] => ret true
  | existing_resource_id :: _ =>
    if bool_decide (length existing_resources = 1%nat)
       && bool_decide (existing_resource_id = "string") then
      _ <- print (ReplacingDummy indicator_name);;
      ret true
    else if bool_decide (length existing_resources = 1%nat)
            && PyStr.endswith existing_resource_id "_resource" then
      _ <- print (ReplacingGenerated indicator_name);;
      ret true
    else
      try_except anything
        (response <- requests GET_resources;;
         if bool_decide (status_code response = 200) then
           let resources_list := json response in
           if negb (resource_exists existing_resource_id resources_list) then
             _ <- print (ResourceNotFound indicator_name existing_resource_id);;
             ret true
           else
             _ <- print (SkippingIndicator indicator_name existing_resource_id);;
             ret false
         else
           _ <- print (CannotVerify indicator_name);;
           ret true)
        (_ <- print (ErrorChecking indicator_name);;
         ret true)
  end.

(** Lines 220-234: create the resource, then link it. *)
Definition create_and_link (indicator : indicator_record) (c : counters)
    : M W counters :=
  let indicator_name := fmt (ind_name indicator) in
  _ <- print (CreatingResource indicator_name);;
  resource_id <- create_resource_in_service (ind_name indicator) (ind_id indicator);;
  match truthy resource_id with
  | Some resource_id =>
    linked <- add_resource_to_indicator (ind_id indicator) resource_id;;
    if linked then
      _ <- print (AddedResource resource_id indicator_name);;
      ret (Counters (total_indicators c)
                     (updated_indicators c + 1)
                     (total_resources c + 1))%nat
    else
      _ <- print (FailedToLink resource_id indicator_name);;
      ret c
  | None =>
    _ <- print (NoResourceCreated indicator_name);;
    ret c
  end.

(** The body of the loop of [add_resources_to_all_indicators]. *)
Definition backfill_indicator (indicator : indicator_record) (c : counters)
    : M W counters :=
  let c := Counters (total_indicators c + 1)%nat
                    (updated_indicators c) (total_resources c) in
  create <- needs_backfill indicator;;
  if create then create_and_link indicator c else ret c.

Definition add_resources_to_all_indicators (fuel : nat) : M W bool :=
  _ <- print AddingResources;;
  indicators <- get_all_indicators_with_pagination fuel;;
  match indicators with
  | [] =>
    _ <- print NoIndicatorsFound;;
    ret false
  | _ :: _ =>
    _ <- print (FoundTotalIndicators (length indicators));;
    c <- for_each indicators backfill_indicator (Counters 0 0 0);;
    _ <- print (ResourceSummary (total_indicators c) (updated_indicators c)
                                (total_resources c));;
    ret (bool_decide (0 < updated_indicators c)%nat)
  end.

Definition get_existing_domains : M W (list domain_record) :=
  try_except request_exception
    (response <- requests GET_domains;;
     if bool_decide (status_code response = 200) then ret (json response) else ret [])
    (ret []).

(** The body of the domain loop (lines 285-306). *)
Definition import_domain (existing_domain_names : gset (option string))
    (domain_json : domain_spec)
    (domain_id_map : gmap (option string) (option string))
    : M W (gmap (option string) (option string)) :=
  let domain_name := d_name domain_json in
  if bool_decide (Some domain_name ∈ existing_domain_names) then
    ret domain_id_map
  else
    domain_id <- create_domain (make_domain_data domain_json);;
    match truthy domain_id with
    | Some domain_id => ret (<[Some domain_name := Some domain_id]> domain_id_map)
    | None => ret domain_id_map
    end.

(** The body of the innermost loop (lines 333-357). *)
Definition import_indicator (existing_indicators : gmap string indicator_record)
    (domain_id subdomain_name : string) (indicator_json : indicator_spec)
    (c : import_counters) : M W import_counters :=
  let c := ImportCounters (imp_total_indicators c + 1)%nat
                          (imp_created_indicators c) (imp_skipped_indicators c) in
  let indicator_name := i_name indicator_json in
  if bool_decide (is_Some (existing_indicators !! indicator_name)) then
    ret (ImportCounters (imp_total_indicators c) (imp_created_indicators c)
                         (imp_skipped_indicators c + 1)%nat)
  else
    created <- create_indicator (make_indicator_data indicator_json subdomain_name)
                                domain_id subdomain_name;;
    if created then
      ret (ImportCounters (imp_total_indicators c)
                           (imp_created_indicators c + 1)%nat
                           (imp_skipped_indicators c))
    else ret c.

Definition import_subdomain (existing_indicators : gmap string indicator_record)
    (domain_id : string) (subdomain : subdomain_spec) (c : import_counters)
    : M W import_counters :=
  for_each (s_indicators subdomain)
           (import_indicator existing_indicators domain_id (s_name subdomain)) c.

(** The body of the outer indicator loop (lines 319-357). *)
Definition import_domain_indicators
    (domain_id_map : gmap (option string) (option string))
    (existing_indicators : gmap string indicator_record)
    (domain_json : domain_spec) (c : import_counters) : M W import_counters :=
  let domain_name := d_name domain_json in
  let domain_id := mjoin (domain_id_map !! Some domain_name) in
  match truthy domain_id with
  | None => ret c
  | Some domain_id =>
    for_each (d_subdomains domain_json)
             (import_subdomain existing_indicators domain_id) c
  end.

Definition import_complete_data (fuel : nat) (file : domains_file) : M W bool :=
  match file with
  | Unreadable => ret false
  | NoDomainsKey => ret false
  | Domains domains =>
    existing_domains <- get_existing_domains;;
    let existing_domain_names : gset (option string) :=
      list_to_set (dom_name <$> existing_domains) in
    let domain_id_map := map_domain_ids existing_domains in
    domain_id_map <- for_each domains (import_domain existing_domain_names)
                               domain_id_map;;
    existing_indicators <- get_existing_indicators fuel;;
    c <- for_each domains
           (import_domain_indicators domain_id_map existing_indicators)
           (ImportCounters 0 0 0);;
    _ <- print (ImportSummary (length domains)
             (imp_total_indicators c) (imp_created_indicators c)
             (imp_skipped_indicators c)
             (Z.of_nat (imp_total_indicators c)
              - Z.of_nat (imp_created_indicators c)
              - Z.of_nat (imp_skipped_indicators c)));;
    ret (bool_decide (0 < imp_created_indicators c)%nat)
  end.

Definition test_api_endpoints (fuel : nat) : M W unit :=
  try_except any_Exception
    (_ <- requests (GET_indicators None 5);;
     response <- requests GET_domains;;
     _ <- (if bool_decide (status_code response = 200) then
             let domains := json response in
             match domains with
             | first_domain :: _ =>
               _ <- requests (GET_indicators_domain (fmt (dom_id first_domain)) 3);;
               ret tt
             | [] => ret tt
             end
           else ret tt);;
     all_indicators <- get_all_indicators_with_pagination fuel;;
     ret tt)
    (ret tt).

Definition main (fuel : nat) (file : domains_file) : M W unit :=
  healthy <- check_service_health;;
  if negb healthy then sys_exit 1
  else
    imported <- import_complete_data fuel file;;
    if imported then
      _ <- add_resources_to_all_indicators fuel;;
      test_api_endpoints fuel
    else sys_exit 1.

End Importer.

(** ** Vocabulary of the properties *)


Definition is_GET_resources (e : exchange) : bool :=
  match e.1 with GET_resources => true | _ => false end.

Definition is_POST_resources (e : exchange) : bool :=
  match e.1 with POST_resources _ => true | _ => false end.

Definition is_POST_indicator_resources (e : exchange) : bool :=
  match e.1 with POST_indicator_resources _ _ => true | _ => false end.

Definition is_POST_indicators (e : exchange) : bool :=
  match e.1 with POST_indicators _ _ _ => true | _ => false end.

Definition is_POST_domains (e : exchange) : bool :=
  match e.1 with POST_domains _ => true | _ => false end.

Definition is_GET_indicators (e : exchange) : bool :=
  match e.1 with GET_indicators _ _ => true | _ => false end.

(** A request that reads. *)
Definition is_GET (e : exchange) : bool :=
  match e.1 with
  | GET_health | GET_domains | GET_indicators _ _ | GET_indicators_domain _ _
  | GET_resources => true
  | _ => false
  end.

(** The response came, with status 200 or 201. *)
Definition accepted (e : exchange) : bool :=
  match e.2 with Some status_code => in_200_201 status_code | None => false end.

(** A link write that succeeded. *)
Definition linked (e : exchange) : bool := is_POST_indicator_resources e && accepted e.

(** A resource creation the resource service accepted. *)
Definition resource_created (e : exchange) : bool := is_POST_resources e && accepted e.

(** An indicator creation the catalog service accepted. *)
Definition indicator_created (e : exchange) : bool := is_POST_indicators e && accepted e.

Definition count_log (P : exchange → bool) (l : list exchange) : nat :=
  length (List.filter P l).

(** A run starts with an empty log and an empty console. *)
Definition init {W} (w : W) : state W := State w [] [].

(** The state after one more exchange. *)
Definition logged {W} (s : state W) (r : request) (status : option Z) (w : W)
    : state W :=
  State w (log s ++ [(r, status)]) (console s).

(** The state after one more line. *)
Definition printed {W} (s : state W) (l : line) : state W :=
  State (world s) (log s) (console s ++ [l]).

Definition status_of {A} (o : option (response A)) : option Z :=
  status_code <$> o.

(** The response is missing or its status is not 200. *)
Definition no_success {A} (o : option (response A)) : Prop :=
  match o with
  | Some resp => status_code resp ≠ 200
  | None => True
  end.

(** The health check got a 200. *)
Definition healthy {W} `{!Services W} (w : W) : Prop :=
  match (serve GET_health w).1 with
  | Some resp => status_code resp = 200
  | None => False
  end.

(** The exit status of the process: 0 when [main] returns, the code of
    [sys.exit], 1 for an exception nobody caught; none when the model
    ran out of fuel. *)
Definition exit_status (o : outcome unit) : option Z :=
  match o with
  | Return _ => Some 0
  | Raise (SystemExit code) => Some code
  | Raise RequestException => Some 1
  | OutOfFuel => None
  end.

(** The indicator has resources that are not a lone placeholder: its
    first entry is looked up in the listing of the resource service. *)
Definition checks_listing (indicator : indicator_record) : bool :=
  match ind_resources indicator with
  | [] => false
  | [resource_id] =>
    negb (bool_decide (resource_id = "string"))
    && negb (PyStr.endswith resource_id "_resource")
  | _ :: _ :: _ => true
  end.

(** The listing came with status 200 and has a resource of that id. *)
Definition membership_confirmed (resource_id : string)
    (o : option (response (list resource_record))) : bool :=
  match o with
  | Some resp =>
    bool_decide (status_code resp = 200) && resource_exists resource_id (json resp)
  | None => false
  end.

(** The existence check confirms the id: the listing of the resource
    service came with status 200 and one of its resources has the id. *)
Definition in_listing (resource_id : string)
    (o : option (response (list resource_record))) : Prop :=
  ∃ resp, o = Some resp ∧ status_code resp = 200
          ∧ ∃ r, r ∈ json resp ∧ res_id r = Some resource_id.

(** The id [create_resource_in_service] returns for a reply of the
    resource service. *)
Definition created_id (o : option (response resource_record)) : option string :=
  match o with
  | Some resp => if in_200_201 (status_code resp) then res_id (json resp) else None
  | None => None
  end.

(** What [add_resource_to_indicator] returns for a reply of the catalog
    service. *)
Definition link_accepted (o : option (response unit)) : bool :=
  match o with
  | Some resp => in_200_201 (status_code resp)
  | None => false
  end.

Definition is_ResourceSummary (l : line) : bool :=
  match l with ResourceSummary _ _ _ => true | _ => false end.

(** Requests of the backfill loop. *)
Definition backfill_exchange (e : exchange) : bool :=
  is_GET_resources e || is_POST_resources e || is_POST_indicator_resources e.

(** From [s0] to [s] only exchanges satisfying [P] were added, the
    console is as it was. *)
Definition only_exchanges {W} (P : exchange → bool) (s0 s : state W) : Prop :=
  ∃ d, log s = log s0 ++ d ∧ console s = console s0
       ∧ Forall (λ e, P e = true) d.

(** The indicator phase only posts indicators, and counts those the
    service accepted. *)
Definition indicators_counted {W} (s0 : state W) (c0 : import_counters)
    (c : import_counters) (s : state W) : Prop :=
  ∃ d, log s = log s0 ++ d ∧ console s = console s0
       ∧ Forall (λ e, is_POST_indicators e = true) d
       ∧ imp_created_indicators c
         = (imp_created_indicators c0 + count_log indicator_created d)%nat.

(** The ceiling of [n / m]. *)
Definition ceil_div (n m : nat) : nat := (n + (m - 1)) / m.

(** The page requests at offsets [skip], [skip + 50], ..., all answered
    with a 200. *)
Fixpoint page_requests (skip n : nat) : list exchange :=
  match n with
  | O => []
  | S n => (GET_indicators (Some skip) limit, Some 200) :: page_requests (skip + limit) n
  end.

(** The indicators of the desired-state document, in its order. *)
Definition desired_indicators (domains : list domain_spec) : list indicator_spec :=
  d ← domains; sub ← d_subdomains d; s_indicators sub.

(** The number of indicators of the document, none when the file gives
    no document. *)
Definition desired_count (file : domains_file) : nat :=
  match file with
  | Domains domains => length (desired_indicators domains)
  | Unreadable | NoDomainsKey => 0%nat
  end.

(** The domain has an id in the map, and the id is not empty. *)
Definition resolvable (m : gmap (option string) (option string))
    (d : domain_spec) : Prop :=
  is_Some (truthy (mjoin (m !! Some (d_name d)))).

(** *** Vocabulary of the further properties *)

(** What [get_existing_domains] returns for a reply of the catalog
    service. *)
Definition listed_domains (o : option (response (list domain_record)))
    : list domain_record :=
  match o with
  | Some resp => if bool_decide (status_code resp = 200) then json resp else []
  | None => []
  end.

(** The indicators the three nested loops of lines 319-333 visit, in
    their order, each with the domain id and the subdomain name it is
    posted under: a domain without a non-empty id in the map is passed
    over. *)
Definition domain_targets (domain_id_map : gmap (option string) (option string))
    (domain_json : domain_spec) : list (string * string * indicator_spec) :=
  match truthy (mjoin (domain_id_map !! Some (d_name domain_json))) with
  | None => []
  | Some domain_id =>
    subdomain ← d_subdomains domain_json;
    (λ indicator_json, (domain_id, s_name subdomain, indicator_json))
      <$> s_indicators subdomain
  end.

Definition import_targets (domain_id_map : gmap (option string) (option string))
    (domains : list domain_spec) : list (string * string * indicator_spec) :=
  domains ≫= domain_targets domain_id_map.

(** The request that creates the indicator of a target. *)
Definition target_request (t : string * string * indicator_spec) : request :=
  POST_indicators t.1.1 t.1.2 (make_indicator_data t.2 t.1.2).

(** The requests of the import: it reads and posts domains and
    indicators, and posts no indicator under an empty domain id. *)
Definition import_exchange (e : exchange) : bool :=
  match e.1 with
  | GET_domains | POST_domains _ | GET_indicators _ _ => true
  | POST_indicators domain_id _ _ => negb (bool_decide (domain_id = ""))
  | _ => false
  end.

(** The response came, with status 200 or 201. *)
Definition reply_accepted {A} (o : option (response A)) : bool :=
  match o with
  | Some resp => in_200_201 (status_code resp)
  | None => false
  end.

(** A domain creation the catalog service accepted. *)
Definition domain_created (e : exchange) : bool := is_POST_domains e && accepted e.

(** An indicator is never created under an empty domain id. *)
Definition under_domain (e : exchange) : bool :=
  match e.1 with
  | POST_indicators domain_id _ _ => negb (bool_decide (domain_id = ""))
  | _ => true
  end.

(** The reply is [resp], and its status is 200 or 201. *)
Definition accepted_reply {A} (o : option (response A)) (resp : response A) : Prop :=
  o = Some resp ∧ (status_code resp = 200 ∨ status_code resp = 201).

(** The reply to the page request number [k], counted from 0, when the
    pages are asked for one after the other from the offset [skip] on,
    and the services after it. *)
Fixpoint page_reply {W} `{!Services W} (k skip : nat) (w : W)
    : option (response (list indicator_record)) * W :=
  match k with
  | O => serve (GET_indicators (Some skip) limit) w
  | S k => page_reply k (skip + limit) (serve (GET_indicators (Some skip) limit) w).2
  end.

(** ** The services *)

(** Modelled from the spec: the catalog service and the resource service
    are not part of the script; section 6 (External interfaces) gives
    their endpoints.  This is the simplest pair of services with these
    endpoints: they keep what is posted, in the order it is posted,
    accept every creation, serve the indicators in pages of at most 50,
    and give each new record a fresh non-empty id.  A new indicator has
    no resources.  Section 6 gives the link write a status only: that it
    appends the resource id to the resources of the indicator is a
    choice of these services, and [replacing_services] below makes the
    other one. *)
Record live_state := LiveState {
  live_domains : list domain_record;
  live_indicators : list indicator_record;
  live_resources : list resource_record;
  next_id : nat;
}.

Definition object_id (n : nat) : string := "oid" +:+ pretty n.

Definition new_indicator (id domain_id : string) (data : indicator_data)
    : indicator_record :=
  {| ind_id := Some id;
     ind_name := Some (id_name data);
     ind_periodicity := Some (id_periodicity data);
     ind_resources := [];
     ind_domain := Some domain_id |}.

Definition add_resource (indicator_id resource_id : string)
    (indicator : indicator_record) : indicator_record :=
  if bool_decide (ind_id indicator = Some indicator_id) then
    {| ind_id := ind_id indicator;
       ind_name := ind_name indicator;
       ind_periodicity := ind_periodicity indicator;
       ind_resources := ind_resources indicator ++ [resource_id];
       ind_domain := ind_domain indicator |}
  else indicator.

Definition max_page : nat := 50.

Global Instance reference_services : Services live_state := λ r w,
  match r return option (response (body r)) * live_state with
  | GET_health => (Some (Response 200 tt), w)
  | GET_domains => (Some (Response 200 (live_domains w)), w)
  | POST_domains data =>
    let domain := {| dom_id := Some (object_id (next_id w));
                     dom_name := Some (dd_name data) |} in
    (Some (Response 201 domain),
     LiveState (live_domains w ++ [domain]) (live_indicators w) (live_resources w)
               (S (next_id w)))
  | GET_indicators skip limit =>
    (Some (Response 200 (take (limit `min` max_page)
                              (drop (default 0%nat skip) (live_indicators w)))), w)
  | GET_indicators_domain domain_id limit =>
    (Some (Response 200
             (take (limit `min` max_page)
                   (List.filter (λ i, bool_decide (ind_domain i = Some domain_id))
                                (live_indicators w)))), w)
  | POST_indicators domain_id subdomain_name data =>
    (Some (Response 201 tt),
     LiveState (live_domains w)
               (live_indicators w
                ++ [new_indicator (object_id (next_id w)) domain_id data])
               (live_resources w) (S (next_id w)))
  | GET_resources => (Some (Response 200 (live_resources w)), w)
  | POST_resources data =>
    let resource := {| res_id := Some (object_id (next_id w)) |} in
    (Some (Response 201 resource),
     LiveState (live_domains w) (live_indicators w) (live_resources w ++ [resource])
               (S (next_id w)))
  | POST_indicator_resources indicator_id resource_id =>
    if existsb (λ i, bool_decide (ind_id i = Some indicator_id)) (live_indicators w)
    then
      (Some (Response 200 tt),
       LiveState (live_domains w)
                 (add_resource indicator_id resource_id <$> live_indicators w)
                 (live_resources w) (next_id w))
    else (Some (Response 404 tt), w)
  end.

(** The same services behind a network that loses the requests in
    [dropped]. *)
Record unreliable := Unreliable {
  dropped : request → bool;
  behind : live_state;
}.

Global Instance unreliable_services : Services unreliable := λ r u,
  if dropped u r then (None, u)
  else let '(o, w) := serve r (behind u) in (o, Unreliable (dropped u) w).

(** Some live indicator has the name. *)
Definition present (name : string) (w : live_state) : Prop :=
  Some name ∈ ind_name <$> live_indicators w.

(** The domains are as they were and no indicator name was lost. *)
Definition keeps (s s' : state live_state) : Prop :=
  live_domains (world s') = live_domains (world s)
  ∧ ∀ name, present name (world s) → present name (world s').

(** What the import reads of the services: the domains and the names
    of the indicators. *)
Definition skeleton (w : live_state) : list domain_record * list (option string) :=
  (live_domains w, ind_name <$> live_indicators w).

(** Every desired domain is live, and so is every desired indicator of a
    domain that has a non-empty id in the map of the live domains. *)
Definition settled (domains : list domain_spec) (w : live_state) : Prop :=
  (∀ d, d ∈ domains → Some (d_name d) ∈ dom_name <$> live_domains w)
  ∧ (∀ d, d ∈ domains →
       resolvable (map_domain_ids (live_domains w)) d →
       ∀ sub, sub ∈ d_subdomains d →
       ∀ i, i ∈ s_indicators sub → present (i_name i) w).

(** Every name of the lookup is the name of a live indicator. *)
Definition lookup_present (existing : gmap string indicator_record)
    (s : state live_state) : Prop :=
  ∀ name, is_Some (existing !! name) → present name (world s).

(** No two live domains have the same name, and no two live indicators. *)
Definition unique_names (w : live_state) : Prop :=
  NoDup (dom_name <$> live_domains w) ∧ NoDup (ind_name <$> live_indicators w).

(** The indicator has one resource, it has an id the reference services
    gave, and the resource service lists it. *)
Definition linked_once (w : live_state) (indicator : indicator_record) : Prop :=
  ∃ n, ind_resources indicator = [object_id n]
       ∧ resource_exists (object_id n) (live_resources w) = true.

(** The same services with a catalog that ignores [skip]: every page
    request is answered with the first page. *)
Record ignoring_skip := IgnoringSkip {
  served : live_state;
}.

Global Instance ignoring_skip_services : Services ignoring_skip := λ r u,
  match r return option (response (body r)) * ignoring_skip with
  | GET_indicators _ limit =>
    (Some (Response 200 (take (limit `min` max_page) (live_indicators (served u)))), u)
  | r => let '(o, w) := serve r (served u) in (o, IgnoringSkip w)
  end.

(** Modelled from the spec: section 6 gives the link endpoint a status
    only, and sections 3 and 8 have an indicator hold one resource
    reference after the backfill.  These are the reference services
    with a catalog whose link write replaces the resources of the
    indicator by the resource linked, where [reference_services]
    appends it. *)
Record replacing := Replacing {
  kept : live_state;
}.

Definition set_resource (indicator_id resource_id : string)
    (indicator : indicator_record) : indicator_record :=
  if bool_decide (ind_id indicator = Some indicator_id) then
    {| ind_id := ind_id indicator;
       ind_name := ind_name indicator;
       ind_periodicity := ind_periodicity indicator;
       ind_resources := [resource_id];
       ind_domain := ind_domain indicator |}
  else indicator.

Global Instance replacing_services : Services replacing := λ r u,
  match r return option (response (body r)) * replacing with
  | POST_indicator_resources indicator_id resource_id =>
    if existsb (λ i, bool_decide (ind_id i = Some indicator_id))
               (live_indicators (kept u))
    then
      (Some (Response 200 tt),
       Replacing
         (LiveState (live_domains (kept u))
                    (set_resource indicator_id resource_id <$> live_indicators (kept u))
                    (live_resources (kept u)) (next_id (kept u))))
    else (Some (Response 404 tt), u)
  | r => let '(o, w) := serve r (kept u) in (o, Replacing w)
  end.

(** ** Sample data *)

(** *** The scenario of section 8 of the specification *)

Definition gdp : indicator_spec :=
  {| i_name := "GDP"; i_id := Some 7; i_categorization := Some "Required KPI";
     i_characteristics :=
       {| periodicity := "annual"; source := "WorldBank"; scale := "billions" |} |}.

Definition economy : domain_spec :=
  {| d_name := "Economy"; d_color := None; d_image := None;
     d_subdomains := [ {| s_name := "Trade"; s_indicators := [gdp] |} ] |}.

Definition empty_services : live_state := LiveState [] [] [] 0.

(** The services after the import of the scenario, before any backfill. *)
Definition imported_services : live_state :=
  world (import_complete_data 5 (Domains [economy]) (init empty_services)).2.

(** The services after the first run of [main] on the scenario. *)
Definition seeded_services : live_state :=
  world (main 5 (Domains [economy]) (init empty_services)).2.

(** The indicator of the scenario as the catalog service holds it after
    the first run. *)
Definition linked_gdp : indicator_record :=
  {| ind_id := Some "oid1"; ind_name := Some "GDP"; ind_periodicity := Some "annual";
     ind_resources := ["oid2"]; ind_domain := Some "oid0" |}.

(** The same indicator before the backfill, and with other resources. *)
Definition with_resources (resources : list string) : indicator_record :=
  {| ind_id := Some "oid1"; ind_name := Some "GDP"; ind_periodicity := Some "annual";
     ind_resources := resources; ind_domain := Some "oid0" |}.

Definition unlinked_gdp : indicator_record := with_resources [].

(** *** Further sample data *)

Definition cpi : indicator_spec :=
  {| i_name := "CPI"; i_id := Some 11; i_categorization := Some "optional";
     i_characteristics :=
       {| periodicity := "monthly"; source := "INE"; scale := "index" |} |}.

(** A document with two indicators, and the services after a run of
    [main] on it: both indicators have a resource that exists. *)
Definition prices : domain_spec :=
  {| d_name := "Prices"; d_color := Some "#336699"; d_image := None;
     d_subdomains := [ {| s_name := "Output"; s_indicators := [gdp; cpi] |} ] |}.

Definition two_linked_services : live_state :=
  world (main 5 (Domains [prices]) (init empty_services)).2.

(** A document whose only indicator has the empty name. *)
Definition unnamed : domain_spec :=
  {| d_name := "Economy"; d_color := None; d_image := None;
     d_subdomains :=
       [ {| s_name := "Trade";
            s_indicators :=
              [ {| i_name := ""; i_id := None; i_categorization := None;
                   i_characteristics :=
                     {| periodicity := "annual"; source := "WorldBank";
                        scale := "billions" |} |} ] |} ] |}.

(** An indicator with two resources, both of them placeholders. *)
Definition twice_linked : indicator_record :=
  {| ind_id := Some "oid1"; ind_name := Some "GDP"; ind_periodicity := None;
     ind_resources := ["string"; "old_resource"]; ind_domain := None |}.

(** Services whose listing has a resource of id "string", and services
    with no resource at all. *)
Definition listing_with_string : live_state :=
  LiveState [] [twice_linked] [ {| res_id := Some "string" |} ] 5.

Definition no_resource : live_state := LiveState [] [twice_linked] [] 5.

(** A network that loses everything, and one that loses the link writes. *)
Definition offline : unreliable := Unreliable (λ _, true) empty_services.

Definition links_lost : unreliable :=
  Unreliable (λ r, match r with POST_indicator_resources _ _ => true | _ => false end)
             imported_services.

(** A network that loses the request for the second page of 51
    indicators. *)
Definition second_page_lost : unreliable :=
  Unreliable (λ r, bool_decide (r = GET_indicators (Some 50%nat) 50))
             (LiveState [] (replicate 51 linked_gdp) [] 0).

(** A network that loses the creations of domains. *)
Definition domains_refused : unreliable :=
  Unreliable (λ r, match r with POST_domains _ => true | _ => false end)
             empty_services.

(** The services of the scenario after its import, with a catalog that
    ignores [skip]. *)
Definition stuck_catalog : ignoring_skip := IgnoringSkip imported_services.

(** * Properties *)

(** ** Strings *)

Module PyStrFacts.
Import PyStr.

Lemma app_cons c s t : String c s +:+ t = String c (s +:+ t).
Proof. reflexivity. Qed.

Lemma app_nil_l s : "" +:+ s = s.
Proof. reflexivity. Qed.

Lemma app_assoc s t u : (s +:+ t) +:+ u = s +:+ t +:+ u.
Proof. induction s as [|c s IH]; [done|]. rewrite !app_cons. by f_equal. Qed.

Lemma startswith_spec s p : startswith s p = true ↔ ∃ post, s = p +:+ post.
Proof.
  revert s. induction p as [|a p IH]; intros s; simpl.
  - split; [intros _; by exists s|done].
  - destruct s as [|b s].
    + split; [done|]. intros [post Hpost]. by rewrite app_cons in Hpost.
    + rewrite andb_true_iff, bool_decide_eq_true, IH. split.
      * intros [-> [post ->]]. by exists post.
      * intros [post Hpost]. rewrite app_cons in Hpost.
        injection Hpost as -> ->. eauto.
Qed.

Lemma endswith_spec s p : endswith s p = true ↔ ∃ pre, s = pre +:+ p.
Proof.
  induction s as [|c s IH]; simpl.
  - rewrite orb_false_r, bool_decide_eq_true. split.
    + intros <-. by exists "".
    + intros [[|??] Hpre]; [done|by rewrite app_cons in Hpre].
  - rewrite orb_true_iff, bool_decide_eq_true, IH. split.
    + intros [<-|[pre ->]]; [by exists ""|by exists (String c pre)].
    + intros [[|c' pre] Hpre]; [by left|].
      rewrite app_cons in Hpre. injection Hpre as -> ->. right. eauto.
Qed.

Lemma contains_spec p s :
  contains p s = true ↔ ∃ pre post, s = pre +:+ p +:+ post.
Proof.
  induction s as [|c s IH]; simpl.
  - rewrite orb_false_r, startswith_spec. split.
    + intros [post Hpost]. by exists "", post.
    + intros [[|??] [post Hpost]]; [eauto|by rewrite app_cons in Hpost].
  - rewrite orb_true_iff, startswith_spec, IH. split.
    + intros [[post Hpost]|(pre & post & ->)].
      * by exists "", post.
      * by exists (String c pre), post.
    + intros ([|c' pre] & post & Hs).
      * left. by exists post.
      * rewrite app_cons in Hs. injection Hs as -> ->. right. eauto.
Qed.



Example lower_mixed : lower "Required KPI, BaseLine-2" = "required kpi, baseline-2".
Proof. reflexivity. Qed.

Example endswith_suffix :
  endswith "gdp_resource" "_resource" = true
  ∧ endswith "_resource" "_resource" = true
  ∧ endswith "resource" "_resource" = false
  ∧ endswith "gdp_resource_1" "_resource" = false.
Proof. by repeat split. Qed.

Example contains_substring :
  contains "baseline" "the baseline set" = true
  ∧ contains "required" "require d" = false
  ∧ contains "" "" = true.
Proof. by repeat split. Qed.

End PyStrFacts.


(** ** Reading the exchange log *)

Lemma count_log_app P l1 l2 :
  count_log P (l1 ++ l2) = (count_log P l1 + count_log P l2)%nat.
Proof. unfold count_log. by rewrite List.filter_app, length_app. Qed.

Lemma count_log_nil P : count_log P [] = 0%nat.
Proof. done. Qed.

Lemma count_log_zero P l :
  Forall (λ e, P e = false) l → count_log P l = 0%nat.
Proof.
  induction 1 as [|e l He _ IH]; [done|].
  unfold count_log in *. simpl. by rewrite He.
Qed.

(** ** The effect of each call *)

Section Effects.

Context {W : Type} `{!Services W}.

Lemma requests_eq r s :
  requests r s =
  let '(o, w) := serve r (world s) in
  (match o with Some resp => Return resp | None => Raise RequestException end,
   logged s r (status_of o) w).
Proof. unfold requests. by destruct (serve r (world s)) as [[resp|] w]. Qed.

Lemma check_service_health_eq s :
  check_service_health s =
  let '(o, w) := serve GET_health (world s) in
  (Return (match o with
           | Some resp => bool_decide (status_code resp = 200)
           | None => false
           end),
   logged s GET_health (status_of o) w).
Proof.
  unfold check_service_health, try_except, bind, requests.
  destruct (serve _ _) as [[resp|] w]; simpl; [|done].
  by case_bool_decide.
Qed.

Lemma create_domain_eq data s :
  create_domain data s =
  let '(o, w) := serve (POST_domains data) (world s) in
  (Return (match o with
           | Some resp =>
             if in_200_201 (status_code resp) then dom_id (json resp) else None
           | None => None
           end),
   logged s (POST_domains data) (status_of o) w).
Proof.
  unfold create_domain, try_except, bind, requests.
  destruct (serve _ _) as [[resp|] w]; simpl; [|done].
  by destruct (in_200_201 _).
Qed.

Lemma create_indicator_eq data domain_id subdomain_name s :
  create_indicator data domain_id subdomain_name s =
  let r := POST_indicators domain_id subdomain_name data in
  let '(o, w) := serve r (world s) in
  (Return (match o with
           | Some resp => in_200_201 (status_code resp)
           | None => false
           end),
   logged s r (status_of o) w).
Proof.
  unfold create_indicator, try_except, bind, requests.
  destruct (serve _ _) as [[resp|] w]; simpl; [|done].
  by destruct (in_200_201 _).
Qed.

Lemma create_resource_in_service_eq indicator_name indicator_id s :
  create_resource_in_service indicator_name indicator_id s =
  let r := POST_resources (make_resource_data indicator_name indicator_id) in
  let '(o, w) := serve r (world s) in
  (Return (match o with
           | Some resp =>
             if in_200_201 (status_code resp) then res_id (json resp) else None
           | None => None
           end),
   logged s r (status_of o) w).
Proof.
  unfold create_resource_in_service, try_except, bind, requests. simpl.
  fold (make_resource_data indicator_name indicator_id).
  destruct (serve _ _) as [[resp|] w]; simpl; [|done].
  by destruct (in_200_201 _).
Qed.

Lemma add_resource_to_indicator_eq indicator_id resource_id s :
  add_resource_to_indicator indicator_id resource_id s =
  let r := POST_indicator_resources (fmt indicator_id) resource_id in
  let '(o, w) := serve r (world s) in
  (Return (match o with
           | Some resp => in_200_201 (status_code resp)
           | None => false
           end),
   logged s r (status_of o) w).
Proof.
  unfold add_resource_to_indicator, try_except, bind, requests.
  destruct (serve _ _) as [[resp|] w]; simpl; [|done].
  by destruct (in_200_201 _).
Qed.

Lemma get_existing_domains_eq s :
  get_existing_domains s =
  let '(o, w) := serve GET_domains (world s) in
  (Return (match o with
           | Some resp =>
             if bool_decide (status_code resp = 200) then json resp else []
           | None => []
           end),
   logged s GET_domains (status_of o) w).
Proof.
  unfold get_existing_domains, try_except, bind, requests.
  destruct (serve _ _) as [[resp|] w]; simpl; [|done].
  by case_bool_decide.
Qed.

(** [for_each] with a body that always returns: an invariant indexed
    by the elements still to come. *)
Lemma for_each_returns {A S} (I : list A → S → state W → Prop)
    (body : A → S → M W S) :
  (∀ x rest acc s, I (x :: rest) acc s →
     ∃ acc' s', body x acc s = (Return acc', s') ∧ I rest acc' s') →
  ∀ l acc s, I l acc s →
     ∃ acc' s', for_each l body acc s = (Return acc', s') ∧ I [] acc' s'.
Proof.
  intros Hbody l. induction l as [|x l IH]; intros acc s HI.
  - by exists acc, s.
  - destruct (Hbody _ _ _ _ HI) as (acc' & s' & Hx & HI').
    destruct (IH _ _ HI') as (acc'' & s'' & Hl & HI'').
    exists acc'', s''. split; [|done].
    simpl. unfold bind. by rewrite Hx.
Qed.

End Effects.

(** ** The backfill pass *)

Section Backfill.

Context {W : Type} `{!Services W}.

Lemma needs_backfill_eq indicator s :
  needs_backfill indicator s =
  let indicator_name := fmt (ind_name indicator) in
  match ind_resources indicator with
  | [] => (Return true, s)
  | resource_id :: rest =>
    if bool_decide (rest = []) && bool_decide (resource_id = "string") then
      (Return true, printed s (ReplacingDummy indicator_name))
    else if bool_decide (rest = []) && PyStr.endswith resource_id "_resource" then
      (Return true, printed s (ReplacingGenerated indicator_name))
    else
      let '(o, w) := serve GET_resources (world s) in
      (Return (negb (membership_confirmed resource_id o)),
       printed (logged s GET_resources (status_of o) w)
         (match o with
          | None => ErrorChecking indicator_name
          | Some resp =>
            if bool_decide (status_code resp = 200) then
              if resource_exists resource_id (json resp)
              then SkippingIndicator indicator_name resource_id
              else ResourceNotFound indicator_name resource_id
            else CannotVerify indicator_name
          end))
  end.
Proof.
  unfold needs_backfill. destruct (ind_resources indicator) as [|r rest]; [done|].
  assert (bool_decide (length (r :: rest) = 1%nat) = bool_decide (rest = [])) as ->.
  { by destruct rest. }
  repeat match goal with
         | |- (if ?b then _ else _) _ = _ => destruct b; [done|]
         end.
  unfold try_except, bind. rewrite requests_eq.
  destruct (serve GET_resources (world s)) as [[[c l]|] w]; simpl in *; [|done].
  case_bool_decide; simpl; [|done].
  by destruct (resource_exists r l).
Qed.

Lemma create_and_link_eq indicator c s :
  create_and_link indicator c s =
  let indicator_name := fmt (ind_name indicator) in
  let r1 := POST_resources (make_resource_data (ind_name indicator) (ind_id indicator)) in
  let '(o1, w1) := serve r1 (world s) in
  let s1 := logged (printed s (CreatingResource indicator_name)) r1 (status_of o1) w1 in
  match truthy (created_id o1) with
  | Some resource_id =>
    let r2 := POST_indicator_resources (fmt (ind_id indicator)) resource_id in
    let '(o2, w2) := serve r2 w1 in
    let s2 := logged s1 r2 (status_of o2) w2 in
    if link_accepted o2 then
      (Return (Counters (total_indicators c) (updated_indicators c + 1)
                        (total_resources c + 1))%nat,
       printed s2 (AddedResource resource_id indicator_name))
    else (Return c, printed s2 (FailedToLink resource_id indicator_name))
  | None => (Return c, printed s1 (NoResourceCreated indicator_name))
  end.
Proof.
  unfold create_and_link, bind at 1 2. cbn [print].
  rewrite create_resource_in_service_eq. cbn zeta.
  cbn [world log console].
  destruct (serve _ (world s)) as [o1 w1].
  assert (match o1 with
          | Some resp =>
            if in_200_201 (status_code resp) then res_id (json resp) else None
          | None => None
          end = created_id o1) as -> by done.
  destruct (truthy (created_id o1)) as [resource_id|]; [|done].
  unfold bind. rewrite add_resource_to_indicator_eq. cbn zeta.
  cbn [world logged]. destruct (serve _ w1) as [o2 w2].
  assert (match o2 with
          | Some resp => in_200_201 (status_code resp)
          | None => false
          end = link_accepted o2) as -> by done.
  by destruct (link_accepted o2).
Qed.

Lemma accepted_link r (o : option (response unit)) :
  accepted (r, status_of o) = link_accepted o.
Proof. by destruct o. Qed.

Ltac delta :=
  cbn [log console logged printed];
  rewrite <- ?(assoc_L (++));
  first [reflexivity | symmetry; apply app_nil_r].

Lemma needs_backfill_effect indicator s :
  ∃ (b : bool) d lines s',
    needs_backfill indicator s = (Return b, s')
    ∧ log s' = log s ++ d
    ∧ console s' = console s ++ lines
    ∧ count_log is_GET_resources d = (if checks_listing indicator then 1 else 0)%nat
    ∧ count_log linked d = 0%nat
    ∧ Forall (λ e, backfill_exchange e = true) d
    ∧ Forall (λ l, is_ResourceSummary l = false) lines.
Proof.
  rewrite needs_backfill_eq. cbn zeta. unfold checks_listing.
  destruct (ind_resources indicator) as [|r rest].
  { eexists _, [], [], _. split; [done|]. rewrite !app_nil_r.
    repeat split; constructor. }
  destruct rest as [|r' rest]; cbn [bool_decide decide_rel andb];
    [rewrite !bool_decide_eq_true_2 by done|rewrite !bool_decide_eq_false_2 by done];
    cbn [andb negb].
  - case_bool_decide; cbn [negb andb].
    { eexists _, [], _, _. split; [done|]. split; [delta|]. split; [delta|].
      repeat split; repeat constructor. }
    destruct (PyStr.endswith r "_resource"); cbn [negb].
    { eexists _, [], _, _. split; [done|]. split; [delta|]. split; [delta|].
      repeat split; repeat constructor. }
    destruct (serve GET_resources (world s)) as [o w].
    eexists _, _, _, _. split; [done|]. split; [delta|]. split; [delta|].
    repeat split; repeat constructor. by destruct o as [[? ?]|]; simpl; repeat case_match.
  - destruct (serve GET_resources (world s)) as [o w].
    eexists _, _, _, _. split; [done|]. split; [delta|]. split; [delta|].
    repeat split; repeat constructor. by destruct o as [[? ?]|]; simpl; repeat case_match.
Qed.

Lemma create_and_link_effect indicator c s :
  ∃ (u : nat) d lines s',
    create_and_link indicator c s =
      (Return (Counters (total_indicators c) (updated_indicators c + u)
                        (total_resources c + u)), s')
    ∧ log s' = log s ++ d
    ∧ console s' = console s ++ lines
    ∧ count_log is_GET_resources d = 0%nat
    ∧ count_log linked d = u
    ∧ Forall (λ e, backfill_exchange e = true) d
    ∧ Forall (λ l, is_ResourceSummary l = false) lines.
Proof.
  rewrite create_and_link_eq. cbn zeta.
  destruct (serve _ (world s)) as [o1 w1].
  destruct (truthy (created_id o1)) as [resource_id|].
  - destruct (serve _ w1) as [o2 w2].
    destruct (link_accepted o2) eqn:Hlink.
    + eexists 1%nat, _, _, _. split; [done|].
      split; [delta|]. split; [delta|].
      rewrite !count_log_app. unfold count_log; simpl.
      unfold linked; simpl. rewrite accepted_link, Hlink.
      repeat split; repeat constructor.
    + eexists 0%nat, _, _, _. rewrite !Nat.add_0_r.
      split; [by destruct c|].
      split; [delta|]. split; [delta|].
      rewrite !count_log_app. unfold count_log; simpl.
      unfold linked; simpl. rewrite accepted_link, Hlink.
      repeat split; repeat constructor.
  - eexists 0%nat, _, _, _. rewrite !Nat.add_0_r.
    split; [by destruct c|].
    split; [delta|]. split; [delta|].
    repeat split; repeat constructor.
Qed.

(** What one turn of the loop does to the counters, the log and the
    console. *)
Lemma backfill_indicator_effect indicator c s :
  ∃ (u : nat) d lines s',
    backfill_indicator indicator c s =
      (Return (Counters (total_indicators c + 1) (updated_indicators c + u)
                        (total_resources c + u)), s')
    ∧ log s' = log s ++ d
    ∧ console s' = console s ++ lines
    ∧ count_log is_GET_resources d = (if checks_listing indicator then 1 else 0)%nat
    ∧ count_log linked d = u
    ∧ Forall (λ e, backfill_exchange e = true) d
    ∧ Forall (λ l, is_ResourceSummary l = false) lines.
Proof.
  unfold backfill_indicator, bind.
  destruct (needs_backfill_effect indicator s)
    as (b & d1 & l1 & s1 & -> & Hlog1 & Hcon1 & Hget1 & Hlink1 & Hd1 & Hl1).
  destruct b.
  - destruct (create_and_link_effect indicator
                (Counters (total_indicators c + 1) (updated_indicators c)
                          (total_resources c)) s1)
      as (u & d2 & l2 & s2 & -> & Hlog2 & Hcon2 & Hget2 & Hlink2 & Hd2 & Hl2).
    exists u, (d1 ++ d2), (l1 ++ l2), s2. split; [done|].
    rewrite Hlog2, Hlog1, Hcon2, Hcon1, !count_log_app, Hget1, Hget2, Hlink1, Hlink2.
    rewrite <- !(assoc_L (++)), !Forall_app.
    repeat split; try done.
  - exists 0%nat, d1, l1, s1. rewrite !Nat.add_0_r. done.
Qed.

Lemma backfill_loop_effect indicators c s :
  ∃ (u : nat) d lines s',
    for_each indicators backfill_indicator c s =
      (Return (Counters (total_indicators c + length indicators)
                        (updated_indicators c + u) (total_resources c + u)), s')
    ∧ log s' = log s ++ d
    ∧ console s' = console s ++ lines
    ∧ count_log is_GET_resources d = length (List.filter checks_listing indicators)
    ∧ count_log linked d = u
    ∧ Forall (λ e, backfill_exchange e = true) d
    ∧ Forall (λ l, is_ResourceSummary l = false) lines.
Proof.
  revert c s. induction indicators as [|indicator indicators IH]; intros c s.
  - exists 0%nat, [], [], s. rewrite !Nat.add_0_r, !app_nil_r.
    split; [by destruct c|]. repeat split; constructor.
  - cbn [for_each]. unfold bind.
    destruct (backfill_indicator_effect indicator c s)
      as (u1 & d1 & l1 & s1 & -> & Hlog1 & Hcon1 & Hget1 & Hlink1 & Hd1 & Hl1).
    destruct (IH (Counters (total_indicators c + 1) (updated_indicators c + u1)
                           (total_resources c + u1)) s1)
      as (u2 & d2 & l2 & s2 & -> & Hlog2 & Hcon2 & Hget2 & Hlink2 & Hd2 & Hl2).
    exists (u1 + u2)%nat, (d1 ++ d2), (l1 ++ l2), s2.
    cbn [total_indicators updated_indicators total_resources length].
    split; [do 3 f_equal; lia|].
    rewrite Hlog2, Hlog1, Hcon2, Hcon1, !count_log_app, Hget1, Hget2, Hlink1, Hlink2.
    rewrite <- !(assoc_L (++)), !Forall_app.
    repeat split; try done.
    cbn [List.filter]. by destruct (checks_listing indicator).
Qed.

(** The paginated fetch never raises, only issues paginated GETs and
    prints nothing. *)
Lemma pagination_loop_effect fuel all_indicators skip s :
  ∃ o d s',
    pagination_loop fuel all_indicators skip s = (o, s')
    ∧ (∀ e, o ≠ Raise e)
    ∧ log s' = log s ++ d
    ∧ console s' = console s
    ∧ Forall (λ e, is_GET_indicators e = true) d.
Proof.
  revert all_indicators skip s.
  induction fuel as [|fuel IH]; intros all_indicators skip s.
  - exists OutOfFuel, [], s. rewrite app_nil_r. repeat split; [done|constructor].
  - cbn [pagination_loop]. unfold bind, try_except. rewrite requests_eq.
    destruct (serve _ (world s)) as [[[c l]|] w]; cbn [status_code json ret].
    + case_bool_decide; [destruct l as [|i l]|].
      * eexists _, _, _. split; [done|]. split; [done|]. split; [delta|].
        split; [done|]. by repeat constructor.
      * simpl.
        match goal with
        | |- context [pagination_loop fuel ?a ?k ?s1] =>
          destruct (IH a k s1) as (o & d & s' & -> & Ho & Hlog & Hcon & Hd)
        end.
        exists o, ((GET_indicators (Some skip) limit, Some c) :: d), s'.
        split; [done|]. split; [done|]. rewrite Hlog, Hcon.
        split; [delta|]. split; [done|]. by constructor.
      * eexists _, _, _. split; [done|]. split; [done|]. split; [delta|].
        split; [done|]. by repeat constructor.
    + eexists _, _, _. split; [done|]. split; [done|]. split; [delta|].
      split; [done|]. by repeat constructor.
Qed.

Lemma count_log_other (P Q : exchange → bool) d :
  Forall (λ e, P e = true) d → (∀ e, P e = true → Q e = false) →
  count_log Q d = 0%nat.
Proof. intros Hd HPQ. apply count_log_zero. eapply Forall_impl; eauto. Qed.

Lemma add_resources_to_all_indicators_effect fuel s :
  ∃ o d lines s',
    add_resources_to_all_indicators fuel s = (o, s')
    ∧ (∀ e, o ≠ Raise e)
    ∧ log s' = log s ++ d
    ∧ console s' = console s ++ lines
    ∧ Forall (λ e, is_POST_indicators e = false) d
    ∧ (∀ t u r, ResourceSummary t u r ∈ lines → u = r ∧ u = count_log linked d)
    ∧ match get_all_indicators_with_pagination fuel (printed s AddingResources) with
      | (Return indicators, _) =>
        count_log is_GET_resources d = length (List.filter checks_listing indicators)
        ∧ o = Return (bool_decide (0 < count_log linked d)%nat)
      | (_, _) => count_log is_GET_resources d = 0%nat ∧ o = OutOfFuel
      end.
Proof.
  unfold add_resources_to_all_indicators, bind at 1 2. cbn [print].
  fold (printed s AddingResources).
  unfold get_all_indicators_with_pagination.
  destruct (pagination_loop_effect fuel [] 0%nat (printed s AddingResources))
    as (o0 & d0 & s0 & -> & Ho0 & Hlog0 & Hcon0 & Hd0).
  cbn [log console printed] in Hlog0, Hcon0.
  assert (count_log is_GET_resources d0 = 0%nat) as Hget0.
  { eapply count_log_other; [done|]. by intros [[] ?]. }
  assert (count_log linked d0 = 0%nat) as Hlink0.
  { eapply count_log_other; [done|]. by intros [[] ?]. }
  assert (Forall (λ e, is_POST_indicators e = false) d0) as Hpost0.
  { eapply Forall_impl; [done|]. by intros [[] ?]. }
  destruct o0 as [indicators|e|].
  - destruct indicators as [|indicator indicators].
    + eexists _, d0, _, _. split; [done|]. split; [done|].
      split; [by cbn|]. split; [cbn; by rewrite Hcon0, <- (assoc_L (++))|].
      split; [done|]. rewrite Hlink0, Hget0. split; [|done].
      intros t u r Hin. rewrite !elem_of_app, !list_elem_of_singleton in Hin.
      by destruct Hin.
    + unfold bind. cbn [print].
      match goal with
      | |- context [for_each ?l backfill_indicator ?c ?s1] =>
        destruct (backfill_loop_effect l c s1)
          as (u & d & lines & s' & -> & Hlog & Hcon & Hget & Hlink & Hd & Hlines)
      end.
      cbn [log console world updated_indicators total_resources total_indicators]
        in *.
      eexists _, (d0 ++ d), _, _. split; [done|]. split; [done|].
      split; [cbn; by rewrite Hlog, Hlog0, <- (assoc_L (++))|].
      split; [cbn; rewrite Hcon, Hcon0, <- !(assoc_L (++)); done|].
      rewrite !count_log_app, Hget0, Hlink0, Hlink, Hget. cbn [Nat.add].
      split; [|split; [|done]].
      * apply Forall_app. split; [done|].
        eapply Forall_impl; [done|]. intros [[] ?]; done.
      * intros t u' r Hin.
        rewrite !elem_of_app, !list_elem_of_singleton in Hin.
        destruct Hin as [Hin|[Hin|[Hin|Hin]]]; try done.
        -- rewrite Forall_forall in Hlines. by apply Hlines in Hin.
        -- by injection Hin as -> -> ->.
  - by destruct (Ho0 e).
  - eexists _, d0, [AddingResources], _. split; [done|]. split; [done|].
    split; [done|]. split; [done|]. split; [done|].
    split; [|done]. intros t u r Hin. apply list_elem_of_singleton in Hin. done.
Qed.

End Backfill.

(** ** The import pass *)

Section ImportEffects.

Context {W : Type} `{!Services W}.
Implicit Types s : state W.

Lemma only_exchanges_refl P s : only_exchanges P s s.
Proof. exists []. by rewrite app_nil_r. Qed.

Lemma only_exchanges_trans P s0 s1 s2 :
  only_exchanges P s0 s1 → only_exchanges P s1 s2 → only_exchanges P s0 s2.
Proof.
  intros (d1 & Hl1 & Hc1 & Hd1) (d2 & Hl2 & Hc2 & Hd2).
  exists (d1 ++ d2). rewrite Hl2, Hl1, Hc2, Hc1, Forall_app.
  by rewrite <- (assoc_L (++)).
Qed.

Lemma only_exchanges_logged P s r st w :
  P (r, st) = true → only_exchanges P s (logged s r st w).
Proof. intros HP. exists [(r, st)]. repeat split; by repeat constructor. Qed.

Lemma only_exchanges_weaken (P Q : exchange → bool) s0 s :
  (∀ e, P e = true → Q e = true) →
  only_exchanges P s0 s → only_exchanges Q s0 s.
Proof.
  intros HPQ (d & Hl & Hc & Hd). exists d. repeat split; try done.
  eapply Forall_impl; eauto.
Qed.

(** The domain phase only posts domains. *)
Lemma import_domain_effect names domain_json m s :
  ∃ m' s', import_domain names domain_json m s = (Return m', s')
           ∧ only_exchanges is_POST_domains s s'.
Proof.
  unfold import_domain. case_bool_decide.
  - exists m, s. split; [done|]. apply only_exchanges_refl.
  - unfold bind. rewrite create_domain_eq.
    destruct (serve _ (world s)) as [o w]. cbn iota beta.
    destruct (truthy _); eexists _, _; (split; [done|]);
      by apply only_exchanges_logged.
Qed.

Lemma import_domains_effect names domains m s :
  ∃ m' s', for_each domains (import_domain names) m s = (Return m', s')
           ∧ only_exchanges is_POST_domains s s'.
Proof.
  apply (for_each_returns (λ _ _ s', only_exchanges is_POST_domains s s'));
    [|apply only_exchanges_refl].
  intros domain_json _ m1 s1 H1.
  destruct (import_domain_effect names domain_json m1 s1) as (m2 & s2 & ? & ?).
  exists m2, s2. eauto using only_exchanges_trans.
Qed.

Lemma indicators_counted_refl s c : indicators_counted s c c s.
Proof. exists []. rewrite !app_nil_r, count_log_nil. repeat split; [done|lia]. Qed.

Lemma indicators_counted_trans s0 c0 s1 c1 s2 c2 :
  indicators_counted s0 c0 c1 s1 → indicators_counted s1 c1 c2 s2 →
  indicators_counted s0 c0 c2 s2.
Proof.
  intros (d1 & Hl1 & Hc1 & Hd1 & Hn1) (d2 & Hl2 & Hc2 & Hd2 & Hn2).
  exists (d1 ++ d2).
  rewrite Hl2, Hl1, Hc2, Hc1, Forall_app, count_log_app, Hn2, Hn1.
  rewrite <- (assoc_L (++)). repeat split; try done. lia.
Qed.

Lemma import_indicator_effect existing domain_id subdomain_name indicator_json c s :
  ∃ c' s',
    import_indicator existing domain_id subdomain_name indicator_json c s
    = (Return c', s')
    ∧ indicators_counted s c c' s'.
Proof.
  unfold import_indicator. case_bool_decide.
  - eexists _, s. split; [done|]. exists []. rewrite !app_nil_r.
    repeat split; [done|]. cbn. lia.
  - unfold bind. rewrite create_indicator_eq. cbn zeta.
    destruct (serve _ (world s)) as [o w]. cbn iota beta.
    assert (accepted (POST_indicators domain_id subdomain_name
              (make_indicator_data indicator_json subdomain_name), status_of o)
            = match o with
              | Some resp => in_200_201 (status_code resp)
              | None => false
              end) as Hacc by by destruct o.
    destruct (match o with Some _ => _ | None => _ end);
      eexists _, _; (split; [done|]);
      (eexists [_]; split; [done|]; split; [done|]; split; [by repeat constructor|]);
      unfold count_log, indicator_created; cbn [List.filter is_POST_indicators fst andb];
      rewrite Hacc; cbn; lia.
Qed.

Lemma import_subdomain_effect existing domain_id subdomain c s :
  ∃ c' s', import_subdomain existing domain_id subdomain c s = (Return c', s')
           ∧ indicators_counted s c c' s'.
Proof.
  apply (for_each_returns (λ _ c' s', indicators_counted s c c' s'));
    [|apply indicators_counted_refl].
  intros indicator_json _ c1 s1 H1.
  destruct (import_indicator_effect existing domain_id (s_name subdomain)
              indicator_json c1 s1) as (c2 & s2 & ? & ?).
  exists c2, s2. eauto using indicators_counted_trans.
Qed.

Lemma import_domain_indicators_effect m existing domain_json c s :
  ∃ c' s', import_domain_indicators m existing domain_json c s = (Return c', s')
           ∧ indicators_counted s c c' s'.
Proof.
  unfold import_domain_indicators. destruct (truthy _) as [domain_id|].
  - apply (for_each_returns (λ _ c' s', indicators_counted s c c' s'));
      [|apply indicators_counted_refl].
    intros subdomain _ c1 s1 H1.
    destruct (import_subdomain_effect existing domain_id subdomain c1 s1)
      as (c2 & s2 & ? & ?).
    exists c2, s2. eauto using indicators_counted_trans.
  - exists c, s. split; [done|]. apply indicators_counted_refl.
Qed.

Lemma import_indicators_effect m existing domains c s :
  ∃ c' s',
    for_each domains (import_domain_indicators m existing) c s = (Return c', s')
    ∧ indicators_counted s c c' s'.
Proof.
  apply (for_each_returns (λ _ c' s', indicators_counted s c c' s'));
    [|apply indicators_counted_refl].
  intros domain_json _ c1 s1 H1.
  destruct (import_domain_indicators_effect m existing domain_json c1 s1)
    as (c2 & s2 & ? & ?).
  exists c2, s2. eauto using indicators_counted_trans.
Qed.

Lemma pagination_only_reads fuel s :
  ∃ o s', get_all_indicators_with_pagination fuel s = (o, s')
          ∧ (∀ e, o ≠ Raise e)
          ∧ only_exchanges is_GET_indicators s s'.
Proof.
  destruct (pagination_loop_effect fuel [] 0%nat s) as (o & d & s' & ? & ? & ? & ? & ?).
  exists o, s'. split; [done|]. split; [done|]. by exists d.
Qed.

Lemma only_exchanges_count P Q s0 s :
  only_exchanges P s0 s → (∀ e, P e = true → Q e = false) →
  ∃ d, log s = log s0 ++ d ∧ count_log Q d = 0%nat.
Proof.
  intros (d & Hl & _ & Hd) HPQ. exists d. split; [done|].
  by eapply count_log_other.
Qed.

(** The import returns whether some indicator creation was accepted. *)
Lemma import_complete_data_effect fuel file s :
  ∃ o d s',
    import_complete_data fuel file s = (o, s')
    ∧ log s' = log s ++ d
    ∧ (o = Return (bool_decide (0 < count_log indicator_created d)%nat)
       ∨ o = OutOfFuel ∧ count_log indicator_created d = 0%nat).
Proof.
  destruct file as [| |domains]; cbn [import_complete_data].
  1,2: exists (Return false), [], s; rewrite app_nil_r; by eauto.
  unfold bind at 1. rewrite get_existing_domains_eq.
  destruct (serve GET_domains (world s)) as [o0 w0]. cbn iota beta.
  set (existing_domains := match o0 with Some _ => _ | None => _ end).
  set (s0 := logged s GET_domains (status_of o0) w0).
  unfold bind at 1.
  destruct (import_domains_effect (list_to_set (dom_name <$> existing_domains))
              domains (map_domain_ids existing_domains) s0)
    as (m & s1 & -> & H1).
  unfold bind at 1. unfold get_existing_indicators, bind at 1.
  destruct (pagination_only_reads fuel s1) as (o2 & s2 & -> & Ho2 & H2).
  assert (only_exchanges (λ e, negb (is_POST_indicators e)) s s2) as H02.
  { eapply only_exchanges_trans; [|eapply only_exchanges_trans].
    - by apply (only_exchanges_logged _ s GET_domains (status_of o0) w0).
    - eapply only_exchanges_weaken; [|apply H1]. by intros [[] ?].
    - eapply only_exchanges_weaken; [|apply H2]. by intros [[] ?]. }
  destruct (only_exchanges_count _ indicator_created _ _ H02) as (d02 & Hl02 & Hn02).
  { intros [[] ?]; by cbn. }
  destruct o2 as [indicators|e|]; [|by destruct (Ho2 e)|].
  - cbn [ret]. unfold bind at 1.
    destruct (import_indicators_effect m (index_by_name indicators) domains
                (ImportCounters 0 0 0) s2) as (c & s3 & -> & d & Hl3 & Hc3 & Hd3 & Hn3).
    cbn [bind print ret]. eexists _, (d02 ++ d), _. split; [done|].
    cbn [log]. rewrite Hl3, Hl02, <- (assoc_L (++)). split; [done|]. left.
    rewrite count_log_app, Hn02, Hn3. done.
  - exists OutOfFuel, d02, s2. split; [done|]. split; [done|]. by right.
Qed.

Lemma test_api_endpoints_effect fuel s :
  ∃ o s', test_api_endpoints fuel s = (o, s')
          ∧ (o = Return tt ∨ o = OutOfFuel)
          ∧ only_exchanges is_GET s s'.
Proof.
  unfold test_api_endpoints, try_except, bind at 1. rewrite requests_eq.
  destruct (serve _ (world s)) as [[r1|] w1]; cbn iota beta.
  2:{ eexists _, _. split; [done|]. split; [by left|]. by apply only_exchanges_logged. }
  set (s1 := logged s _ _ w1).
  assert (only_exchanges is_GET s s1) as H1 by by apply only_exchanges_logged.
  unfold bind at 1. rewrite requests_eq.
  destruct (serve _ (world s1)) as [[[c2 domains]|] w2]; cbn iota beta.
  2:{ eexists _, _. split; [done|]. split; [by left|].
      eapply only_exchanges_trans; [done|]. by apply only_exchanges_logged. }
  set (s2 := logged s1 _ _ w2).
  assert (only_exchanges is_GET s s2) as H2.
  { eapply only_exchanges_trans; [done|]. by apply only_exchanges_logged. }
  assert (∃ o3 s3,
    (if bool_decide (c2 = 200) then
       match domains with
       | first_domain :: _ =>
         _ <- requests (GET_indicators_domain (fmt (dom_id first_domain)) 3);;
         ret tt
       | [] => ret tt
       end
     else ret tt) s2 = (o3, s3)
    ∧ (o3 = Return tt ∨ o3 = Raise RequestException)
    ∧ only_exchanges is_GET s s3) as (o3 & s3 & E3 & Ho3 & H3).
  { case_bool_decide; [destruct domains as [|first_domain ?]|].
    1,3: exists (Return tt), s2; by eauto.
    unfold bind. rewrite requests_eq.
    destruct (serve _ (world s2)) as [[r3|] w3]; eexists _, _;
      (split; [done|]); (split; [by eauto|]);
      (eapply only_exchanges_trans; [done|]); by apply only_exchanges_logged. }
  unfold bind at 1. cbn [status_code json]. rewrite E3.
  destruct Ho3 as [-> | ->]; [|exists (Return tt), s3; by eauto].
  unfold bind.
  destruct (pagination_only_reads fuel s3) as (o4 & s4 & -> & Ho4 & H4).
  assert (only_exchanges is_GET s s4) as H04.
  { eapply only_exchanges_trans; [done|].
    eapply only_exchanges_weaken; [|done]. by intros [[] ?]. }
  destruct o4 as [?|e|];
    [exists (Return tt), s4; by eauto|by destruct (Ho4 e)|exists OutOfFuel, s4; by eauto].
Qed.

End ImportEffects.

(** ** Decisions of the script, for any services *)

Lemma resource_exists_spec resource_id resources_list :
  resource_exists resource_id resources_list = true
  ↔ ∃ r, r ∈ resources_list ∧ res_id r = Some resource_id.
Proof.
  unfold resource_exists. rewrite existsb_exists. split.
  - intros (r & Hin & Hr). exists r. rewrite list_elem_of_In.
    by apply bool_decide_eq_true in Hr.
  - intros (r & Hin & Hr). exists r. rewrite <- list_elem_of_In.
    by rewrite bool_decide_eq_true.
Qed.

(** Membership is confirmed exactly when the listing came back with
    status 200 and one of its resources has the id. *)
Lemma membership_confirmed_spec resource_id o :
  membership_confirmed resource_id o = true
  ↔ ∃ resp, o = Some resp ∧ status_code resp = 200
            ∧ ∃ r, r ∈ json resp ∧ res_id r = Some resource_id.
Proof.
  unfold membership_confirmed. destruct o as [resp|].
  - rewrite andb_true_iff, bool_decide_eq_true, resource_exists_spec.
    split; [intros []; eauto|]. by intros (? & [= <-] & ? & ?).
  - split; [done|]. by intros (? & ? & _).
Qed.

(** The same with [in_listing]. *)
Lemma in_listing_spec resource_id o :
  membership_confirmed resource_id o = true ↔ in_listing resource_id o.
Proof. apply membership_confirmed_spec. Qed.

Lemma no_success_not_in_listing resource_id o :
  no_success o → ¬ in_listing resource_id o.
Proof.
  intros Hno (resp & -> & Hst & _). by apply Hno.
Qed.

Lemma absent_not_in_listing resource_id o resp :
  o = Some resp → (∀ r, r ∈ json resp → res_id r ≠ Some resource_id) →
  ¬ in_listing resource_id o.
Proof.
  intros -> Habsent (resp' & [= <-] & _ & r & Hin & Hr). by apply (Habsent r).
Qed.

(** The id is not in the listing: the existence check failed, or the
    listing came and none of its resources has the id. *)
Lemma not_in_listing_spec resource_id o :
  ¬ in_listing resource_id o
  ↔ no_success o
    ∨ ∃ resp, o = Some resp ∧ ∀ r, r ∈ json resp → res_id r ≠ Some resource_id.
Proof.
  split.
  - intros Hout. destruct o as [resp|]; [|by left].
    destruct (decide (status_code resp = 200)) as [Hst|Hst]; [|by left].
    right. exists resp. split; [done|]. intros r Hin Hr. apply Hout.
    exists resp. split; [done|]. split; [done|]. by exists r.
  - intros [Hno|(resp & Heq & Habsent)].
    + by apply no_success_not_in_listing.
    + by eapply absent_not_in_listing.
Qed.

Lemma endswith_false s p : ¬ (∃ pre, s = pre +:+ p) → PyStr.endswith s p = false.
Proof.
  intros Hno. apply not_true_is_false. intros H. apply Hno.
  by apply PyStrFacts.endswith_spec.
Qed.

Lemma not_suffix s p : PyStr.endswith s p = false → ¬ (∃ pre, s = pre +:+ p).
Proof. intros Hf Hs%PyStrFacts.endswith_spec. congruence. Qed.

Section Decisions.

Context {W : Type} `{!Services W}.


(** C5. The state fetchers never raise.  When the response to a page
    request is missing or is not a 200, the paginated fetch stops and
    returns the records accumulated so far; when the response to the
    domain request is missing or is not a 200, the domain fetch returns
    the empty list. *)
Theorem state_fetchers_never_raise (fuel : nat)
    (all_indicators : list indicator_record) (skip : nat) (s : state W) :
  (∀ e, (pagination_loop fuel all_indicators skip s).1 ≠ Raise e)
  ∧ (∀ e, (get_all_indicators_with_pagination fuel s).1 ≠ Raise e)
  ∧ (no_success (serve (GET_indicators (Some skip) limit) (world s)).1 →
     (pagination_loop (S fuel) all_indicators skip s).1 = Return all_indicators)
  ∧ (∃ domains, (get_existing_domains s).1 = Return domains)
  ∧ (no_success (serve GET_domains (world s)).1 →
     (get_existing_domains s).1 = Return []).
Proof.
  split; [|split; [|split; [|split]]].
  - destruct (pagination_loop_effect fuel all_indicators skip s)
      as (o & d & s' & -> & Ho & _). done.
  - unfold get_all_indicators_with_pagination.
    destruct (pagination_loop_effect fuel [] 0%nat s) as (o & d & s' & -> & Ho & _).
    done.
  - cbn [pagination_loop]. unfold bind, try_except. rewrite requests_eq.
    destruct (serve _ (world s)) as [[[st l]|] w]; cbn; [|done].
    intros Hst. by rewrite bool_decide_eq_false_2.
  - rewrite get_existing_domains_eq.
    destruct (serve GET_domains (world s)) as [o w]. eauto.
  - rewrite get_existing_domains_eq.
    destruct (serve GET_domains (world s)) as [[[st l]|] w]; cbn; [|done].
    intros Hst. by rewrite bool_decide_eq_false_2.
Qed.

(** C2. The decision for an indicator with at most one resource.  No
    resource, or a lone "string", or a lone id that ends with
    "_resource", needs backfill, and the listing is not asked for.  Any
    other lone id [r] costs one request for the listing, and needs
    backfill exactly when the listing does not confirm [r]: the request
    failed or its status is not 200 (the check fails open), or the
    listing came and none of its resources has the id [r].  It needs
    none exactly when the listing came with status 200 and has a
    resource of id [r]; then the turn of the loop ends with the listing
    request as its only exchange and only the processed count
    changed. *)
Theorem needs_backfill_decision (indicator : indicator_record) (c : counters)
    (s : state W) :
  let listing := (serve GET_resources (world s)).1 in
  (ind_resources indicator = [] →
     (needs_backfill indicator s).1 = Return true
     ∧ log (needs_backfill indicator s).2 = log s)
  ∧ (∀ r, ind_resources indicator = [r] →
       r = "string" ∨ (∃ pre, r = pre +:+ "_resource") →
       (needs_backfill indicator s).1 = Return true
       ∧ log (needs_backfill indicator s).2 = log s)
  ∧ (∀ r, ind_resources indicator = [r] →
       r ≠ "string" → ¬ (∃ pre, r = pre +:+ "_resource") →
       log (needs_backfill indicator s).2
         = log s ++ [(GET_resources, status_of listing)]
       ∧ ((needs_backfill indicator s).1 = Return true ↔ ¬ in_listing r listing)
       ∧ ((needs_backfill indicator s).1 = Return false ↔ in_listing r listing)
       ∧ ((needs_backfill indicator s).1 = Return true
          ↔ no_success listing
            ∨ ∃ resp, listing = Some resp
                      ∧ ∀ res, res ∈ json resp → res_id res ≠ Some r)
       ∧ (in_listing r listing →
          (backfill_indicator indicator c s).1
            = Return (Counters (total_indicators c + 1) (updated_indicators c)
                               (total_resources c))
          ∧ log (backfill_indicator indicator c s).2
            = log s ++ [(GET_resources, Some 200)])).
Proof.
  intros listing. unfold backfill_indicator, bind.
  rewrite needs_backfill_eq. cbn zeta. subst listing.
  split; [|split].
  - by intros ->.
  - intros r -> Hr. cbn [bool_decide decide_rel andb].
    rewrite (bool_decide_eq_true_2 ([] = [])) by done. cbn [andb].
    destruct Hr as [-> | Hr]; [done|].
    apply PyStrFacts.endswith_spec in Hr. rewrite Hr.
    by case_bool_decide.
  - intros r -> Hr1 Hr2. apply endswith_false in Hr2.
    rewrite (bool_decide_eq_true_2 ([] = [])) by done. cbn [andb].
    rewrite (bool_decide_eq_false_2 (r = "string")), Hr2 by done.
    destruct (serve GET_resources (world s)) as [o w]. cbn [fst snd].
    pose proof (in_listing_spec r o) as Hspec.
    assert (Return (negb (membership_confirmed r o)) = Return true
            ↔ ¬ in_listing r o) as Htrue.
    { rewrite <- Hspec. destruct (membership_confirmed r o); cbn; split; try done.
      all: try (intros Hn; by destruct Hn). }
    assert (Return (negb (membership_confirmed r o)) = Return false
            ↔ in_listing r o) as Hfalse.
    { rewrite <- Hspec. by destruct (membership_confirmed r o). }
    split; [done|]. split; [done|]. split; [done|]. split; [|].
    + rewrite Htrue. apply not_in_listing_spec.
    + intros Hin. pose proof Hin as Hm. apply Hspec in Hm. rewrite Hm.
      cbn [negb]. split; [done|].
      destruct Hin as (resp & -> & Hst & _). cbn. by rewrite Hst.
Qed.

(** C8. An indicator that enters backfill adds one to the updated
    count when the resource creation gives a non-empty id and the link
    write is accepted, and leaves the count as it was otherwise.  When
    the resource was created and the link write failed, the warning
    that the resource could not be linked is printed and the creation
    and the link write are the only two exchanges: nothing is tried
    again. *)
Theorem updated_iff_created_and_linked (indicator : indicator_record)
    (c : counters) (s : state W) :
  let indicator_name := fmt (ind_name indicator) in
  let r1 := POST_resources (make_resource_data (ind_name indicator) (ind_id indicator)) in
  let o1 := (serve r1 (world s)).1 in
  ∃ c' s',
    create_and_link indicator c s = (Return c', s')
    ∧ match truthy (created_id o1) with
      | Some resource_id =>
        let r2 := POST_indicator_resources (fmt (ind_id indicator)) resource_id in
        let o2 := (serve r2 (serve r1 (world s)).2).1 in
        if link_accepted o2 then
          updated_indicators c' = (updated_indicators c + 1)%nat
        else
          updated_indicators c' = updated_indicators c
          ∧ console s' = console s ++ [CreatingResource indicator_name;
                                       FailedToLink resource_id indicator_name]
          ∧ log s' = log s ++ [(r1, status_of o1); (r2, status_of o2)]
      | None => updated_indicators c' = updated_indicators c
      end.
Proof.
  cbn zeta. rewrite create_and_link_eq. cbn zeta.
  destruct (serve _ (world s)) as [o1 w1]. cbn [fst snd].
  destruct (truthy (created_id o1)) as [resource_id|]; [|by eauto].
  destruct (serve _ w1) as [o2 w2]. cbn [fst snd].
  destruct (link_accepted o2); eexists _, _; (split; [done|]); [done|].
  cbn [log console logged printed]. by rewrite <- !(assoc_L (++)).
Qed.

(** C9. In the summary of a backfill pass the updated count and the
    resources count are the same number: the number of link writes the
    catalog service accepted.  A resource whose link write failed is
    in neither. *)
Theorem summary_updated_equals_resources (fuel : nat) (w : W) (t u r : nat) :
  let s' := (add_resources_to_all_indicators fuel (init w)).2 in
  ResourceSummary t u r ∈ console s' →
  u = r ∧ r = count_log linked (log s').
Proof.
  cbn zeta.
  destruct (add_resources_to_all_indicators_effect fuel (init w))
    as (o & d & lines & s' & -> & _ & Hlog & Hcon & _ & Hsum & _).
  cbn [snd]. rewrite Hlog, Hcon. cbn [init log console app].
  intros Hin. destruct (Hsum _ _ _ Hin) as [-> ->]. done.
Qed.

(** C6, as the script has it.  The listing is not kept from one
    indicator to the next: a backfill pass asks for it once for every
    fetched indicator whose resources are not empty and not a lone
    placeholder. *)
Theorem listing_fetched_per_indicator (fuel : nat) (s : state W) :
  let s' := (add_resources_to_all_indicators fuel s).2 in
  ∃ d, log s' = log s ++ d
       ∧ match get_all_indicators_with_pagination fuel (printed s AddingResources) with
         | (Return indicators, _) =>
           count_log is_GET_resources d
           = length (List.filter checks_listing indicators)
         | (_, _) => count_log is_GET_resources d = 0%nat
         end.
Proof.
  cbn zeta.
  destruct (add_resources_to_all_indicators_effect fuel s)
    as (o & d & lines & s' & -> & _ & Hlog & _ & _ & _ & Hget).
  exists d. split; [done|].
  destruct (get_all_indicators_with_pagination fuel _) as [[indicators|e|] s1];
    by destruct Hget.
Qed.

End Decisions.

(** ** The exit status *)

Section ExitStatus.

Context {W : Type} `{!Services W}.

(** When [main] ends, it ends with status 0 if the health check got a
    200 and the catalog service accepted at least one indicator
    creation, and with status 1 otherwise. *)
Lemma main_exit_status (fuel : nat) (file : domains_file) (w : W) :
  let '(o, s') := main fuel file (init w) in
  match exit_status o with
  | Some code =>
    code = 0 ∧ healthy w ∧ (0 < count_log indicator_created (log s'))%nat
    ∨ code = 1 ∧ (¬ healthy w ∨ count_log indicator_created (log s') = 0%nat)
  | None => o = OutOfFuel
  end.
Proof.
  unfold main, bind at 1. rewrite check_service_health_eq. unfold healthy.
  cbn [init world]. destruct (serve GET_health w) as [o0 w0]. cbn [fst].
  set (s0 := logged _ _ _ w0).
  destruct o0 as [[st []]|]; cbn [status_code negb];
    [case_bool_decide as Hst|]; cbn [negb].
  2,3: right; split; [done|]; left; tauto.
  unfold bind at 1.
  destruct (import_complete_data_effect fuel file s0) as (o1 & d1 & s1 & -> & Hl1 & Ho1).
  assert (count_log indicator_created (log s1) = count_log indicator_created d1) as Hn1.
  { rewrite Hl1. cbn [s0 logged log init]. by rewrite !count_log_app. }
  destruct Ho1 as [-> | [-> Hz]]; [|done].
  case_bool_decide as Hpos; cbn [sys_exit raise exit_status].
  2:{ right. split; [done|]. right. lia. }
  unfold bind.
  destruct (add_resources_to_all_indicators_effect fuel s1)
    as (o2 & d2 & l2 & s2 & -> & Ho2 & Hl2 & _ & Hd2 & _).
  assert (count_log indicator_created (log s2) = count_log indicator_created d1) as Hn2.
  { rewrite Hl2, count_log_app, Hn1.
    rewrite (count_log_zero indicator_created d2); [lia|].
    eapply Forall_impl; [done|]. intros e He. unfold indicator_created.
    by rewrite He. }
  destruct o2 as [b|e|]; [|by destruct (Ho2 e)|done].
  destruct (test_api_endpoints_effect fuel s2) as (o3 & s3 & -> & Ho3 & H3).
  destruct (only_exchanges_count _ indicator_created _ _ H3) as (d3 & Hl3 & Hn3).
  { by intros [[] ?]. }
  destruct Ho3 as [-> | ->]; [|done]. cbn [exit_status].
  left. split; [done|]. split; [done|].
  rewrite Hl3, count_log_app, Hn2, Hn3. lia.
Qed.

End ExitStatus.

(** ** Pagination against the reference services *)

Lemma ceil_div_spec n m k : (0 < m)%nat → (ceil_div n m ≤ k ↔ n ≤ k * m)%nat.
Proof.
  intros Hm. unfold ceil_div. split.
  - intros Hk.
    pose proof (Nat.div_mod_eq (n + (m - 1)) m) as H.
    pose proof (Nat.mod_upper_bound (n + (m - 1)) m). nia.
  - intros Hk. apply Nat.lt_succ_r, Nat.Div0.div_lt_upper_bound. nia.
Qed.

Lemma ceil_div_step n :
  (0 < n)%nat → ceil_div n limit = S (ceil_div (n - limit) limit).
Proof.
  unfold ceil_div, limit. intros Hn.
  destruct (decide (50 ≤ n)%nat) as [H|H].
  - replace (n + (50 - 1))%nat with ((n - 50 + (50 - 1)) + 1 * 50)%nat by lia.
    rewrite Nat.div_add by lia. lia.
  - replace (n - 50)%nat with 0%nat by lia.
    assert (((0 + (50 - 1)) / 50)%nat = 0%nat) as -> by (apply Nat.div_small; lia).
    symmetry. apply (Nat.div_unique _ _ _ (n - 1)%nat); lia.
Qed.

Lemma length_page_requests skip n : length (page_requests skip n) = n.
Proof. revert skip. induction n as [|n IH]; intros skip; cbn; by rewrite ?IH. Qed.

Lemma reference_page skip (w : live_state) :
  serve (GET_indicators (Some skip) limit) w
  = (Some (Response 200 (take limit (drop skip (live_indicators w)))), w).
Proof. reflexivity. Qed.

Lemma reference_pagination_loop fuel all_indicators skip (s : state live_state) :
  let indicators := live_indicators (world s) in
  let n := ceil_div (length indicators - skip) limit in
  (n < fuel)%nat →
  pagination_loop fuel all_indicators skip s
  = (Return (all_indicators ++ drop skip indicators),
     State (world s) (log s ++ page_requests skip (S n)) (console s)).
Proof.
  cbn zeta. revert all_indicators skip s.
  induction fuel as [|fuel IH]; intros all_indicators skip s Hfuel; [lia|].
  cbn [pagination_loop]. unfold bind, try_except.
  rewrite requests_eq, reference_page. cbn [status_of fmap option_fmap option_map
    status_code json]. rewrite bool_decide_eq_true_2 by done.
  destruct (decide (length (live_indicators (world s)) ≤ skip)%nat) as [Hlen|Hlen].
  - rewrite (drop_ge _ skip) by done. rewrite take_nil, app_nil_r.
    replace (length (live_indicators (world s)) - skip)%nat with 0%nat by lia.
    done.
  - destruct (take limit (drop skip (live_indicators (world s)))) as [|i page] eqn:Hpage.
    { apply (f_equal length) in Hpage. rewrite length_take, length_drop in Hpage.
      unfold limit in Hpage. cbn [length] in Hpage. exfalso. clear -Hlen Hpage. lia. }
    cbn [ret]. rewrite <- Hpage.
    rewrite (ceil_div_step (length (live_indicators (world s)) - skip)) in Hfuel |- * by lia.
    rewrite IH; cbn [world log console logged].
    2:{ replace (length (live_indicators (world s)) - (skip + limit))%nat
          with (length (live_indicators (world s)) - skip - limit)%nat by lia. lia. }
    f_equal.
    + f_equal. rewrite <- (assoc_L (++)). f_equal.
      rewrite <- (take_drop limit (drop skip (live_indicators (world s)))) at 2.
      by rewrite drop_drop.
    + f_equal. rewrite <- (assoc_L (++)). f_equal. cbn [page_requests app].
      do 4 f_equal. lia.
Qed.

(** C4. Against services holding N indicators and serving pages of at
    most 50, the fetch returns the N indicators; its requests are the
    pages at offsets 0, 50, ... up to the first offset that is not below
    N, whose page is the first empty one: ceil(N/50) + 1 requests. *)
Theorem pagination_completeness (w : live_state) (fuel : nat) :
  let N := length (live_indicators w) in
  (ceil_div N 50 < fuel)%nat →
  ∃ s',
    get_all_indicators_with_pagination fuel (init w) = (Return (live_indicators w), s')
    ∧ log s' = page_requests 0 (ceil_div N 50 + 1)
    ∧ length (log s') = (ceil_div N 50 + 1)%nat
    ∧ (∀ k, (N ≤ k * 50)%nat ↔ (ceil_div N 50 ≤ k)%nat).
Proof.
  cbn zeta. intros Hfuel. unfold get_all_indicators_with_pagination.
  rewrite reference_pagination_loop; cbn [init world log console].
  2:{ rewrite Nat.sub_0_r. exact Hfuel. }
  eexists. split; [reflexivity|]. cbn [log app].
  rewrite Nat.sub_0_r, Nat.add_1_r. split; [done|].
  split; [by rewrite length_page_requests|].
  intros k. symmetry. apply ceil_div_spec. lia.
Qed.

(** ** Running the import twice *)

Lemma truthy_Some o s : truthy o = Some s ↔ o = Some s ∧ s ≠ "".
Proof.
  unfold truthy. destruct o as [s'|]; [|by split; [|intros []]].
  case_bool_decide as Hs'; split.
  - done.
  - intros [[= ->] ?]. done.
  - intros [= ->]. done.
  - by intros [[= ->] ?].
Qed.

Lemma object_id_nonempty n : object_id n ≠ "".
Proof. done. Qed.

Lemma truthy_object_id n : truthy (Some (object_id n)) = Some (object_id n).
Proof. apply truthy_Some. split; [done|]. apply object_id_nonempty. Qed.

Lemma map_domain_ids_snoc existing_domains domain :
  map_domain_ids (existing_domains ++ [domain])
  = <[dom_name domain := dom_id domain]> (map_domain_ids existing_domains).
Proof. unfold map_domain_ids. by rewrite foldl_snoc. Qed.

(** The lookup holds the names that are not empty. *)
Lemma index_by_name_lookup indicators name :
  is_Some (index_by_name indicators !! name)
  ↔ name ≠ "" ∧ Some name ∈ ind_name <$> indicators.
Proof.
  unfold index_by_name.
  induction indicators as [|indicator indicators IH] using rev_ind.
  - cbn. rewrite lookup_empty. split; [by intros [? ?]|]. intros [_ Hin].
    by apply elem_of_nil in Hin.
  - rewrite foldl_snoc, fmap_app, elem_of_app. cbn [fmap list_fmap].
    rewrite list_elem_of_singleton.
    destruct (truthy (ind_name indicator)) as [n|] eqn:Hn.
    + apply truthy_Some in Hn as [Hn Hne].
      destruct (decide (n = name)) as [->|Hneq].
      * rewrite lookup_insert_eq. split; [|by eauto]. intros _. by eauto.
      * rewrite lookup_insert_ne by done. rewrite IH. split; [tauto|].
        intros [? [?|Heq]]; [done|]. congruence.
    + rewrite IH. split; [tauto|]. intros [Hne [?|Heq]]; [done|].
      symmetry in Heq. assert (truthy (ind_name indicator) = Some name) as Ht
        by by apply truthy_Some.
      congruence.
Qed.

Section Loops.

Context {W : Type} `{!Services W}.

(** A loop whose turns all return, keep [P], move the state along [R]
    and establish [C] for their element, [C] being kept along [R]. *)
Lemma for_each_covers {A S} (P : state W → Prop) (R : state W → state W → Prop)
    (C : A → state W → Prop) (body : A → S → M W S) :
  (∀ s, R s s) →
  (∀ s1 s2 s3, R s1 s2 → R s2 s3 → R s1 s3) →
  (∀ s s', P s → R s s' → P s') →
  (∀ x s s', C x s → R s s' → C x s') →
  ∀ l,
  (∀ x acc s, x ∈ l → P s →
    ∃ acc' s', body x acc s = (Return acc', s') ∧ R s s' ∧ C x s') →
  ∀ acc s, P s →
    ∃ acc' s', for_each l body acc s = (Return acc', s') ∧ R s s'
               ∧ ∀ x, x ∈ l → C x s'.
Proof.
  intros Hrefl Htrans HP HC l.
  induction l as [|x l IH]; intros Hbody acc s Hs.
  - exists acc, s. split; [done|]. split; [done|]. by intros x ?%elem_of_nil.
  - destruct (Hbody x acc s) as (acc1 & s1 & Hx & HR1 & HC1); [by left|done|].
    destruct (IH (λ y a t Hy, Hbody y a t (list_elem_of_further _ _ _ Hy))
                acc1 s1) as (acc2 & s2 & Hl & HR2 & HC2); [by eauto|].
    exists acc2, s2. cbn [for_each]. unfold bind. rewrite Hx.
    split; [done|]. split; [by eauto|].
    intros y [->|Hy]%elem_of_cons; by eauto.
Qed.

(** A loop whose turns all return, leave the state as it is and keep
    [Q] of the accumulator. *)
Lemma for_each_unchanged {A S} (Q : S → Prop) (body : A → S → M W S) l s :
  (∀ x acc, x ∈ l → Q acc → ∃ acc', body x acc s = (Return acc', s) ∧ Q acc') →
  ∀ acc, Q acc → ∃ acc', for_each l body acc s = (Return acc', s) ∧ Q acc'.
Proof.
  induction l as [|x l IH]; intros Hbody acc Hacc; [by exists acc|].
  destruct (Hbody x acc) as (acc1 & Hx & Hacc1); [by left|done|].
  destruct (IH (λ y a Hy, Hbody y a (list_elem_of_further _ _ _ Hy)) acc1)
    as (acc2 & Hl & Hacc2); [done|].
  exists acc2. cbn [for_each]. unfold bind. by rewrite Hx.
Qed.

(** A loop whose turns all return and let the measure [mu] grow by at
    most the cost of their element. *)
Lemma for_each_grows {A S} (mu : state W → nat) (cost : A → nat)
    (body : A → S → M W S) l :
  (∀ x acc s, x ∈ l →
     ∃ acc' s', body x acc s = (Return acc', s') ∧ (mu s' ≤ mu s + cost x)%nat) →
  ∀ acc s,
    ∃ acc' s', for_each l body acc s = (Return acc', s')
               ∧ (mu s' ≤ mu s + sum_list (cost <$> l))%nat.
Proof.
  induction l as [|x l IH]; intros Hbody acc s.
  - exists acc, s. split; [done|]. cbn. lia.
  - destruct (Hbody x acc s) as (acc1 & s1 & Hx & Hmu1); [by left|].
    destruct (IH (λ y a t Hy, Hbody y a t (list_elem_of_further _ _ _ Hy)) acc1 s1)
      as (acc2 & s2 & Hl & Hmu2).
    exists acc2, s2. cbn [for_each]. unfold bind. rewrite Hx.
    split; [done|]. cbn. lia.
Qed.

End Loops.

Lemma length_bind_sum {A B} (f : A → list B) (l : list A) :
  length (l ≫= f) = sum_list ((λ x, length (f x)) <$> l).
Proof.
  induction l as [|x l IH]; [done|].
  rewrite bind_cons, length_app, IH. done.
Qed.

Lemma ceil_div_mono n n' m : (n ≤ n')%nat → (ceil_div n m ≤ ceil_div n' m)%nat.
Proof. intros Hn. unfold ceil_div. apply Nat.Div0.div_le_mono. lia. Qed.

Lemma keeps_refl s : keeps s s.
Proof. done. Qed.

Lemma keeps_trans s1 s2 s3 : keeps s1 s2 → keeps s2 s3 → keeps s1 s3.
Proof. intros [H1 H1'] [H2 H2']. split; [congruence|by eauto]. Qed.

Lemma elem_of_desired_indicators domains d sub i :
  d ∈ domains → sub ∈ d_subdomains d → i ∈ s_indicators sub →
  i ∈ desired_indicators domains.
Proof.
  intros Hd Hsub Hi. unfold desired_indicators.
  apply list_elem_of_bind. exists d. split; [|done].
  apply list_elem_of_bind. by exists sub.
Qed.

Lemma page_requests_only_GET skip n :
  Forall (λ e, is_GET_indicators e = true) (page_requests skip n).
Proof. revert skip. induction n as [|n IH]; intros skip; cbn; by constructor. Qed.

Lemma reference_serve_GET_resources (w : live_state) :
  serve GET_resources w = (Some (Response 200 (live_resources w)), w).
Proof. reflexivity. Qed.

Lemma reference_serve_POST_resources data (w : live_state) :
  serve (POST_resources data) w
  = (Some (Response 201 {| res_id := Some (object_id (next_id w)) |}),
     LiveState (live_domains w) (live_indicators w)
       (live_resources w ++ [{| res_id := Some (object_id (next_id w)) |}])
       (S (next_id w))).
Proof. reflexivity. Qed.

Lemma reference_serve_link indicator_id resource_id (w : live_state) indicator :
  indicator ∈ live_indicators w → ind_id indicator = Some indicator_id →
  serve (POST_indicator_resources indicator_id resource_id) w
  = (Some (Response 200 tt),
     LiveState (live_domains w)
       (add_resource indicator_id resource_id <$> live_indicators w)
       (live_resources w) (next_id w)).
Proof.
  intros Hin Hid. unfold serve, reference_services.
  assert (existsb (λ i, bool_decide (ind_id i = Some indicator_id))
            (live_indicators w) = true) as ->; [|done].
  apply existsb_exists. exists indicator. split; [by apply list_elem_of_In|].
  by apply bool_decide_eq_true.
Qed.

Section Reference.

Implicit Types (s : state live_state) (w : live_state).

Lemma reference_get_existing_domains s :
  get_existing_domains s
  = (Return (live_domains (world s)), logged s GET_domains (Some 200) (world s)).
Proof. by rewrite get_existing_domains_eq. Qed.

Lemma reference_create_domain data s :
  create_domain data s
  = let domain := {| dom_id := Some (object_id (next_id (world s)));
                     dom_name := Some (dd_name data) |} in
    (Return (dom_id domain),
     logged s (POST_domains data) (Some 201)
       (LiveState (live_domains (world s) ++ [domain]) (live_indicators (world s))
                  (live_resources (world s)) (S (next_id (world s))))).
Proof. by rewrite create_domain_eq. Qed.

Lemma reference_create_indicator data domain_id subdomain_name s :
  create_indicator data domain_id subdomain_name s
  = (Return true,
     logged s (POST_indicators domain_id subdomain_name data) (Some 201)
       (LiveState (live_domains (world s))
          (live_indicators (world s)
           ++ [new_indicator (object_id (next_id (world s))) domain_id data])
          (live_resources (world s)) (S (next_id (world s))))).
Proof. by rewrite create_indicator_eq. Qed.

Lemma reference_get_existing_indicators fuel s :
  (ceil_div (length (live_indicators (world s))) limit < fuel)%nat →
  get_existing_indicators fuel s
  = (Return (index_by_name (live_indicators (world s))),
     State (world s)
       (log s ++ page_requests 0
                   (S (ceil_div (length (live_indicators (world s))) limit)))
       (console s)).
Proof.
  intros Hfuel. unfold get_existing_indicators, bind,
    get_all_indicators_with_pagination.
  rewrite reference_pagination_loop by by rewrite Nat.sub_0_r.
  by rewrite Nat.sub_0_r.
Qed.

(** The domain phase of a run: the map ends up as the map of the live
    domains, which now include every desired domain. *)
Lemma reference_import_domains (names : gset (option string)) domains s :
  (∀ n, n ∈ names → n ∈ dom_name <$> live_domains (world s)) →
  ∃ s',
    for_each domains (import_domain names)
             (map_domain_ids (live_domains (world s))) s
    = (Return (map_domain_ids (live_domains (world s'))), s')
    ∧ live_indicators (world s') = live_indicators (world s)
    ∧ (∀ n, n ∈ dom_name <$> live_domains (world s) →
            n ∈ dom_name <$> live_domains (world s'))
    ∧ (∀ d, d ∈ domains → Some (d_name d) ∈ dom_name <$> live_domains (world s')).
Proof.
  revert s. induction domains as [|d domains IH]; intros s Hnames.
  - exists s. repeat split; try done. by intros d ?%elem_of_nil.
  - cbn [for_each]. unfold bind, import_domain at 1.
    case_bool_decide as Hd.
    + cbn [ret]. destruct (IH s Hnames) as (s' & -> & Hind & Hmono & Hall).
      exists s'. repeat split; try done.
      intros d' [->|Hd']%elem_of_cons; by eauto.
    + unfold bind. rewrite reference_create_domain. cbn zeta.
      cbn [dom_id]. rewrite truthy_object_id. cbn [ret].
      set (domain := {| dom_id := _; dom_name := _ |}).
      set (s1 := logged s _ _ _).
      assert (map_domain_ids (live_domains (world s1))
              = <[Some (d_name d) := Some (object_id (next_id (world s)))]>
                  (map_domain_ids (live_domains (world s)))) as <-.
      { cbn [s1 logged world live_domains]. by rewrite map_domain_ids_snoc. }
      assert (∀ n, n ∈ dom_name <$> live_domains (world s) →
                   n ∈ dom_name <$> live_domains (world s1)) as Hstep.
      { intros n Hn. cbn [s1 logged world live_domains].
        rewrite fmap_app, elem_of_app. by left. }
      destruct (IH s1) as (s' & -> & Hind & Hmono & Hall); [by eauto|].
      exists s'. repeat split; [done|by eauto|].
      intros d' [->|Hd']%elem_of_cons; [|by eauto].
      apply Hmono. cbn [s1 logged world live_domains].
      rewrite fmap_app, elem_of_app. right. by apply list_elem_of_singleton.
Qed.

(** The domain phase when every desired domain is already there. *)
Lemma import_domains_all_present (names : gset (option string)) domains m s :
  (∀ d, d ∈ domains → Some (d_name d) ∈ names) →
  for_each domains (import_domain names) m s = (Return m, s).
Proof.
  induction domains as [|d domains IH]; intros Hall; [done|].
  cbn [for_each]. unfold bind, import_domain at 1.
  rewrite bool_decide_eq_true_2 by (apply Hall; by left). cbn [ret].
  apply IH. intros d' Hd'. apply Hall. by right.
Qed.

Lemma lookup_present_keeps existing s s' :
  lookup_present existing s → keeps s s' → lookup_present existing s'.
Proof. intros Hs [_ Hk] name Hname. by eauto. Qed.

Lemma reference_import_indicator existing domain_id subdomain_name indicator_json c s :
  lookup_present existing s →
  ∃ c' s',
    import_indicator existing domain_id subdomain_name indicator_json c s
    = (Return c', s')
    ∧ keeps s s' ∧ present (i_name indicator_json) (world s').
Proof.
  intros Hs. unfold import_indicator. case_bool_decide as Hex.
  - eexists _, s. split; [done|]. split; [apply keeps_refl|by apply Hs].
  - unfold bind. rewrite reference_create_indicator. cbn [ret].
    eexists _, _. split; [done|].
    unfold keeps, present. cbn [logged world live_domains live_indicators].
    split; [split; [done|]|].
    + intros name Hname. rewrite fmap_app, elem_of_app. by left.
    + rewrite fmap_app, elem_of_app. right. by apply list_elem_of_singleton.
Qed.

(** The indicator phase of a run: every desired indicator of a
    resolvable domain is live afterwards. *)
Lemma reference_import_indicators m existing domains c s :
  lookup_present existing s →
  ∃ c' s',
    for_each domains (import_domain_indicators m existing) c s = (Return c', s')
    ∧ keeps s s'
    ∧ ∀ d, d ∈ domains → resolvable m d →
      ∀ sub, sub ∈ d_subdomains d →
      ∀ i, i ∈ s_indicators sub → present (i_name i) (world s').
Proof.
  revert c s.
  apply (for_each_covers (lookup_present existing) keeps
           (λ d s', resolvable m d →
              ∀ sub, sub ∈ d_subdomains d →
              ∀ i, i ∈ s_indicators sub → present (i_name i) (world s')));
    [apply keeps_refl|apply keeps_trans|apply lookup_present_keeps| |].
  { intros d s s' Hd [_ Hk] Hres sub Hsub i Hi. by eauto. }
  intros d c s _ Hs. unfold import_domain_indicators, resolvable.
  destruct (truthy _) as [domain_id|]; [|exists c, s; by intuition].
  destruct (for_each_covers (lookup_present existing) keeps
              (λ sub s', ∀ i, i ∈ s_indicators sub → present (i_name i) (world s'))
              (import_subdomain existing domain_id)
              keeps_refl keeps_trans (lookup_present_keeps existing)) with
    (l := d_subdomains d) (acc := c) (s := s) as (c' & s' & E & Hk & Hc); [| |done|].
  { intros sub s1 s2 Hsub [_ Hk] i Hi. by eauto. }
  { intros sub c1 s1 _ Hs1. unfold import_subdomain.
    apply (for_each_covers (lookup_present existing) keeps
             (λ i s', present (i_name i) (world s')));
      [apply keeps_refl|apply keeps_trans|apply lookup_present_keeps| | |done].
    - intros i s2 s3 Hi [_ Hk]. by eauto.
    - intros i c2 s2 _ Hs2. by apply reference_import_indicator. }
  exists c', s'. by eauto.
Qed.

(** The indicator phase when every desired indicator of a resolvable
    domain is in the lookup: nothing is sent. *)
Lemma import_indicators_all_present m existing domains c s :
  (∀ d, d ∈ domains → resolvable m d →
   ∀ sub, sub ∈ d_subdomains d →
   ∀ i, i ∈ s_indicators sub → is_Some (existing !! i_name i)) →
  ∃ c', for_each domains (import_domain_indicators m existing) c s = (Return c', s)
        ∧ imp_created_indicators c' = imp_created_indicators c.
Proof.
  intros Hall.
  apply (for_each_unchanged
           (λ c', imp_created_indicators c' = imp_created_indicators c)); [|done].
  intros d c1 Hd Hc1. unfold import_domain_indicators.
  destruct (truthy _) as [domain_id|] eqn:Hid; [|by exists c1].
  apply (for_each_unchanged
           (λ c', imp_created_indicators c' = imp_created_indicators c)); [|done].
  intros sub c2 Hsub Hc2.
  apply (for_each_unchanged
           (λ c', imp_created_indicators c' = imp_created_indicators c)); [|done].
  intros i c3 Hi Hc3.
  unfold import_indicator. rewrite bool_decide_eq_true_2; [by eauto|].
  eapply Hall; try done. unfold resolvable. by rewrite Hid.
Qed.

Lemma sum_list_ones {A} (l : list A) : sum_list ((λ _, 1%nat) <$> l) = length l.
Proof. induction l as [|x l IH]; [done|]. cbn. by rewrite IH. Qed.

(** The indicator phase adds at most as many indicators as the document
    has. *)
Lemma reference_import_indicators_grow m existing domains c s :
  ∃ c' s',
    for_each domains (import_domain_indicators m existing) c s = (Return c', s')
    ∧ (length (live_indicators (world s'))
       ≤ length (live_indicators (world s)) + length (desired_indicators domains))%nat.
Proof.
  unfold desired_indicators. rewrite length_bind_sum.
  apply (for_each_grows (λ s, length (live_indicators (world s)))
           (λ d, length (sub ← d_subdomains d; s_indicators sub))).
  intros d c1 s1 _. unfold import_domain_indicators.
  destruct (truthy _) as [domain_id|]; [|exists c1, s1; split; [done|lia]].
  rewrite length_bind_sum.
  apply (for_each_grows (λ s, length (live_indicators (world s)))
           (λ sub, length (s_indicators sub))).
  intros sub c2 s2 _. unfold import_subdomain.
  rewrite <- (sum_list_ones (s_indicators sub)).
  apply (for_each_grows (λ s, length (live_indicators (world s))) (λ _, 1%nat)).
  intros i c3 s3 _. unfold import_indicator. case_bool_decide.
  - eexists _, s3. split; [done|lia].
  - unfold bind. rewrite reference_create_indicator. cbn [ret].
    eexists _, _. split; [done|]. cbn [logged world live_indicators].
    rewrite length_app. cbn. lia.
Qed.

(** A run of the import: it returns and leaves the services settled;
    it adds at most as many indicators as the document has. *)
Lemma reference_import_run fuel domains s :
  (ceil_div (length (live_indicators (world s))) limit < fuel)%nat →
  ∃ b s',
    import_complete_data fuel (Domains domains) s = (Return b, s')
    ∧ settled domains (world s')
    ∧ (length (live_indicators (world s'))
       ≤ length (live_indicators (world s)) + length (desired_indicators domains))%nat.
Proof.
  intros Hfuel. cbn [import_complete_data]. unfold bind at 1.
  rewrite reference_get_existing_domains. cbn iota beta.
  unfold bind at 1.
  destruct (reference_import_domains
              (list_to_set (dom_name <$> live_domains (world s))) domains
              (logged s GET_domains (Some 200) (world s)))
    as (s1 & E1 & Hind1 & _ & Hdom1).
  { intros n Hn. by apply elem_of_list_to_set in Hn. }
  cbn [logged world] in E1, Hind1. rewrite E1. cbn iota beta.
  unfold bind at 1. rewrite reference_get_existing_indicators by by rewrite Hind1.
  cbn iota beta.
  set (s2 := State (world s1) _ (console s1)).
  unfold bind at 1.
  destruct (reference_import_indicators (map_domain_ids (live_domains (world s1)))
              (index_by_name (live_indicators (world s1))) domains
              (ImportCounters 0 0 0) s2) as (c & s3 & E3 & [Hdom3 Hk3] & Hcov).
  { intros name Hname. by apply index_by_name_lookup in Hname as [_ Hname]. }
  destruct (reference_import_indicators_grow (map_domain_ids (live_domains (world s1)))
              (index_by_name (live_indicators (world s1))) domains
              (ImportCounters 0 0 0) s2) as (c' & s3' & E3' & Hlen).
  rewrite E3 in E3'. injection E3' as <- <-. rewrite E3.
  cbn [bind print ret]. eexists _, _. split; [done|]. cbn [world].
  unfold settled. rewrite Hdom3. cbn [s2 world] in Hlen |- *.
  rewrite Hind1 in Hlen. done.
Qed.

(** A run of the import over settled services, for a document without
    empty indicator names: it asks for the domains and for the pages of
    indicators, sends nothing else, and returns false. *)
Lemma reference_import_again fuel domains s :
  (ceil_div (length (live_indicators (world s))) limit < fuel)%nat →
  settled domains (world s) →
  Forall (λ i, i_name i ≠ "") (desired_indicators domains) →
  ∃ line,
    import_complete_data fuel (Domains domains) s
    = (Return false,
       State (world s)
         (log s ++ (GET_domains, Some 200)
                   :: page_requests 0
                        (S (ceil_div (length (live_indicators (world s))) limit)))
         (console s ++ [line])).
Proof.
  intros Hfuel [Hdom Hind] Hnames. cbn [import_complete_data]. unfold bind at 1.
  rewrite reference_get_existing_domains. cbn iota beta.
  unfold bind at 1. rewrite import_domains_all_present.
  2:{ intros d Hd. apply elem_of_list_to_set. by apply Hdom. }
  cbn iota beta.
  unfold bind at 1. rewrite reference_get_existing_indicators by done.
  cbn iota beta. cbn [logged world log console].
  set (s2 := State (world s) _ (console s)).
  unfold bind at 1.
  destruct (import_indicators_all_present (map_domain_ids (live_domains (world s)))
              (index_by_name (live_indicators (world s))) domains
              (ImportCounters 0 0 0) s2) as (c & -> & Hc).
  { intros d Hd Hres sub Hsub i Hi. apply index_by_name_lookup.
    split; [|exact (Hind d Hd Hres sub Hsub i Hi)].
    rewrite Forall_forall in Hnames. apply Hnames.
    by eapply elem_of_desired_indicators. }
  cbn [bind print ret]. cbn [imp_created_indicators] in Hc. rewrite Hc.
  eexists. f_equal. cbn [s2 world log console].
  by rewrite <- (assoc_L (++)).
Qed.

(** Reading leaves the reference services as they are. *)
Lemma reference_GET r w :
  is_GET (r, None) = true → ∃ resp, serve r w = (Some resp, w).
Proof. destruct r; try done; intros _; eexists; reflexivity. Qed.

Lemma skeleton_count w w' :
  skeleton w' = skeleton w →
  length (live_indicators w') = length (live_indicators w).
Proof.
  intros [= _ Hnames]. apply (f_equal length) in Hnames.
  by rewrite !length_fmap in Hnames.
Qed.

Lemma settled_skeleton domains w w' :
  skeleton w' = skeleton w → settled domains w → settled domains w'.
Proof.
  intros [= Hdomains Hnames] [Hdom Hind]. unfold settled, present.
  rewrite Hdomains, Hnames. by split.
Qed.

Lemma reference_link_skeleton indicator_id resource_id w :
  skeleton (serve (POST_indicator_resources indicator_id resource_id) w).2
  = skeleton w.
Proof.
  unfold serve, reference_services. destruct (existsb _ _); [|done].
  unfold skeleton. cbn [snd live_domains live_indicators]. f_equal.
  rewrite <- list_fmap_compose. apply list_fmap_ext. intros _ indicator _.
  cbn. unfold add_resource. by case_bool_decide.
Qed.

Lemma reference_create_and_link_skeleton indicator c s :
  skeleton (world (create_and_link indicator c s).2) = skeleton (world s).
Proof.
  rewrite create_and_link_eq. cbn zeta. rewrite reference_serve_POST_resources.
  destruct (truthy _) as [resource_id|]; [|done].
  match goal with
  | |- context [serve (POST_indicator_resources ?a ?b) ?w1] =>
    pose proof (reference_link_skeleton a b w1) as Hlink;
    destruct (serve (POST_indicator_resources a b) w1) as [o2 w2]
  end.
  cbn [snd] in Hlink. by destruct (link_accepted o2).
Qed.

Lemma reference_backfill_indicator_skeleton indicator c s :
  skeleton (world (backfill_indicator indicator c s).2) = skeleton (world s).
Proof.
  unfold backfill_indicator, bind. rewrite needs_backfill_eq. cbn zeta.
  destruct (ind_resources indicator) as [|r rest];
    [by rewrite reference_create_and_link_skeleton|].
  destruct (_ && _); [by rewrite reference_create_and_link_skeleton|].
  destruct (_ && _); [by rewrite reference_create_and_link_skeleton|].
  rewrite reference_serve_GET_resources.
  destruct (negb _); [by rewrite reference_create_and_link_skeleton|done].
Qed.

Lemma reference_backfill_loop_skeleton indicators c s :
  skeleton (world (for_each indicators backfill_indicator c s).2)
  = skeleton (world s).
Proof.
  revert c s. induction indicators as [|indicator indicators IH]; intros c s; [done|].
  cbn [for_each]. unfold bind.
  pose proof (reference_backfill_indicator_skeleton indicator c s) as Hstep.
  destruct (backfill_indicator_effect indicator c s) as (u & d & lines & s1 & E & _).
  rewrite E in Hstep |- *. cbn [snd] in Hstep. by rewrite IH.
Qed.

(** With fuel for the indicators there are, the backfill pass returns;
    it leaves the domains and the names of the indicators as they are. *)
Lemma reference_add_resources_returns fuel s :
  (ceil_div (length (live_indicators (world s))) limit < fuel)%nat →
  ∃ b s',
    add_resources_to_all_indicators fuel s = (Return b, s')
    ∧ skeleton (world s') = skeleton (world s).
Proof.
  intros Hfuel. unfold add_resources_to_all_indicators, bind at 1 2. cbn [print].
  unfold get_all_indicators_with_pagination.
  rewrite reference_pagination_loop; cbn [world]; [|by rewrite Nat.sub_0_r].
  cbn [app]. rewrite drop_0.
  destruct (live_indicators (world s)) as [|indicator indicators] eqn:Hinds.
  { by eexists _, _. }
  unfold bind. cbn [print].
  match goal with
  | |- context [for_each ?l backfill_indicator ?c ?s1] =>
    pose proof (reference_backfill_loop_skeleton l c s1) as Hsk;
    destruct (backfill_loop_effect l c s1) as (u & d & lines & s' & E & _)
  end.
  rewrite E in Hsk |- *. cbn [snd world] in Hsk.
  by eexists _, _.
Qed.

(** With fuel for the indicators there are, the endpoint test returns;
    it leaves the services as they are. *)
Lemma reference_test_api_returns fuel s :
  (ceil_div (length (live_indicators (world s))) limit < fuel)%nat →
  ∃ s', test_api_endpoints fuel s = (Return tt, s') ∧ world s' = world s.
Proof.
  intros Hfuel. unfold test_api_endpoints, try_except, bind at 1.
  rewrite requests_eq.
  destruct (reference_GET (GET_indicators None 5) (world s) eq_refl) as [r1 ->].
  cbn iota beta. unfold bind at 1. rewrite requests_eq. cbn [logged world].
  rewrite (surjective_pairing (serve GET_domains (world s))).
  destruct (reference_GET GET_domains (world s) eq_refl) as [[c2 domains] ->].
  cbn iota beta. cbn [fst snd status_code json].
  unfold bind at 1.
  assert (∀ s3 : state live_state, world s3 = world s →
    ∃ s4, bind (get_all_indicators_with_pagination fuel) (λ _, ret tt) s3
          = (Return tt, s4) ∧ world s4 = world s) as Hrest.
  { intros s3 Hw. unfold bind, get_all_indicators_with_pagination.
    rewrite reference_pagination_loop; [by eexists|]. by rewrite Hw, Nat.sub_0_r. }
  case_bool_decide; [destruct domains as [|first_domain ?]|]; cbn [ret].
  1,3: edestruct Hrest as (s4 & -> & Hw4); [done|by eexists].
  unfold bind at 1. rewrite requests_eq. cbn [logged world].
  destruct (reference_GET (GET_indicators_domain (fmt (dom_id first_domain)) 3)
              (world s) eq_refl) as [r3 ->].
  cbn iota beta. cbn [ret].
  edestruct Hrest as (s4 & -> & Hw4); [done|by eexists].
Qed.

(** A run of [main]: it ends, and leaves the services settled. *)
Lemma reference_main_run fuel domains w :
  (ceil_div (length (live_indicators w) + length (desired_indicators domains)) limit
   < fuel)%nat →
  ∃ o s',
    main fuel (Domains domains) (init w) = (o, s')
    ∧ is_Some (exit_status o)
    ∧ settled domains (world s')
    ∧ (length (live_indicators (world s'))
       ≤ length (live_indicators w) + length (desired_indicators domains))%nat.
Proof.
  intros Hfuel. unfold main, bind at 1. rewrite check_service_health_eq.
  cbn [init world]. change (serve GET_health w) with (Some (Response 200 tt), w).
  cbn iota beta. cbn [status_code]. rewrite bool_decide_eq_true_2 by done.
  cbn [negb]. unfold bind at 1.
  match goal with
  | |- context [import_complete_data fuel (Domains domains) ?s0] =>
    destruct (reference_import_run fuel domains s0) as (b & s1 & -> & Hsettled & Hlen)
  end.
  { eapply Nat.le_lt_trans; [|exact Hfuel]. apply ceil_div_mono. cbn. lia. }
  cbn [logged world] in Hlen.
  destruct b; [|by eexists _, _].
  unfold bind.
  destruct (reference_add_resources_returns fuel s1) as (b2 & s2 & -> & Hsk2).
  { eapply Nat.le_lt_trans; [|exact Hfuel]. by apply ceil_div_mono. }
  destruct (reference_test_api_returns fuel s2) as (s3 & -> & Hw3).
  { eapply Nat.le_lt_trans; [|exact Hfuel]. apply ceil_div_mono.
    by rewrite (skeleton_count _ _ Hsk2). }
  eexists _, _. split; [done|]. split; [by eexists|].
  rewrite Hw3, (skeleton_count _ _ Hsk2). split; [|done].
  by eapply settled_skeleton.
Qed.

(** A run of [main] over settled services, for a document without empty
    indicator names: it exits with status 1 after the health check, the
    request for the domains and the pages of indicators. *)
Lemma reference_main_again fuel domains w :
  (ceil_div (length (live_indicators w)) limit < fuel)%nat →
  settled domains w →
  Forall (λ i, i_name i ≠ "") (desired_indicators domains) →
  ∃ line,
    main fuel (Domains domains) (init w)
    = (Raise (SystemExit 1),
       State w
         ((GET_health, Some 200) :: (GET_domains, Some 200)
          :: page_requests 0 (S (ceil_div (length (live_indicators w)) limit)))
         [line]).
Proof.
  intros Hfuel Hsettled Hnames. unfold main, bind at 1.
  rewrite check_service_health_eq.
  cbn [init world]. change (serve GET_health w) with (Some (Response 200 tt), w).
  cbn iota beta. cbn [status_code]. rewrite bool_decide_eq_true_2 by done.
  cbn [negb]. unfold bind at 1.
  match goal with
  | |- context [import_complete_data fuel (Domains domains) ?s0] =>
    destruct (reference_import_again fuel domains s0) as [line ->]; [done..|]
  end.
  by exists line.
Qed.

End Reference.

(** C7, as the script has it.  Against services that accept every
    creation, for a document with pairwise distinct domain names and
    pairwise distinct indicator names none of which is empty, a second
    run sends no domain creation and no indicator creation, reports no
    success, and leaves the services exactly as the first run left
    them.  This holds for two runs of the import and for two runs of
    the whole script, whose second run exits with status 1.  ([fuel] is
    enough to fetch the indicators there are and those of the
    document.) *)
Theorem import_twice_creates_nothing (w0 : live_state)
    (domains : list domain_spec) (fuel : nat) :
  NoDup (d_name <$> domains) →
  NoDup (i_name <$> desired_indicators domains) →
  Forall (λ i, i_name i ≠ "") (desired_indicators domains) →
  (ceil_div (length (live_indicators w0) + length (desired_indicators domains)) 50
   < fuel)%nat →
  (let run1 := import_complete_data fuel (Domains domains) (init w0) in
   let run2 := import_complete_data fuel (Domains domains) (init (world run1.2)) in
   (∃ b, run1.1 = Return b)
   ∧ run2.1 = Return false
   ∧ count_log is_POST_domains (log run2.2) = 0%nat
   ∧ count_log is_POST_indicators (log run2.2) = 0%nat
   ∧ world run2.2 = world run1.2)
  ∧ (let run1 := main fuel (Domains domains) (init w0) in
     let run2 := main fuel (Domains domains) (init (world run1.2)) in
     is_Some (exit_status run1.1)
     ∧ exit_status run2.1 = Some 1
     ∧ count_log is_POST_domains (log run2.2) = 0%nat
     ∧ count_log is_POST_indicators (log run2.2) = 0%nat
     ∧ world run2.2 = world run1.2).
Proof.
  intros _ _ Hnames Hfuel.
  assert (∀ skip n, Forall (λ e, is_GET e = true) (page_requests skip n)) as Hpages.
  { intros skip n. eapply Forall_impl; [apply page_requests_only_GET|].
    by intros [[] ?]. }
  split; cbn zeta.
  - destruct (reference_import_run fuel domains (init w0))
      as (b & s1 & -> & Hsettled & Hlen).
    { eapply Nat.le_lt_trans; [|exact Hfuel]. apply ceil_div_mono. cbn. lia. }
    cbn [fst snd].
    destruct (reference_import_again fuel domains (init (world s1))) as [line ->];
      [|done|done|].
    { eapply Nat.le_lt_trans; [|exact Hfuel]. by apply ceil_div_mono. }
    cbn [fst snd init world log console app].
    split; [by eauto|]. split; [done|].
    split; [|split; [|done]].
    + eapply (count_log_other is_GET); [|by intros [[] ?]]. by constructor.
    + eapply (count_log_other is_GET); [|by intros [[] ?]]. by constructor.
  - destruct (reference_main_run fuel domains w0 Hfuel)
      as (o & s1 & -> & Ho & Hsettled & Hlen).
    cbn [fst snd].
    destruct (reference_main_again fuel domains (world s1)) as [line ->];
      [|done|done|].
    { eapply Nat.le_lt_trans; [|exact Hfuel]. by apply ceil_div_mono. }
    cbn [fst snd init world log console app exit_status].
    split; [done|]. split; [done|].
    split; [|split; [|done]].
    + eapply (count_log_other is_GET); [|by intros [[] ?]]. by repeat constructor.
    + eapply (count_log_other is_GET); [|by intros [[] ?]]. by repeat constructor.
Qed.

(** ** Indicators with several resources *)

Lemma replacing_serve_GET_resources (w : live_state) :
  serve GET_resources (Replacing w)
  = (Some (Response 200 (live_resources w)), Replacing w).
Proof. reflexivity. Qed.

Lemma replacing_serve_POST_resources data (w : live_state) :
  serve (POST_resources data) (Replacing w)
  = (Some (Response 201 {| res_id := Some (object_id (next_id w)) |}),
     Replacing
       (LiveState (live_domains w) (live_indicators w)
          (live_resources w ++ [{| res_id := Some (object_id (next_id w)) |}])
          (S (next_id w)))).
Proof. reflexivity. Qed.

Lemma replacing_serve_link indicator_id resource_id (w : live_state) indicator :
  indicator ∈ live_indicators w → ind_id indicator = Some indicator_id →
  serve (POST_indicator_resources indicator_id resource_id) (Replacing w)
  = (Some (Response 200 tt),
     Replacing
       (LiveState (live_domains w)
          (set_resource indicator_id resource_id <$> live_indicators w)
          (live_resources w) (next_id w))).
Proof.
  intros Hin Hid. unfold serve, replacing_services. cbn [kept].
  assert (existsb (λ i, bool_decide (ind_id i = Some indicator_id))
            (live_indicators w) = true) as ->; [|done].
  apply existsb_exists. exists indicator. split; [by apply list_elem_of_In|].
  by apply bool_decide_eq_true.
Qed.

(** C10. For an indicator with two or more resources the placeholder
    tests are not applied: whatever the entries are, the listing is
    asked for, and backfill is needed exactly when the listing does not
    confirm the first entry.  When backfill runs, the turn of the loop
    has the listing request, the creation of one resource and, when the
    resource service gave an id, one link write that carries the id of
    the indicator and the new id only: the script sends nothing that
    removes or replaces an entry.  What becomes of the entries is the
    catalog's: against the reference services, whose link write
    appends, the indicator ends up with all its entries and the new
    resource after them; against [replacing_services] it ends up with
    the new resource alone. *)
Theorem many_resources_first_entry_decides (indicator : indicator_record)
    (r1 r2 : string) (rest : list string) :
  ind_resources indicator = r1 :: r2 :: rest →
  (∀ (W : Type) (H : Services W) (c : counters) (s : state W),
     let listing := serve GET_resources (world s) in
     let creation :=
       serve (POST_resources (make_resource_data (ind_name indicator)
                                                 (ind_id indicator))) listing.2 in
     log (needs_backfill indicator s).2
       = log s ++ [(GET_resources, status_of listing.1)]
     ∧ ((needs_backfill indicator s).1 = Return true ↔ ¬ in_listing r1 listing.1)
     ∧ ((needs_backfill indicator s).1 = Return false ↔ in_listing r1 listing.1)
     ∧ (¬ in_listing r1 listing.1 →
        log (backfill_indicator indicator c s).2
        = log s
          ++ (GET_resources, status_of listing.1)
          :: (POST_resources (make_resource_data (ind_name indicator)
                                                 (ind_id indicator)),
              status_of creation.1)
          :: match truthy (created_id creation.1) with
             | Some new_id =>
               let link := POST_indicator_resources (fmt (ind_id indicator)) new_id in
               [(link, status_of (serve link creation.2).1)]
             | None => []
             end)
     ∧ (in_listing r1 listing.1 →
        log (backfill_indicator indicator c s).2
        = log s ++ [(GET_resources, Some 200)]))
  ∧ (∀ (w : live_state) (c : counters) (id : string),
       ind_id indicator = Some id →
       indicator ∈ live_indicators w →
       (∀ res, res ∈ live_resources w → res_id res ≠ Some r1) →
       let s' := (backfill_indicator indicator c (init w)).2 in
       let new_id := object_id (next_id w) in
       log s' = [(GET_resources, Some 200);
                 (POST_resources (make_resource_data (ind_name indicator) (Some id)),
                  Some 201);
                 (POST_indicator_resources id new_id, Some 200)]
       ∧ ∃ indicator',
           indicator' ∈ live_indicators (world s')
           ∧ ind_id indicator' = Some id
           ∧ ind_resources indicator' = r1 :: r2 :: rest ++ [new_id])
  ∧ (∀ (u : replacing) (c : counters) (id : string),
       ind_id indicator = Some id →
       indicator ∈ live_indicators (kept u) →
       (∀ res, res ∈ live_resources (kept u) → res_id res ≠ Some r1) →
       let s' := (backfill_indicator indicator c (init u)).2 in
       let new_id := object_id (next_id (kept u)) in
       log s' = [(GET_resources, Some 200);
                 (POST_resources (make_resource_data (ind_name indicator) (Some id)),
                  Some 201);
                 (POST_indicator_resources id new_id, Some 200)]
       ∧ ∃ indicator',
           indicator' ∈ live_indicators (kept (world s'))
           ∧ ind_id indicator' = Some id
           ∧ ind_resources indicator' = [new_id]).
Proof.
  intros Hres. split; [|split].
  - intros W H c s. cbn zeta. unfold backfill_indicator, bind.
    rewrite needs_backfill_eq. cbn zeta. rewrite Hres.
    rewrite (bool_decide_eq_false_2 (_ :: _ = [])) by done. cbn [andb].
    destruct (serve GET_resources (world s)) as [o w]. cbn [fst snd].
    pose proof (in_listing_spec r1 o) as Hspec.
    split; [done|]. split; [|split; [|split]].
    + rewrite <- Hspec. destruct (membership_confirmed r1 o); cbn; split; try done.
      all: try (intros Hn; by destruct Hn).
    + rewrite <- Hspec. by destruct (membership_confirmed r1 o).
    + intros Hout. rewrite <- Hspec in Hout.
      apply not_true_is_false in Hout. rewrite Hout. cbn [negb].
      rewrite create_and_link_eq. cbn zeta. cbn [world logged printed].
      destruct (serve (POST_resources _) w) as [o1 w1]. cbn [fst snd].
      destruct (truthy (created_id o1)) as [new_id|].
      * destruct (serve (POST_indicator_resources _ _) w1) as [o2 w2]. cbn [fst].
        destruct (link_accepted o2); cbn [snd log logged printed];
          by rewrite <- !(assoc_L (++)).
      * cbn [snd log logged printed]. by rewrite <- !(assoc_L (++)).
    + intros Hin. pose proof Hin as Hm. apply Hspec in Hm. rewrite Hm. cbn [negb].
      destruct Hin as (resp & -> & Hst & _). cbn. by rewrite Hst.
  - intros w c id Hid Hin Hmissing. cbn zeta.
    assert (resource_exists r1 (live_resources w) = false) as Hmissing'.
    { apply not_true_is_false. intros (res & Hres1 & Hres2)%resource_exists_spec.
      by apply (Hmissing res). }
    unfold backfill_indicator, bind. rewrite needs_backfill_eq. cbn zeta.
    rewrite Hres, (bool_decide_eq_false_2 (_ :: _ = [])) by done. cbn [andb].
    cbn [init world]. rewrite reference_serve_GET_resources.
    cbn [membership_confirmed status_code json].
    rewrite bool_decide_eq_true_2, Hmissing' by done. cbn [andb negb].
    rewrite create_and_link_eq. cbn zeta. cbn [world logged printed].
    rewrite reference_serve_POST_resources. rewrite Hid.
    cbn [created_id status_code json res_id].
    change (in_200_201 201) with true. cbn iota.
    rewrite truthy_object_id. cbn [fmt default].
    erewrite reference_serve_link; [|done|done].
    cbn [link_accepted status_code].
    change (in_200_201 200) with true.
    cbn [snd log printed logged world live_indicators init app status_of fmap
         option_fmap option_map status_code].
    split; [done|].
    exists (add_resource id (object_id (next_id w)) indicator).
    split; [by apply list_elem_of_fmap_2|].
    unfold add_resource. rewrite bool_decide_eq_true_2 by done.
    cbn [ind_id ind_resources]. by rewrite Hid, Hres.
  - intros [w] c id Hid Hin Hmissing. cbn [kept] in Hin, Hmissing. cbn zeta.
    assert (resource_exists r1 (live_resources w) = false) as Hmissing'.
    { apply not_true_is_false. intros (res & Hres1 & Hres2)%resource_exists_spec.
      by apply (Hmissing res). }
    unfold backfill_indicator, bind. rewrite needs_backfill_eq. cbn zeta.
    rewrite Hres, (bool_decide_eq_false_2 (_ :: _ = [])) by done. cbn [andb].
    cbn [init world]. rewrite replacing_serve_GET_resources.
    cbn [membership_confirmed status_code json fst snd].
    rewrite bool_decide_eq_true_2, Hmissing' by done. cbn [andb negb].
    rewrite create_and_link_eq. cbn zeta. cbn [world logged printed].
    rewrite replacing_serve_POST_resources. rewrite Hid.
    cbn [created_id status_code json res_id fst snd].
    change (in_200_201 201) with true. cbn iota.
    rewrite truthy_object_id. cbn [fmt default].
    erewrite replacing_serve_link; [|done|done].
    cbn [link_accepted status_code fst snd].
    change (in_200_201 200) with true.
    cbn [snd log printed logged world live_indicators init app status_of fmap
         option_fmap option_map status_code kept next_id].
    split; [done|].
    exists (set_resource id (object_id (next_id w)) indicator).
    split; [by apply list_elem_of_fmap_2|].
    unfold set_resource. rewrite bool_decide_eq_true_2 by done.
    cbn [ind_id ind_resources]. by rewrite Hid.
Qed.

(** ** The exit status, with termination *)

(** Against the reference services [main] ends, given fuel for the
    indicators there are and those of the document. *)
Lemma reference_main_terminates (w : live_state) (file : domains_file) (fuel : nat) :
  (ceil_div (length (live_indicators w) + desired_count file) 50 < fuel)%nat →
  is_Some (exit_status (main fuel file (init w)).1).
Proof.
  intros Hfuel. destruct file as [| |domains].
  1,2: unfold main, bind at 1; rewrite check_service_health_eq; cbn [init world];
       change (serve GET_health w) with (Some (Response 200 tt), w);
       by eexists.
  destruct (reference_main_run fuel domains w Hfuel) as (o & s' & -> & Ho & _).
  done.
Qed.

(** C1, as the script has it.  When [main] ends, it ends with status 0
    if the health check got a 200 and the catalog service accepted at
    least one indicator creation, and with status 1 otherwise: also
    when every desired indicator was already there and was skipped.
    This holds for any services; against the reference services [main]
    does end, given fuel for the indicators there are and those of the
    document. *)
Theorem exit_status_of_main :
  (∀ (W : Type) (H : Services W) (fuel : nat) (file : domains_file) (w : W),
     let '(o, s') := main fuel file (init w) in
     match exit_status o with
     | Some code =>
       code = 0 ∧ healthy w ∧ (0 < count_log indicator_created (log s'))%nat
       ∨ code = 1 ∧ (¬ healthy w ∨ count_log indicator_created (log s') = 0%nat)
     | None => o = OutOfFuel
     end)
  ∧ (∀ (w : live_state) (file : domains_file) (fuel : nat),
       (ceil_div (length (live_indicators w) + desired_count file) 50 < fuel)%nat →
       is_Some (exit_status (main fuel file (init w)).1)).
Proof.
  split.
  - intros W H fuel file w. apply main_exit_status.
  - apply reference_main_terminates.
Qed.

(** ** The properties on sample data *)

(** The first run of the scenario ends with status 0. *)
Lemma exit_status_of_main_witness :
  (ceil_div (length (live_indicators empty_services)
             + desired_count (Domains [economy])) 50 < 5)%nat
  ∧ is_Some (exit_status (main 5 (Domains [economy]) (init empty_services)).1)
  ∧ exit_status (main 5 (Domains [economy]) (init empty_services)).1 = Some 0
  ∧ healthy empty_services
  ∧ (0 < count_log indicator_created
           (log (main 5 (Domains [economy]) (init empty_services)).2))%nat.
Proof.
  assert (ceil_div (length (live_indicators empty_services)
                    + desired_count (Domains [economy])) 50 < 5)%nat as Hfuel.
  { vm_compute. lia. }
  split; [exact Hfuel|].
  split; [exact (proj2 exit_status_of_main empty_services (Domains [economy]) 5%nat Hfuel)|].
  pose proof (proj1 exit_status_of_main live_state _ 5%nat (Domains [economy])
                empty_services) as Hstatus.
  assert (main 5 (Domains [economy]) (init empty_services)
          = (Return tt, (main 5 (Domains [economy]) (init empty_services)).2)) as Hrun.
  { vm_compute. reflexivity. }
  rewrite Hrun in Hstatus. cbn [exit_status] in Hstatus.
  destruct Hstatus as [(_ & Hh & Hn)|(Hbad & _)]; [|discriminate Hbad].
  split; [|split; [exact Hh|exact Hn]].
  vm_compute. reflexivity.
Defined.


(** Behind a network that loses everything the fetchers return what
    they have. *)
Lemma state_fetchers_never_raise_witness :
  no_success (serve (GET_indicators (Some 0%nat) limit) (world (init offline))).1
  ∧ no_success (serve GET_domains (world (init offline))).1
  ∧ (pagination_loop 1 [linked_gdp] 0 (init offline)).1 = Return [linked_gdp]
  ∧ (get_existing_domains (init offline)).1 = Return [].
Proof.
  destruct (state_fetchers_never_raise 0 [linked_gdp] 0 (init offline))
    as (_ & _ & Hpage & _ & Hdomains).
  split; [exact I|]. split; [exact I|]. split; [exact (Hpage I)|exact (Hdomains I)].
Defined.

(** When the second page is lost, the first page is what is returned. *)
Example first_page_survives :
  (get_all_indicators_with_pagination 5 (init second_page_lost)).1
  = Return (replicate 50 linked_gdp).
Proof. vm_compute. reflexivity. Qed.

(** The decision for the indicator of the scenario: without resources,
    with a lone placeholder, with the resource the first run linked,
    with an id the listing does not have, and with the resource service
    offline. *)
Lemma needs_backfill_decision_witness :
  (needs_backfill unlinked_gdp (init imported_services)).1 = Return true
  ∧ (needs_backfill (with_resources ["string"]) (init imported_services)).1
    = Return true
  ∧ (needs_backfill (with_resources ["gdp_resource"]) (init imported_services)).1
    = Return true
  ∧ in_listing "oid2" (serve GET_resources seeded_services).1
  ∧ (needs_backfill linked_gdp (init seeded_services)).1 = Return false
  ∧ (backfill_indicator linked_gdp (Counters 0 0 0) (init seeded_services)).1
    = Return (Counters 1 0 0)
  ∧ log (backfill_indicator linked_gdp (Counters 0 0 0) (init seeded_services)).2
    = [(GET_resources, Some 200)]
  ∧ ¬ in_listing "gone" (serve GET_resources seeded_services).1
  ∧ (needs_backfill (with_resources ["gone"]) (init seeded_services)).1 = Return true
  ∧ log (needs_backfill (with_resources ["gone"]) (init seeded_services)).2
    = [(GET_resources, Some 200)]
  ∧ no_success (serve GET_resources offline).1
  ∧ (needs_backfill linked_gdp (init offline)).1 = Return true
  ∧ log (needs_backfill linked_gdp (init offline)).2 = [(GET_resources, None)].
Proof.
  assert (serve GET_resources seeded_services
          = (Some (Response 200 [ {| res_id := Some "oid2" |} ]), seeded_services))
    as Hlisting by (vm_compute; reflexivity).
  assert (in_listing "oid2" (serve GET_resources seeded_services).1) as Hconfirmed.
  { rewrite Hlisting. eexists. split; [reflexivity|]. split; [reflexivity|].
    eexists. split; [apply list_elem_of_here|reflexivity]. }
  assert (∀ res, res ∈ [ {| res_id := Some "oid2" |} ] → res_id res ≠ Some "gone")
    as Habsent.
  { intros res ->%list_elem_of_singleton. discriminate. }
  assert (¬ (∃ pre, "oid2" = pre +:+ "_resource")) as Hoid2
    by (apply not_suffix; vm_compute; reflexivity).
  assert (¬ (∃ pre, "gone" = pre +:+ "_resource")) as Hgone
    by (apply not_suffix; vm_compute; reflexivity).
  assert ("oid2" ≠ "string") as Hoid2' by discriminate.
  assert ("gone" ≠ "string") as Hgone' by discriminate.
  pose proof (proj1 (needs_backfill_decision unlinked_gdp (Counters 0 0 0)
                       (init imported_services)) eq_refl) as [H1 _].
  pose proof (proj1 (proj2 (needs_backfill_decision (with_resources ["string"])
                              (Counters 0 0 0) (init imported_services)))
                "string" eq_refl (or_introl eq_refl)) as [H2 _].
  pose proof (proj1 (proj2 (needs_backfill_decision (with_resources ["gdp_resource"])
                              (Counters 0 0 0) (init imported_services)))
                "gdp_resource" eq_refl
                (or_intror (ex_intro _ "gdp" eq_refl))) as [H3 _].
  pose proof (proj2 (proj2 (needs_backfill_decision linked_gdp (Counters 0 0 0)
                              (init seeded_services)))
                "oid2" eq_refl Hoid2' Hoid2) as (_ & _ & H4 & _ & H5).
  pose proof (proj2 (proj2 (needs_backfill_decision (with_resources ["gone"])
                              (Counters 0 0 0) (init seeded_services)))
                "gone" eq_refl Hgone' Hgone) as (H6 & H7 & _ & H8 & _).
  pose proof (proj2 (proj2 (needs_backfill_decision linked_gdp (Counters 0 0 0)
                              (init offline)))
                "oid2" eq_refl Hoid2' Hoid2) as (H9 & _ & _ & H10 & _).
  cbn [init world log] in *.
  split; [exact H1|]. split; [exact H2|]. split; [exact H3|].
  split; [exact Hconfirmed|]. split; [exact (proj2 H4 Hconfirmed)|].
  split; [exact (proj1 (H5 Hconfirmed))|]. split; [exact (proj2 (H5 Hconfirmed))|].
  split; [rewrite Hlisting; by eapply absent_not_in_listing|].
  split.
  { exact (proj2 H8 (or_intror (ex_intro _ _ (conj (f_equal fst Hlisting) Habsent)))). }
  split; [rewrite H6, Hlisting; reflexivity|].
  split; [exact I|]. split; [exact (proj2 H10 (or_introl I))|exact H9].
Defined.

(** The scenario with the link writes lost: the resource is created, the
    indicator is not counted, the orphan is reported, and there is one
    attempt of each write. *)
Example orphan_reported_not_retried :
  let s' := (add_resources_to_all_indicators 5 (init links_lost)).2 in
  console s' = [AddingResources; FoundTotalIndicators 1; CreatingResource "GDP";
                FailedToLink "oid2" "GDP"; ResourceSummary 1 0 0]
  ∧ count_log resource_created (log s') = 1%nat
  ∧ count_log is_POST_indicator_resources (log s') = 1%nat
  ∧ count_log linked (log s') = 0%nat.
Proof. vm_compute. done. Qed.

(** The summary of the backfill pass of the scenario. *)
Lemma summary_updated_equals_resources_witness :
  ResourceSummary 1 1 1
    ∈ console (add_resources_to_all_indicators 5 (init imported_services)).2
  ∧ 1%nat = 1%nat
  ∧ 1%nat = count_log linked
              (log (add_resources_to_all_indicators 5 (init imported_services)).2).
Proof.
  assert (ResourceSummary 1 1 1
            ∈ console (add_resources_to_all_indicators 5 (init imported_services)).2)
    as Hin.
  { apply (bool_decide_unpack _). vm_compute. exact I. }
  split; [exact Hin|].
  exact (summary_updated_equals_resources 5 imported_services 1 1 1 Hin).
Defined.

(** Fetching the one indicator of the scenario takes two requests. *)
Lemma pagination_completeness_witness :
  (ceil_div (length (live_indicators seeded_services)) 50 < 5)%nat
  ∧ ∃ s',
      get_all_indicators_with_pagination 5 (init seeded_services)
      = (Return (live_indicators seeded_services), s')
      ∧ log s' = page_requests 0 (ceil_div (length (live_indicators seeded_services)) 50 + 1)
      ∧ length (log s') = (ceil_div (length (live_indicators seeded_services)) 50 + 1)%nat
      ∧ (∀ k, (length (live_indicators seeded_services) ≤ k * 50)%nat
              ↔ (ceil_div (length (live_indicators seeded_services)) 50 ≤ k)%nat).
Proof.
  assert (ceil_div (length (live_indicators seeded_services)) 50 < 5)%nat as Hfuel.
  { vm_compute. lia. }
  split; [exact Hfuel|]. exact (pagination_completeness seeded_services 5 Hfuel).
Defined.

(** The scenario, run twice. *)
Lemma import_twice_creates_nothing_witness :
  NoDup (d_name <$> [economy])
  ∧ NoDup (i_name <$> desired_indicators [economy])
  ∧ Forall (λ i, i_name i ≠ "") (desired_indicators [economy])
  ∧ (ceil_div (length (live_indicators empty_services)
               + length (desired_indicators [economy])) 50 < 5)%nat
  ∧ (let run1 := import_complete_data 5 (Domains [economy]) (init empty_services) in
     let run2 := import_complete_data 5 (Domains [economy]) (init (world run1.2)) in
     run2.1 = Return false
     ∧ count_log is_POST_domains (log run2.2) = 0%nat
     ∧ count_log is_POST_indicators (log run2.2) = 0%nat
     ∧ world run2.2 = world run1.2)
  ∧ (let run1 := main 5 (Domains [economy]) (init empty_services) in
     let run2 := main 5 (Domains [economy]) (init (world run1.2)) in
     exit_status run2.1 = Some 1
     ∧ count_log is_POST_domains (log run2.2) = 0%nat
     ∧ count_log is_POST_indicators (log run2.2) = 0%nat
     ∧ world run2.2 = world run1.2).
Proof.
  assert (NoDup (d_name <$> [economy])) as H1.
  { apply (bool_decide_unpack _). vm_compute. exact I. }
  assert (NoDup (i_name <$> desired_indicators [economy])) as H2.
  { apply (bool_decide_unpack _). vm_compute. exact I. }
  assert (Forall (λ i, i_name i ≠ "") (desired_indicators [economy])) as H3.
  { repeat constructor. discriminate. }
  assert (ceil_div (length (live_indicators empty_services)
                    + length (desired_indicators [economy])) 50 < 5)%nat as H4.
  { vm_compute. lia. }
  destruct (import_twice_creates_nothing empty_services [economy] 5 H1 H2 H3 H4)
    as [(_ & Hb & Hd & Hi & Hw) (_ & Hb' & Hd' & Hi' & Hw')].
  by repeat split.
Defined.

(** An indicator with two placeholders: skipped when the listing has
    the first; when it has not, given a third resource by a catalog that
    appends, and left with the new resource alone by one that
    replaces. *)
Lemma many_resources_first_entry_decides_witness :
  ind_resources twice_linked = ["string"; "old_resource"]
  ∧ in_listing "string" (serve GET_resources listing_with_string).1
  ∧ (needs_backfill twice_linked (init listing_with_string)).1 = Return false
  ∧ ¬ in_listing "string" (serve GET_resources no_resource).1
  ∧ (needs_backfill twice_linked (init no_resource)).1 = Return true
  ∧ log (backfill_indicator twice_linked (Counters 0 0 0) (init no_resource)).2
    = [(GET_resources, Some 200);
       (POST_resources (make_resource_data (Some "GDP") (Some "oid1")), Some 201);
       (POST_indicator_resources "oid1" "oid5", Some 200)]
  ∧ (∃ indicator',
       indicator' ∈ live_indicators
                      (world (backfill_indicator twice_linked (Counters 0 0 0)
                                (init no_resource)).2)
       ∧ ind_id indicator' = Some "oid1"
       ∧ ind_resources indicator' = ["string"; "old_resource"; "oid5"])
  ∧ ∃ indicator',
      indicator' ∈ live_indicators
                     (kept (world (backfill_indicator twice_linked (Counters 0 0 0)
                                     (init (Replacing no_resource))).2))
      ∧ ind_id indicator' = Some "oid1"
      ∧ ind_resources indicator' = ["oid5"].
Proof.
  destruct (many_resources_first_entry_decides twice_linked "string" "old_resource" []
              eq_refl) as (Hdecision & Happend & Hreplace).
  assert (in_listing "string" (serve GET_resources listing_with_string).1) as Hin.
  { eexists. split; [reflexivity|]. split; [reflexivity|].
    eexists. split; [apply list_elem_of_here|reflexivity]. }
  assert (∀ res : resource_record, res ∈ [] → res_id res ≠ Some "string") as Hnone.
  { intros res Hres. by apply not_elem_of_nil in Hres. }
  assert (¬ in_listing "string" (serve GET_resources no_resource).1) as Hout.
  { by eapply absent_not_in_listing. }
  destruct (Hdecision live_state _ (Counters 0 0 0) (init listing_with_string))
    as (_ & _ & Hfalse & _).
  destruct (Hdecision live_state _ (Counters 0 0 0) (init no_resource))
    as (_ & Htrue & _ & _).
  destruct (Happend no_resource (Counters 0 0 0) "oid1" eq_refl
              (list_elem_of_here _ _) Hnone) as (Hlog & i & Hi & Hid & Hr).
  destruct (Hreplace (Replacing no_resource) (Counters 0 0 0) "oid1" eq_refl
              (list_elem_of_here _ _) Hnone) as (_ & i' & Hi' & Hid' & Hr').
  split; [reflexivity|]. split; [exact Hin|]. split; [exact (proj2 Hfalse Hin)|].
  split; [exact Hout|]. split; [exact (proj2 Htrue Hout)|].
  split; [exact Hlog|].
  split; [exists i; by repeat split|exists i'; by repeat split].
Defined.

(** ** Where the script departs from the specification *)

(** C1 as stated fails.  Every desired domain and indicator is live and
    the health check succeeds, and the process exits with status 1. *)
Lemma all_present_run_exits_1 :
  healthy seeded_services
  ∧ Forall (λ d, Some (d_name d) ∈ dom_name <$> live_domains seeded_services) [economy]
  ∧ Forall (λ i, Some (i_name i) ∈ ind_name <$> live_indicators seeded_services)
           (desired_indicators [economy])
  ∧ exit_status (main 5 (Domains [economy]) (init seeded_services)).1 = Some 1.
Proof.
  split; [reflexivity|]. split; [|split].
  - apply (bool_decide_unpack _). vm_compute. exact I.
  - apply (bool_decide_unpack _). vm_compute. exact I.
  - vm_compute. reflexivity.
Qed.

(** C6 as stated fails.  Two indicators with a valid link: the listing
    is fetched twice in one pass. *)
Lemma listing_fetched_twice :
  count_log is_GET_resources
    (log (add_resources_to_all_indicators 5 (init two_linked_services)).2) = 2%nat
  ∧ ¬ (count_log is_GET_resources
         (log (add_resources_to_all_indicators 5 (init two_linked_services)).2)
       ≤ 1)%nat.
Proof.
  assert (count_log is_GET_resources
            (log (add_resources_to_all_indicators 5 (init two_linked_services)).2)
          = 2%nat) as -> by (vm_compute; reflexivity).
  split; [done|lia].
Qed.

(** C7 as stated fails.  A document whose names are pairwise distinct,
    one of them empty: the second run of the import creates the unnamed
    indicator again, and so does the second run of the whole script. *)
Lemma unnamed_indicator_created_again :
  let run1 := import_complete_data 5 (Domains [unnamed]) (init empty_services) in
  let run2 := import_complete_data 5 (Domains [unnamed]) (init (world run1.2)) in
  let main1 := main 5 (Domains [unnamed]) (init empty_services) in
  let main2 := main 5 (Domains [unnamed]) (init (world main1.2)) in
  NoDup (d_name <$> [unnamed])
  ∧ NoDup (i_name <$> desired_indicators [unnamed])
  ∧ run2.1 = Return true
  ∧ count_log indicator_created (log run2.2) = 1%nat
  ∧ length (live_indicators (world run1.2)) = 1%nat
  ∧ length (live_indicators (world run2.2)) = 2%nat
  ∧ count_log indicator_created (log main2.2) = 1%nat
  ∧ length (live_indicators (world main1.2)) = 1%nat
  ∧ length (live_indicators (world main2.2)) = 2%nat.
Proof.
  cbn zeta. split; [|split].
  - apply (bool_decide_unpack _). vm_compute. exact I.
  - apply (bool_decide_unpack _). vm_compute. exact I.
  - vm_compute. done.
Qed.

(** C10 as stated fails.  An indicator with two entries, the first of
    them not in the listing: against a catalog whose link write replaces
    the resources of the indicator, the backfill leaves it with the new
    resource alone, and the shape of at most one resource is
    restored. *)
Lemma replacing_catalog_restores_shape :
  let s' := (backfill_indicator twice_linked (Counters 0 0 0)
               (init (Replacing no_resource))).2 in
  ind_resources twice_linked = ["string"; "old_resource"]
  ∧ live_indicators no_resource = [twice_linked]
  ∧ (needs_backfill twice_linked (init (Replacing no_resource))).1 = Return true
  ∧ log s' = [(GET_resources, Some 200);
              (POST_resources (make_resource_data (Some "GDP") (Some "oid1")),
               Some 201);
              (POST_indicator_resources "oid1" "oid5", Some 200)]
  ∧ ind_resources <$> live_indicators (kept (world s')) = [["oid5"]]
  ∧ Forall (λ indicator, (length (ind_resources indicator) ≤ 1)%nat)
           (live_indicators (kept (world s'))).
Proof.
  cbn zeta.
  assert (live_indicators
            (kept (world (backfill_indicator twice_linked (Counters 0 0 0)
                            (init (Replacing no_resource))).2))
          = [ {| ind_id := Some "oid1"; ind_name := Some "GDP";
                 ind_periodicity := None; ind_resources := ["oid5"];
                 ind_domain := None |} ]) as -> by (vm_compute; reflexivity).
  split; [reflexivity|]. split; [reflexivity|]. split; [vm_compute; reflexivity|].
  split; [vm_compute; reflexivity|]. split; [reflexivity|].
  repeat constructor.
Qed.

(** * Further properties of the script *)

(** ** Loops and phases *)

Section MoreLoops.

Context {W : Type} `{!Services W}.

Lemma bind_ext {A B} (m m' : M W A) (k k' : A → M W B) s :
  m s = m' s → (∀ a s', k a s' = k' a s') → bind m k s = bind m' k' s.
Proof. intros Em E. unfold bind. rewrite Em. destruct (m' s) as [[a|e|] s']; auto. Qed.

Lemma bind_assoc {A B C} (m : M W A) (f : A → M W B) (g : B → M W C) s :
  bind (bind m f) g s = bind m (λ a, bind (f a) g) s.
Proof. unfold bind. destruct (m s) as [[a|e|] s']; auto. Qed.

Lemma for_each_ext {A S} (l : list A) (body body' : A → S → M W S) acc s :
  (∀ x acc s, x ∈ l → body x acc s = body' x acc s) →
  for_each l body acc s = for_each l body' acc s.
Proof.
  revert acc s. induction l as [|x l IH]; intros acc s E; [reflexivity|].
  cbn [for_each]. apply bind_ext; [apply E; left|].
  intros a s'. apply IH. intros y acc' s'' Hy. apply E. by right.
Qed.

Lemma for_each_app {A S} (l1 l2 : list A) (body : A → S → M W S) acc s :
  for_each (l1 ++ l2) body acc s
  = bind (for_each l1 body acc) (for_each l2 body) s.
Proof.
  revert acc s. induction l1 as [|x l1 IH]; intros acc s; [reflexivity|].
  cbn [for_each app]. rewrite bind_assoc. by apply bind_ext.
Qed.

Lemma for_each_fmap {A B S} (g : A → B) (l : list A) (body : B → S → M W S) acc s :
  for_each (g <$> l) body acc s = for_each l (λ x, body (g x)) acc s.
Proof.
  revert acc s. induction l as [|x l IH]; intros acc s; [reflexivity|].
  cbn [for_each fmap list_fmap]. by apply bind_ext.
Qed.

(** A loop nested in a loop is one loop over the elements the inner
    loops visit. *)
Lemma for_each_bind {A B S} (f : A → list B) (l : list A) (body : B → S → M W S)
    acc s :
  for_each (l ≫= f) body acc s
  = for_each l (λ x acc, for_each (f x) body acc) acc s.
Proof.
  revert acc s. induction l as [|x l IH]; intros acc s; [reflexivity|].
  rewrite bind_cons, for_each_app. cbn [for_each]. by apply bind_ext.
Qed.

(** The body of the indicator loops on a target. *)
Lemma import_domain_indicators_flat m existing domain_json c s :
  import_domain_indicators m existing domain_json c s
  = for_each (domain_targets m domain_json)
      (λ t, import_indicator existing t.1.1 t.1.2 t.2) c s.
Proof.
  unfold import_domain_indicators, domain_targets.
  destruct (truthy _) as [domain_id|]; [|reflexivity].
  rewrite for_each_bind. apply for_each_ext. intros sub acc s' _.
  unfold import_subdomain. by rewrite for_each_fmap.
Qed.

Lemma import_indicators_flat m existing domains c s :
  for_each domains (import_domain_indicators m existing) c s
  = for_each (import_targets m domains)
      (λ t, import_indicator existing t.1.1 t.1.2 t.2) c s.
Proof.
  unfold import_targets. rewrite for_each_bind. apply for_each_ext.
  intros d acc s' _. apply import_domain_indicators_flat.
Qed.

End MoreLoops.

Section ImportPhases.

Context {W : Type} `{!Services W}.
Implicit Types s : state W.

Lemma import_domains_requests (names : gset (option string)) domains m s :
  ∃ m' s' d,
    for_each domains (import_domain names) m s = (Return m', s')
    ∧ log s' = log s ++ d
    ∧ console s' = console s
    ∧ d.*1 = (λ domain_json, POST_domains (make_domain_data domain_json))
             <$> filter (λ domain_json, Some (d_name domain_json) ∉ names) domains.
Proof.
  revert m s. induction domains as [|x domains IH]; intros m s.
  { exists m, s, []. by rewrite app_nil_r. }
  cbn [for_each]. unfold bind, import_domain at 1.
  destruct (decide (Some (d_name x) ∈ names)) as [Hin|Hout].
  - rewrite bool_decide_eq_true_2 by done. cbn [ret].
    destruct (IH m s) as (m' & s' & d & -> & Hlog & Hcon & Hd).
    exists m', s', d. repeat split; try done.
    by rewrite filter_cons_False by (intros ?; contradiction).
  - rewrite bool_decide_eq_false_2 by done. unfold bind.
    rewrite create_domain_eq.
    destruct (serve (POST_domains (make_domain_data x)) (world s)) as [o w].
    set (id := match o with Some _ => _ | None => _ end).
    set (s1 := logged s _ _ w).
    assert (∃ m1, (match truthy id with
                   | Some domain_id => ret (<[Some (d_name x) := Some domain_id]> m)
                   | None => ret m
                   end) s1 = (Return m1, s1)) as [m1 ->].
    { destruct (truthy id); eexists; reflexivity. }
    destruct (IH m1 s1) as (m' & s' & d & -> & Hlog & Hcon & Hd).
    exists m', s', ((POST_domains (make_domain_data x), status_of o) :: d).
    repeat split.
    + rewrite Hlog. subst s1. cbn [log logged]. by rewrite <- (assoc_L (++)).
    + by rewrite Hcon.
    + rewrite filter_cons_True by done. cbn [fmap list_fmap]. cbn. by rewrite <- Hd.
Qed.

Lemma import_targets_tally existing (T : list (string * string * indicator_spec)) c s :
  ∃ c' s' d,
    for_each T (λ t, import_indicator existing t.1.1 t.1.2 t.2) c s = (Return c', s')
    ∧ log s' = log s ++ d
    ∧ console s' = console s
    ∧ d.*1 = target_request <$> filter (λ t, existing !! i_name t.2 = None) T
    ∧ imp_total_indicators c' = (imp_total_indicators c + length T)%nat
    ∧ imp_created_indicators c'
      = (imp_created_indicators c + count_log indicator_created d)%nat
    ∧ imp_skipped_indicators c'
      = (imp_skipped_indicators c
         + length (filter (λ t, is_Some (existing !! i_name t.2)) T))%nat.
Proof.
  revert c s. induction T as [|t T IH]; intros c s.
  { exists c, s, []. rewrite app_nil_r. cbn. repeat split; lia. }
  cbn [for_each]. unfold bind, import_indicator at 1.
  destruct (existing !! i_name t.2) as [found|] eqn:Hlookup.
  - rewrite bool_decide_eq_true_2 by done. cbn [ret].
    match goal with |- context [for_each T _ ?c1 s] =>
      destruct (IH c1 s) as (c' & s' & d & -> & Hlog & Hcon & Hd & Ht & Hc & Hs)
    end.
    cbn in Ht, Hc, Hs.
    exists c', s', d. repeat split; try done.
    + rewrite filter_cons_False; [done|]. rewrite Hlookup. done.
    + cbn [length]. lia.
    + rewrite filter_cons_True by (by rewrite Hlookup). cbn [length]. lia.
  - rewrite bool_decide_eq_false_2 by (intros [? ?]; done). unfold bind.
    rewrite create_indicator_eq. cbn zeta.
    destruct (serve (POST_indicators t.1.1 t.1.2 (make_indicator_data t.2 t.1.2))
                    (world s)) as [o w].
    set (s1 := logged s _ _ w).
    set (ok := match o with Some resp => in_200_201 (status_code resp) | None => false end).
    assert (indicator_created (target_request t, status_of o) = ok) as Hok.
    { subst ok. by destruct o. }
    destruct ok eqn:Eok; cbn [ret];
      (match goal with |- context [for_each T _ ?c1 ?s2] =>
         destruct (IH c1 s2) as (c' & s' & d & -> & Hlog & Hcon & Hd & Ht & Hc & Hs)
       end);
      cbn in Ht, Hc, Hs;
      exists c', s', ((target_request t, status_of o) :: d);
      (repeat split;
        [ rewrite Hlog; subst s1; cbn [log logged]; by rewrite <- (assoc_L (++))
        | by rewrite Hcon
        | rewrite filter_cons_True by (by rewrite Hlookup); cbn; by rewrite <- Hd
        | cbn [length]; lia
        | | rewrite filter_cons_False by (rewrite Hlookup; intros [? ?]; done); lia ]).
    + unfold count_log in *. cbn [List.filter]. rewrite Hok. cbn [length]. lia.
    + unfold count_log in *. cbn [List.filter]. rewrite Hok. lia.
Qed.

(** The three phases of the import: the domains that are not listed are
    posted, the indicators are fetched, the indicators that are not in
    the lookup are posted. *)
Lemma import_complete_data_phases fuel domains s :
  let o0 := (serve GET_domains (world s)).1 in
  let names : gset (option string) := list_to_set (dom_name <$> listed_domains o0) in
  ∃ d1 d2 d3 o s',
    import_complete_data fuel (Domains domains) s = (o, s')
    ∧ log s' = log s ++ (GET_domains, status_of o0) :: d1 ++ d2 ++ d3
    ∧ d1.*1 = (λ domain_json, POST_domains (make_domain_data domain_json))
              <$> filter (λ domain_json, Some (d_name domain_json) ∉ names) domains
    ∧ Forall (λ e, is_GET_indicators e = true) d2
    ∧ (o = OutOfFuel ∧ d3 = [] ∧ console s' = console s
       ∨ ∃ m (existing : gmap string indicator_record),
           let T := import_targets m domains in
           let created := count_log indicator_created d3 in
           let skipped := length (filter (λ t, is_Some (existing !! i_name t.2)) T) in
           d3.*1 = target_request <$> filter (λ t, existing !! i_name t.2 = None) T
           ∧ o = Return (bool_decide (0 < created)%nat)
           ∧ console s'
             = console s ++ [ImportSummary (length domains) (length T) created skipped
                               (Z.of_nat (length T) - Z.of_nat created
                                - Z.of_nat skipped)]
           ∧ ∃ s1,
               for_each domains (import_domain names)
                 (map_domain_ids (listed_domains o0))
                 (logged s GET_domains (status_of o0) (serve GET_domains (world s)).2)
               = (Return m, s1)
               ∧ log s1 = log s ++ (GET_domains, status_of o0) :: d1).
Proof.
  cbn zeta. unfold import_complete_data, bind at 1.
  rewrite get_existing_domains_eq.
  destruct (serve GET_domains (world s)) as [o0 w0]. cbn [fst snd].
  change (match o0 with
          | Some resp => if bool_decide (status_code resp = 200) then json resp else []
          | None => []
          end) with (listed_domains o0).
  set (s0 := logged s GET_domains (status_of o0) w0).
  set (names := list_to_set (dom_name <$> listed_domains o0) : gset (option string)).
  unfold bind at 1.
  destruct (import_domains_requests names domains
              (map_domain_ids (listed_domains o0)) s0)
    as (m & s1 & d1 & Hloop & Hlog1 & Hcon1 & Hd1).
  rewrite Hloop.
  unfold bind at 1. unfold get_existing_indicators, bind at 1.
  unfold get_all_indicators_with_pagination.
  destruct (pagination_loop_effect fuel [] 0%nat s1)
    as (o & d2 & s2 & -> & Hnoraise & Hlog2 & Hcon2 & Hd2).
  assert (log s2 = log s ++ (GET_domains, status_of o0) :: d1 ++ d2) as Hlog.
  { rewrite Hlog2, Hlog1. subst s0. cbn [log logged].
    by rewrite <- !(assoc_L (++)). }
  assert (console s2 = console s) as Hcon by (by rewrite Hcon2, Hcon1).
  destruct o as [indicators|e|].
  - cbn [ret]. unfold bind at 1. rewrite import_indicators_flat.
    destruct (import_targets_tally (index_by_name indicators)
                (import_targets m domains) (ImportCounters 0 0 0) s2)
      as (c & s3 & d3 & -> & Hlog3 & Hcon3 & Hd3 & Ht & Hc & Hs).
    cbn in Ht, Hc, Hs. rewrite Ht, Hc, Hs.
    exists d1, d2, d3. eexists _, _. split; [reflexivity|].
    cbn [log console print ret bind]. split; [|split; [done|split; [done|]]].
    + rewrite Hlog3, Hlog. rewrite <- !(assoc_L (++)). cbn [app].
      by rewrite <- !(assoc_L (++)).
    + right. exists m, (index_by_name indicators). cbn zeta.
      split; [done|]. split; [done|]. split; [by rewrite Hcon3, Hcon|].
      exists s1. split; [done|]. rewrite Hlog1. subst s0. cbn [log logged].
      by rewrite <- (assoc_L (++)).
  - by destruct (Hnoraise e).
  - exists d1, d2, []. eexists _, _. split; [reflexivity|].
    rewrite app_nil_r. repeat split; try done. by left.
Qed.

End ImportPhases.

Section BackfillTally.

Context {W : Type} `{!Services W}.
Implicit Types s : state W.

Ltac logs :=
  cbn [log console logged printed];
  rewrite <- ?(assoc_L (++));
  first [reflexivity | symmetry; apply app_nil_r].

Lemma count_log_cons P e l :
  count_log P (e :: l) = ((if P e then 1 else 0) + count_log P l)%nat.
Proof. unfold count_log. cbn. by destruct (P e). Qed.

Lemma count_log_singleton P e : count_log P [e] = (if P e then 1 else 0)%nat.
Proof. unfold count_log. cbn. by destruct (P e). Qed.

(** The decision only reads the listing of the resource service. *)
Lemma needs_backfill_reads indicator s :
  ∃ (b : bool) d lines s',
    needs_backfill indicator s = (Return b, s')
    ∧ log s' = log s ++ d
    ∧ console s' = console s ++ lines
    ∧ Forall (λ e, is_GET_resources e = true) d
    ∧ Forall (λ l, is_ResourceSummary l = false) lines.
Proof.
  rewrite needs_backfill_eq. cbn zeta.
  destruct (ind_resources indicator) as [|r rest].
  { eexists _, [], [], _. split; [done|]. rewrite !app_nil_r.
    repeat split; constructor. }
  destruct (_ && _).
  { eexists _, [], _, _. split; [done|]. split; [logs|]. split; [logs|].
    repeat split; repeat constructor. }
  destruct (_ && _).
  { eexists _, [], _, _. split; [done|]. split; [logs|]. split; [logs|].
    repeat split; repeat constructor. }
  destruct (serve GET_resources (world s)) as [o w].
  eexists _, _, _, _. split; [done|]. split; [logs|]. split; [logs|].
  repeat split; repeat constructor. by destruct o as [[? ?]|]; simpl; repeat case_match.
Qed.

(** A resource is created once; it is linked at most once, and only
    when the resource service accepted the creation. *)
Lemma create_and_link_tally indicator c s :
  ∃ c' d lines s',
    create_and_link indicator c s = (Return c', s')
    ∧ log s' = log s ++ d
    ∧ console s' = console s ++ lines
    ∧ Forall (λ e, backfill_exchange e = true) d
    ∧ count_log is_POST_resources d = 1%nat
    ∧ (count_log is_POST_indicator_resources d ≤ count_log resource_created d)%nat
    ∧ total_indicators c' = total_indicators c
    ∧ updated_indicators c' = (updated_indicators c + count_log linked d)%nat
    ∧ total_resources c' = (total_resources c + count_log linked d)%nat
    ∧ Forall (λ l, is_ResourceSummary l = false) lines.
Proof.
  rewrite create_and_link_eq. cbn zeta.
  destruct (serve _ (world s)) as [o1 w1].
  destruct (truthy (created_id o1)) as [resource_id|] eqn:Hid.
  - assert (resource_created
              (POST_resources (make_resource_data (ind_name indicator)
                                                  (ind_id indicator)),
               status_of o1) = true) as Hcreated.
    { destruct o1 as [[st r]|]; [|done]. cbn in Hid |- *.
      unfold resource_created, accepted. cbn. by destruct (in_200_201 st). }
    destruct (serve _ w1) as [o2 w2].
    assert (linked (POST_indicator_resources (fmt (ind_id indicator)) resource_id,
                    status_of o2) = link_accepted o2) as Hlinked.
    { unfold linked. cbn. apply accepted_link. }
    destruct (link_accepted o2) eqn:Hlink.
    all: eexists _, _, _, _; (split; [done|]); (split; [logs|]); (split; [logs|]).
    all: rewrite !count_log_app, !count_log_singleton, Hcreated, Hlinked.
    all: cbn; repeat split; repeat constructor; lia.
  - eexists _, _, _, _. split; [done|]. split; [logs|]. split; [logs|].
    rewrite !count_log_singleton. cbn.
    repeat split; repeat constructor; lia.
Qed.

Lemma backfill_indicator_tally indicator c s :
  ∃ c' d lines s',
    backfill_indicator indicator c s = (Return c', s')
    ∧ log s' = log s ++ d
    ∧ console s' = console s ++ lines
    ∧ Forall (λ e, backfill_exchange e = true) d
    ∧ (count_log is_POST_resources d ≤ 1)%nat
    ∧ (count_log is_POST_indicator_resources d ≤ count_log resource_created d)%nat
    ∧ total_indicators c' = (total_indicators c + 1)%nat
    ∧ updated_indicators c' = (updated_indicators c + count_log linked d)%nat
    ∧ total_resources c' = (total_resources c + count_log linked d)%nat
    ∧ Forall (λ l, is_ResourceSummary l = false) lines.
Proof.
  unfold backfill_indicator, bind.
  destruct (needs_backfill_reads indicator s)
    as (b & d1 & l1 & s1 & -> & Hlog1 & Hcon1 & Hd1 & Hl1).
  assert (∀ Q, (∀ e, is_GET_resources e = true → Q e = false) →
               count_log Q d1 = 0%nat) as Hnone.
  { intros Q HQ. by eapply count_log_other. }
  assert (Forall (λ e, backfill_exchange e = true) d1) as Hb1.
  { eapply Forall_impl; [done|]. by intros [[] ?]. }
  destruct b.
  - destruct (create_and_link_tally indicator
                (Counters (total_indicators c + 1) (updated_indicators c)
                          (total_resources c)) s1)
      as (c' & d2 & l2 & s2 & -> & Hlog2 & Hcon2 & Hd2 & Hp & Hl & Ht & Hu & Hr & Hl2).
    cbn in Ht, Hu, Hr.
    exists c', (d1 ++ d2), (l1 ++ l2), s2. split; [done|].
    rewrite Hlog2, Hlog1, Hcon2, Hcon1, !count_log_app.
    rewrite !Hnone by (by intros [[] ?]).
    rewrite <- !(assoc_L (++)), !Forall_app.
    repeat split; try done; lia.
  - eexists _, d1, l1, s1. split; [done|].
    rewrite !Hnone by (by intros [[] ?]). cbn.
    repeat split; try done; lia.
Qed.

Lemma backfill_loop_tally indicators c s :
  ∃ c' d lines s',
    for_each indicators backfill_indicator c s = (Return c', s')
    ∧ log s' = log s ++ d
    ∧ console s' = console s ++ lines
    ∧ Forall (λ e, backfill_exchange e = true) d
    ∧ (count_log is_POST_resources d ≤ length indicators)%nat
    ∧ (count_log is_POST_indicator_resources d ≤ count_log resource_created d)%nat
    ∧ total_indicators c' = (total_indicators c + length indicators)%nat
    ∧ updated_indicators c' = (updated_indicators c + count_log linked d)%nat
    ∧ total_resources c' = (total_resources c + count_log linked d)%nat
    ∧ Forall (λ l, is_ResourceSummary l = false) lines.
Proof.
  revert c s. induction indicators as [|indicator indicators IH]; intros c s.
  - exists c, [], [], s. rewrite !app_nil_r. cbn.
    repeat split; try constructor; lia.
  - cbn [for_each]. unfold bind.
    destruct (backfill_indicator_tally indicator c s)
      as (c1 & d1 & l1 & s1 & -> & Hlog1 & Hcon1 & Hd1 & Hp1 & Hk1 & Ht1 & Hu1 & Hr1 & Hl1).
    destruct (IH c1 s1)
      as (c2 & d2 & l2 & s2 & -> & Hlog2 & Hcon2 & Hd2 & Hp2 & Hk2 & Ht2 & Hu2 & Hr2 & Hl2).
    exists c2, (d1 ++ d2), (l1 ++ l2), s2. split; [done|].
    rewrite Hlog2, Hlog1, Hcon2, Hcon1, !count_log_app.
    rewrite <- !(assoc_L (++)), !Forall_app. cbn [length].
    repeat split; try done; lia.
Qed.

(** The pass fetches the indicators, then only talks about resources. *)
Lemma add_resources_to_all_indicators_tally fuel s :
  ∃ o d2 d3 lines s',
    add_resources_to_all_indicators fuel s = (o, s')
    ∧ (∀ e, o ≠ Raise e)
    ∧ log s' = log s ++ d2 ++ d3
    ∧ console s' = console s ++ lines
    ∧ Forall (λ e, is_GET_indicators e = true) d2
    ∧ Forall (λ e, backfill_exchange e = true) d3
    ∧ (count_log is_POST_indicator_resources d3 ≤ count_log resource_created d3)%nat
    ∧ (∀ t u r, ResourceSummary t u r ∈ lines →
         (count_log is_POST_resources d3 ≤ t)%nat
         ∧ u = count_log linked d3 ∧ r = count_log linked d3)
    ∧ (o = Return false → d3 = [] ∨ count_log linked d3 = 0%nat).
Proof.
  unfold add_resources_to_all_indicators, bind at 1 2. cbn [print].
  fold (printed s AddingResources).
  unfold get_all_indicators_with_pagination.
  destruct (pagination_loop_effect fuel [] 0%nat (printed s AddingResources))
    as (o0 & d0 & s0 & -> & Ho0 & Hlog0 & Hcon0 & Hd0).
  cbn [log console printed] in Hlog0, Hcon0.
  destruct o0 as [indicators|e|].
  - destruct indicators as [|indicator indicators].
    + eexists _, d0, [], _, _. split; [done|]. split; [done|].
      rewrite app_nil_r.
      split; [by cbn|]. split; [cbn; by rewrite Hcon0, <- (assoc_L (++))|].
      split; [done|]. split; [done|]. split; [done|]. split; [|by left].
      intros t u r Hin. rewrite !elem_of_app, !list_elem_of_singleton in Hin.
      by destruct Hin.
    + unfold bind. cbn [print].
      match goal with
      | |- context [for_each ?l backfill_indicator ?c ?s1] =>
        destruct (backfill_loop_tally l c s1)
          as (c' & d & lines & s' & -> & Hlog & Hcon & Hd & Hp & Hk & Ht & Hu & Hr & Hlines)
      end.
      cbn [log console world updated_indicators total_resources total_indicators]
        in *.
      eexists _, d0, d, _, _. split; [done|]. split; [done|].
      split; [cbn; by rewrite Hlog, Hlog0, <- (assoc_L (++))|].
      split; [cbn; rewrite Hcon, Hcon0, <- !(assoc_L (++)); done|].
      split; [done|]. split; [done|]. split; [done|]. split.
      * intros t u' r Hin.
        rewrite !elem_of_app, !list_elem_of_singleton in Hin.
        destruct Hin as [Hin|[Hin|[Hin|Hin]]]; try done.
        -- rewrite Forall_forall in Hlines. by apply Hlines in Hin.
        -- injection Hin as -> -> ->. split; [lia|done].
      * intros [= Hfalse]. right. apply bool_decide_eq_false in Hfalse. lia.
  - by destruct (Ho0 e).
  - eexists _, d0, [], [AddingResources], _. split; [done|]. split; [done|].
    rewrite app_nil_r.
    split; [done|]. split; [done|]. split; [done|]. split; [done|].
    split; [done|]. split; [|done].
    intros t u r Hin. apply list_elem_of_singleton in Hin. done.
Qed.

End BackfillTally.

Section MainPhases.

Context {W : Type} `{!Services W}.
Implicit Types s : state W.

Lemma Forall_requests (P : request → Prop) (d : list exchange) :
  Forall P d.*1 → Forall (λ e, P e.1) d.
Proof. by rewrite Forall_fmap. Qed.

Lemma domain_targets_under_domain m domain_json :
  Forall (λ t, t.1.1 ≠ "") (domain_targets m domain_json).
Proof.
  unfold domain_targets.
  destruct (truthy _) as [domain_id|] eqn:Hid; [|constructor].
  apply truthy_Some in Hid as [_ Hid].
  apply Forall_bind, Forall_forall. intros sub _.
  apply Forall_fmap, Forall_forall. by intros i _.
Qed.

Lemma import_targets_under_domain m domains :
  Forall (λ t, t.1.1 ≠ "") (import_targets m domains).
Proof.
  apply Forall_bind, Forall_forall. intros d _. apply domain_targets_under_domain.
Qed.

(** When no creation is accepted the map of the ids stays as it is. *)
Lemma import_domains_unresolved (names : gset (option string)) domains m s :
  ∃ m' s' d,
    for_each domains (import_domain names) m s = (Return m', s')
    ∧ log s' = log s ++ d
    ∧ (count_log domain_created d = 0%nat → m' = m).
Proof.
  revert m s. induction domains as [|x domains IH]; intros m s.
  { exists m, s, []. by rewrite app_nil_r. }
  cbn [for_each]. unfold bind, import_domain at 1.
  case_bool_decide as Hin.
  - cbn [ret]. apply IH.
  - unfold bind. rewrite create_domain_eq.
    destruct (serve (POST_domains (make_domain_data x)) (world s)) as [o w].
    set (s1 := logged s _ _ w).
    set (id := match o with Some _ => _ | None => _ end).
    assert (domain_created (POST_domains (make_domain_data x), status_of o)
            = reply_accepted o) as Hcreated by (by destruct o).
    assert (∃ m1, (match truthy id with
                   | Some domain_id => ret (<[Some (d_name x) := Some domain_id]> m)
                   | None => ret m
                   end) s1 = (Return m1, s1)
                  ∧ (reply_accepted o = false → m1 = m)) as (m1 & -> & Hm1).
    { subst id. destruct o as [[st domain]|]; cbn [reply_accepted status_code json].
      - destruct (in_200_201 st); [|by exists m].
        destruct (truthy _); eexists; (split; [reflexivity|done]).
      - by exists m. }
    destruct (IH m1 s1) as (m' & s' & d & -> & Hlog & Hsame).
    exists m', s', ((POST_domains (make_domain_data x), status_of o) :: d).
    split; [done|].
    split; [rewrite Hlog; subst s1; cbn [log logged]; by rewrite <- (assoc_L (++))|].
    rewrite count_log_cons, Hcreated. intros Hnone.
    destruct (reply_accepted o); [lia|]. rewrite Hsame by lia. by apply Hm1.
Qed.

(** Listed domains without an id resolve to no id. *)
Lemma map_domain_ids_unresolved existing_domains name :
  Forall (λ domain, truthy (dom_id domain) = None) existing_domains →
  truthy (mjoin (map_domain_ids existing_domains !! name)) = None.
Proof.
  induction existing_domains as [|domain existing_domains IH] using rev_ind;
    intros Hall; [done|].
  apply Forall_app in Hall as [Hall [Hlast _]%Forall_cons].
  rewrite map_domain_ids_snoc.
  destruct (decide (dom_name domain = name)) as [<-|Hne].
  - by rewrite lookup_insert_eq.
  - rewrite lookup_insert_ne by done. by apply IH.
Qed.

Lemma import_targets_unresolved m domains :
  (∀ d, d ∈ domains → truthy (mjoin (m !! Some (d_name d))) = None) →
  import_targets m domains = [].
Proof.
  unfold import_targets. induction domains as [|d domains IH]; intros Hall; [done|].
  rewrite bind_cons, IH by (intros d' Hd'; apply Hall; by right).
  unfold domain_targets. rewrite Hall by left. done.
Qed.

(** What the import adds to the log, and what it returns. *)
Lemma import_complete_data_log fuel file s :
  ∃ o d s',
    import_complete_data fuel file s = (o, s')
    ∧ log s' = log s ++ d
    ∧ Forall (λ e, import_exchange e = true) d
    ∧ (o = Return (bool_decide (0 < count_log indicator_created d)%nat)
       ∨ o = OutOfFuel).
Proof.
  destruct file as [| |domains].
  1,2: exists (Return false), [], s; rewrite app_nil_r; by eauto.
  destruct (import_complete_data_phases fuel domains s)
    as (d1 & d2 & d3 & o & s' & -> & Hlog & Hd1 & Hd2 & Ho).
  assert (Forall (λ e, is_POST_domains e = true) d1) as Hp1.
  { apply (Forall_requests (λ r, is_POST_domains (r, None) = true)).
    rewrite Hd1. apply Forall_fmap, Forall_forall. intros dj _. reflexivity. }
  assert (Forall (λ e, import_exchange e = true) d1) as H1.
  { eapply Forall_impl; [done|]. by intros [[] ?]. }
  assert (Forall (λ e, import_exchange e = true) d2) as H2.
  { eapply Forall_impl; [done|]. by intros [[] ?]. }
  assert (count_log indicator_created d1 = 0%nat) as Hn1.
  { eapply count_log_other; [apply Hp1|]. by intros [[] ?]. }
  assert (count_log indicator_created d2 = 0%nat) as Hn2.
  { eapply count_log_other; [apply Hd2|]. by intros [[] ?]. }
  exists o, ((GET_domains, status_of (serve GET_domains (world s)).1)
             :: d1 ++ d2 ++ d3), s'.
  split; [done|]. split; [done|].
  destruct Ho as [(-> & -> & _)|(m & existing & Hd3 & -> & _)].
  - split; [|by right]. constructor; [done|]. rewrite app_nil_r.
    by apply Forall_app.
  - split.
    + constructor; [done|]. rewrite !Forall_app. split; [done|]. split; [done|].
      apply (Forall_requests (λ r, import_exchange (r, None) = true)).
      rewrite Hd3. apply Forall_fmap, Forall_forall. intros t Ht.
      apply list_elem_of_filter in Ht as [_ Ht].
      pose proof (import_targets_under_domain m domains) as Hall.
      rewrite Forall_forall in Hall. apply Hall in Ht.
      unfold import_exchange. cbn. by rewrite bool_decide_eq_false_2.
    + left. by rewrite count_log_cons, !count_log_app, Hn1, Hn2.
Qed.

(** The phases of [main]: the health check, the import, and after an
    import that returned true the backfill and the endpoint test. *)
Lemma main_phases fuel file w :
  let oh := (serve GET_health w).1 in
  let sh := logged (init w) GET_health (status_of oh) (serve GET_health w).2 in
  ∃ o s',
    main fuel file (init w) = (o, s')
    ∧ (¬ healthy w ∧ o = Raise (SystemExit 1) ∧ s' = sh
       ∨ healthy w ∧ ∃ oi si,
           import_complete_data fuel file sh = (oi, si)
           ∧ (oi = Return false ∧ o = Raise (SystemExit 1) ∧ s' = si
              ∨ oi = OutOfFuel ∧ o = OutOfFuel ∧ s' = si
              ∨ oi = Return true ∧ (o = Return tt ∨ o = OutOfFuel)
                ∧ ∃ d4, log s' = log si ++ d4
                        ∧ Forall (λ e, is_GET e || backfill_exchange e = true) d4)).
Proof.
  cbn zeta. unfold main, bind at 1. rewrite check_service_health_eq. unfold healthy.
  cbn [init world]. destruct (serve GET_health w) as [oh wh]. cbn [fst snd].
  set (sh := logged _ _ _ wh).
  destruct oh as [[st []]|]; cbn [status_code negb];
    [case_bool_decide as Hst|]; cbn [negb].
  2,3: eexists _, _; (split; [reflexivity|]); left; by eauto.
  destruct (import_complete_data_log fuel file sh) as (oi & di & si & Hi & Hli & _ & Hoi).
  unfold bind at 1. rewrite Hi.
  destruct Hoi as [-> | ->].
  2:{ eexists _, _. split; [reflexivity|]. right. split; [done|]. exists OutOfFuel, si.
      split; [done|]. right. left. done. }
  case_bool_decide as Hpos.
  2:{ eexists _, _. split; [reflexivity|]. right. split; [done|].
      exists (Return false), si. split; [done|]. left. done. }
  unfold bind.
  destruct (add_resources_to_all_indicators_tally fuel si)
    as (o2 & d2 & d3 & l2 & s2 & -> & Ho2 & Hl2 & _ & Hd2 & Hd3 & _).
  assert (Forall (λ e, is_GET e || backfill_exchange e = true) (d2 ++ d3)) as H23.
  { apply Forall_app. split; (eapply Forall_impl; [done|]); by intros [[] ?]. }
  destruct o2 as [b|e|]; [|by destruct (Ho2 e)|].
  2:{ eexists _, _. split; [reflexivity|]. right. split; [done|].
      exists (Return true), si. split; [done|]. right. right.
      split; [done|]. split; [by right|]. by exists (d2 ++ d3). }
  destruct (test_api_endpoints_effect fuel s2) as (o3 & s3 & -> & Ho3 & d5 & Hl5 & _ & Hd5).
  exists o3, s3. split; [done|]. right. split; [done|].
  exists (Return true), si. split; [done|]. right. right.
  split; [done|]. split; [done|]. exists ((d2 ++ d3) ++ d5). split.
  - by rewrite Hl5, Hl2, <- !(assoc_L (++)).
  - apply Forall_app. split; [done|].
    eapply Forall_impl; [done|]. intros e He. cbn beta in He. by rewrite He.
Qed.

Lemma filter_all (P : exchange → bool) l :
  Forall (λ e, P e = true) l → List.filter P l = l.
Proof. induction 1 as [|e l He _ IH]; cbn; [done|]. by rewrite He, IH. Qed.

Lemma filter_none (P : exchange → bool) l :
  Forall (λ e, P e = false) l → List.filter P l = [].
Proof. induction 1 as [|e l He _ IH]; cbn; [done|]. by rewrite He, IH. Qed.

Lemma count_log_all P l : Forall (λ e, P e = true) l → count_log P l = length l.
Proof. intros Hl. unfold count_log. by rewrite filter_all. Qed.

Lemma count_log_mono (P Q : exchange → bool) l :
  (∀ e, P e = true → Q e = true) → (count_log P l ≤ count_log Q l)%nat.
Proof.
  intros HPQ. induction l as [|e l IH]; [done|]. rewrite !count_log_cons.
  destruct (P e) eqn:He; [rewrite (HPQ e He); lia|]. destruct (Q e); lia.
Qed.

Lemma count_log_le P l : (count_log P l ≤ length l)%nat.
Proof. apply List.filter_length_le. Qed.

Lemma target_requests_post (d : list exchange) (T : list (string * string * indicator_spec)) :
  d.*1 = target_request <$> T → Forall (λ e, is_POST_indicators e = true) d.
Proof.
  intros Hd. apply (Forall_requests (λ r, is_POST_indicators (r, None) = true)).
  rewrite Hd. apply Forall_fmap, Forall_forall. by intros t _.
Qed.

Lemma length_filter_lookup (existing : gmap string indicator_record)
    (T : list (string * string * indicator_spec)) :
  (length (filter (λ t, existing !! i_name t.2 = None) T)
   + length (filter (λ t, is_Some (existing !! i_name t.2)) T))%nat
  = length T.
Proof.
  induction T as [|t T IH]; [done|].
  destruct (existing !! i_name t.2) as [i|] eqn:Hl.
  - rewrite filter_cons_False by (by rewrite Hl).
    rewrite (filter_cons_True (λ t, is_Some _)) by (by rewrite Hl). cbn. lia.
  - rewrite filter_cons_True by done.
    rewrite (filter_cons_False (λ t, is_Some _)) by (rewrite Hl; by intros [? ?]).
    cbn. lia.
Qed.

Lemma domain_targets_indicators m domain_json :
  (domain_targets m domain_json).*2
  `sublist_of` (d_subdomains domain_json ≫= s_indicators).
Proof.
  unfold domain_targets. destruct (truthy _) as [domain_id|]; [|apply sublist_nil_l].
  induction (d_subdomains domain_json) as [|sub subs IH]; [done|].
  rewrite !bind_cons, fmap_app. apply sublist_app; [|done].
  rewrite <- list_fmap_compose. by rewrite list_fmap_id.
Qed.

(** The indicators the loops visit are indicators of the document, in
    its order. *)
Lemma import_targets_indicators m domains :
  (import_targets m domains).*2 `sublist_of` desired_indicators domains.
Proof.
  unfold import_targets, desired_indicators.
  induction domains as [|d domains IH]; [done|].
  rewrite !bind_cons, fmap_app. apply sublist_app; [|done].
  apply domain_targets_indicators.
Qed.

End MainPhases.

Section ScriptProperties.

Context {W : Type} `{!Services W}.
Implicit Types s : state W.

(** X1. [main] lets no exception of a request escape and exits
    with no status other than 1: it returns, or it leaves by
    [sys.exit(1)], or the model ran out of fuel. *)
Theorem main_returns_or_exits_1 (fuel : nat) (file : domains_file) (w : W) :
  let o := (main fuel file (init w)).1 in
  o = Return tt ∨ o = Raise (SystemExit 1) ∨ o = OutOfFuel.
Proof.
  cbn zeta. destruct (main_phases fuel file w) as (o & s' & -> & H).
  cbn [fst].
  destruct H as [(_ & -> & _)|(_ & oi & si & _ & H)]; [by eauto|].
  destruct H as [(_ & -> & _)|[(_ & -> & _)|(_ & [-> | ->] & _)]]; by eauto.
Qed.

(** X2. When the health check fails, or opening and decoding the
    document raises one of the two errors line 265 catches
    (FileNotFoundError, JSONDecodeError), or the decoded object has no
    [domains] key, [main] leaves with status 1 after the health check:
    nothing else is requested, nothing is written. *)
Theorem main_stops_after_health_check (fuel : nat) (file : domains_file) (w : W) :
  ¬ healthy w ∨ file = Unreadable ∨ file = NoDomainsKey →
  main fuel file (init w)
  = (Raise (SystemExit 1),
     State (serve GET_health w).2
           [(GET_health, status_of (serve GET_health w).1)] []).
Proof.
  intros H. unfold main, bind at 1. rewrite check_service_health_eq.
  unfold healthy in H. cbn [init world].
  destruct (serve GET_health w) as [oh wh]. cbn [fst snd] in *.
  destruct oh as [[st []]|]; cbn [status_code negb];
    [case_bool_decide as Hst|]; cbn [negb]; try done.
  destruct H as [H|[-> | ->]]; done.
Qed.

(** X3. The requests of [main] come in the order of the
    dependencies: the health check; then the listing of the domains, the
    creations of domains, the pages of indicators, the creations of
    indicators; then requests that only read or concern resources. *)
Theorem main_log_in_phases (fuel : nat) (file : domains_file) (w : W) :
  ∃ st tail,
    log (main fuel file (init w)).2 = (GET_health, st) :: tail
    ∧ (tail = []
       ∨ ∃ st0 d1 d2 d3 d4,
           tail = (GET_domains, st0) :: d1 ++ d2 ++ d3 ++ d4
           ∧ Forall (λ e, is_POST_domains e = true) d1
           ∧ Forall (λ e, is_GET_indicators e = true) d2
           ∧ Forall (λ e, is_POST_indicators e = true) d3
           ∧ Forall (λ e, is_GET e || backfill_exchange e = true) d4).
Proof.
  destruct (main_phases fuel file w) as (o & s' & -> & H). cbn [snd].
  exists (status_of (serve GET_health w).1).
  destruct H as [(_ & _ & ->)|(_ & oi & si & Hi & H)].
  { exists []. split; [done|]. by left. }
  destruct file as [| |domains].
  1,2: exists []; injection Hi as <- <-;
       destruct H as [(_ & _ & ->)|[(? & _)|(? & _)]]; try done; split; [done|by left].
  destruct (import_complete_data_phases fuel domains
              (logged (init w) GET_health (status_of (serve GET_health w).1)
                      (serve GET_health w).2))
    as (d1 & d2 & d3 & oi' & si' & Hi' & Hlog & Hd1 & Hd2 & Ho).
  rewrite Hi in Hi'. injection Hi' as <- <-.
  cbn [log logged init app] in Hlog.
  assert (Forall (λ e, is_POST_domains e = true) d1) as Hp1.
  { apply (Forall_requests (λ r, is_POST_domains (r, None) = true)).
    rewrite Hd1. apply Forall_fmap, Forall_forall. by intros dj _. }
  assert (Forall (λ e, is_POST_indicators e = true) d3) as Hp3.
  { destruct Ho as [(_ & -> & _)|(m & existing & Hd3 & _)]; [constructor|].
    by eapply target_requests_post. }
  assert (∃ d4, log s' = log si ++ d4
                ∧ Forall (λ e, is_GET e || backfill_exchange e = true) d4)
    as (d4 & Hl4 & Hd4).
  { destruct H as [(_ & _ & ->)|[(_ & _ & ->)|(_ & _ & H)]]; [| |done].
    all: exists []; by rewrite app_nil_r. }
  eexists. split.
  - rewrite Hl4, Hlog. cbn [app]. rewrite <- !(assoc_L (++)). reflexivity.
  - right. by eexists _, d1, d2, d3, d4.
Qed.

(** X4. The import posts the desired domains whose name is not
    among the listed ones, each with the payload built from the
    document, in the order of the document, and no other domain; a
    listing that failed counts as empty, and a name that occurs twice
    in the document is posted twice. *)
Theorem unlisted_domains_posted_in_order (fuel : nat) (domains : list domain_spec)
    (w : W) :
  let listed := listed_domains (serve GET_domains w).1 in
  (List.filter is_POST_domains
     (log (import_complete_data fuel (Domains domains) (init w)).2)).*1
  = (λ domain_json, POST_domains (make_domain_data domain_json))
    <$> filter (λ domain_json, Some (d_name domain_json) ∉ dom_name <$> listed)
               domains.
Proof.
  cbn zeta.
  destruct (import_complete_data_phases fuel domains (init w))
    as (d1 & d2 & d3 & o & s' & -> & Hlog & Hd1 & Hd2 & Ho).
  cbn [snd]. cbn [log init world app] in Hlog, Hd1. rewrite Hlog.
  assert (Forall (λ e, is_POST_domains e = true) d1) as Hp1.
  { apply (Forall_requests (λ r, is_POST_domains (r, None) = true)).
    rewrite Hd1. apply Forall_fmap, Forall_forall. by intros dj _. }
  assert (Forall (λ e, is_POST_indicators e = true) d3) as Hp3.
  { destruct Ho as [(_ & -> & _)|(m & existing & Hd3 & _)]; [constructor|].
    by eapply target_requests_post. }
  cbn [List.filter is_POST_domains fst].
  rewrite !List.filter_app, (filter_all _ d1), (filter_none _ d2), (filter_none _ d3).
  - rewrite !app_nil_r, Hd1. f_equal. apply list_filter_iff. intros dj.
    by rewrite elem_of_list_to_set.
  - eapply Forall_impl; [done|]. by intros [[] ?].
  - eapply Forall_impl; [done|]. by intros [[] ?].
  - done.
Qed.

(** X5. The five numbers of the import summary: the domains of
    the document; the indicators visited, at most those of the document;
    the creations the service accepted; the indicators found in the
    lookup, which with the creations requested make up the indicators
    visited; and the failures, which are the creations requested and
    not accepted, so never negative. *)
Theorem import_summary_accounts (fuel : nat) (domains : list domain_spec) (w : W)
    (n t c sk : nat) (f : Z) :
  let s' := (import_complete_data fuel (Domains domains) (init w)).2 in
  let requested := count_log is_POST_indicators (log s') in
  ImportSummary n t c sk f ∈ console s' →
  n = length domains
  ∧ (t ≤ length (desired_indicators domains))%nat
  ∧ c = count_log indicator_created (log s')
  ∧ t = (sk + requested)%nat
  ∧ f = Z.of_nat requested - Z.of_nat c
  ∧ 0 ≤ f.
Proof.
  cbn zeta.
  destruct (import_complete_data_phases fuel domains (init w))
    as (d1 & d2 & d3 & o & s' & -> & Hlog & Hd1 & Hd2 & Ho).
  cbn [snd]. cbn [log console init world app] in Hlog, Ho. rewrite Hlog.
  destruct Ho as [(_ & _ & ->)|(m & existing & Hd3 & _ & -> & _)].
  { intros Hin. by apply elem_of_nil in Hin. }
  intros Hin. apply list_elem_of_singleton in Hin.
  injection Hin as -> -> -> -> ->.
  assert (Forall (λ e, is_POST_domains e = true) d1) as Hp1.
  { apply (Forall_requests (λ r, is_POST_domains (r, None) = true)).
    rewrite Hd1. apply Forall_fmap, Forall_forall. by intros dj _. }
  pose proof (target_requests_post _ _ Hd3) as Hp3.
  assert (length d3
          = length (filter (λ t, existing !! i_name t.2 = None)
                           (import_targets m domains))) as Hlen.
  { by rewrite <- (length_fmap fst d3), Hd3, length_fmap. }
  pose proof (length_filter_lookup existing (import_targets m domains)) as Hsplit.
  pose proof (sublist_length _ _ (import_targets_indicators m domains)) as Hsub.
  rewrite length_fmap in Hsub.
  pose proof (count_log_le indicator_created d3) as Hle.
  rewrite !count_log_cons, !count_log_app.
  rewrite (count_log_other is_POST_domains is_POST_indicators d1),
          (count_log_other is_POST_domains indicator_created d1),
          (count_log_other is_GET_indicators is_POST_indicators d2),
          (count_log_other is_GET_indicators indicator_created d2),
          (count_log_all is_POST_indicators d3);
    try done; try (by intros [[] ?]).
  cbn [is_POST_indicators indicator_created fst andb Nat.add].
  unfold exchange in *. repeat split; try done; lia.
Qed.

(** X6. No request of a whole run creates an indicator under
    an empty domain id. *)
Theorem indicators_posted_under_domain_id (fuel : nat) (file : domains_file) (w : W) :
  Forall (λ e, under_domain e = true) (log (main fuel file (init w)).2).
Proof.
  destruct (main_phases fuel file w) as (o & s' & -> & H). cbn [snd].
  destruct H as [(_ & _ & ->)|(_ & oi & si & Hi & H)].
  { by repeat constructor. }
  destruct (import_complete_data_log fuel file
              (logged (init w) GET_health (status_of (serve GET_health w).1)
                      (serve GET_health w).2))
    as (oi' & di & si' & Hi' & Hli & Hdi & _).
  rewrite Hi in Hi'. injection Hi' as <- <-.
  assert (Forall (λ e, under_domain e = true) (log si)) as Hsi.
  { rewrite Hli. cbn [log logged init app]. constructor; [done|].
    eapply Forall_impl; [done|]. by intros [[] ?]. }
  destruct H as [(_ & _ & ->)|[(_ & _ & ->)|(_ & _ & d4 & -> & Hd4)]]; try done.
  apply Forall_app. split; [done|].
  eapply Forall_impl; [done|]. by intros [[] ?].
Qed.

(** X7. A run in which the catalog service accepts no
    indicator creation never reaches the backfill: it requests no
    listing of resources, creates no resource and links none, whatever
    the links of the live indicators are. *)
Theorem no_creation_no_backfill (fuel : nat) (file : domains_file) (w : W) :
  let s' := (main fuel file (init w)).2 in
  count_log indicator_created (log s') = 0%nat →
  Forall (λ e, backfill_exchange e = false) (log s').
Proof.
  cbn zeta.
  destruct (main_phases fuel file w) as (o & s' & -> & H). cbn [snd].
  destruct H as [(_ & _ & ->)|(_ & oi & si & Hi & H)].
  { intros _. by repeat constructor. }
  destruct (import_complete_data_log fuel file
              (logged (init w) GET_health (status_of (serve GET_health w).1)
                      (serve GET_health w).2))
    as (oi' & di & si' & Hi' & Hli & Hdi & Hoi).
  rewrite Hi in Hi'. injection Hi' as <- <-.
  assert (Forall (λ e, backfill_exchange e = false) (log si)) as Hsi.
  { rewrite Hli. cbn [log logged init app]. constructor; [done|].
    eapply Forall_impl; [done|]. by intros [[] ?]. }
  destruct H as [(_ & _ & ->)|[(_ & _ & ->)|(-> & _ & d4 & -> & Hd4)]]; try done.
  intros Hnone. exfalso.
  destruct Hoi as [Hoi|Hoi]; [|done]. injection Hoi as Hoi.
  symmetry in Hoi. apply bool_decide_eq_true in Hoi.
  rewrite Hli, !count_log_app in Hnone. lia.
Qed.

(** X8. In a backfill pass no resource is linked that the
    resource service did not accept, and at most one resource is
    created for each indicator processed; the updates the summary
    reports are the accepted links, so it may report fewer resources
    than were created. *)
Theorem resources_created_within_bounds (fuel : nat) (w : W) (t u r : nat) :
  let s' := (add_resources_to_all_indicators fuel (init w)).2 in
  ResourceSummary t u r ∈ console s' →
  (r ≤ count_log is_POST_indicator_resources (log s'))%nat
  ∧ (count_log is_POST_indicator_resources (log s')
     ≤ count_log resource_created (log s'))%nat
  ∧ (count_log resource_created (log s') ≤ count_log is_POST_resources (log s'))%nat
  ∧ (count_log is_POST_resources (log s') ≤ t)%nat.
Proof.
  cbn zeta.
  destruct (add_resources_to_all_indicators_tally fuel (init w))
    as (o & d2 & d3 & lines & s' & -> & _ & Hlog & Hcon & Hd2 & Hd3 & Hk & Hsum & _).
  cbn [snd]. cbn [log console init app] in Hlog, Hcon. rewrite Hlog, Hcon.
  intros Hin. apply Hsum in Hin as (Ht & Hu & Hr).
  rewrite !count_log_app.
  rewrite (count_log_other is_GET_indicators is_POST_indicator_resources d2),
          (count_log_other is_GET_indicators resource_created d2),
          (count_log_other is_GET_indicators is_POST_resources d2);
    try done; try (by intros [[] ?]).
  cbn [Nat.add].
  pose proof (count_log_mono linked is_POST_indicator_resources d3) as H1.
  pose proof (count_log_mono resource_created is_POST_resources d3) as H2.
  repeat split; try done.
  - rewrite Hr. apply H1. intros e. unfold linked. by intros [? _]%andb_true_iff.
  - apply H2. intros e. unfold resource_created. by intros [? _]%andb_true_iff.
Qed.

(** X9. An import that finds no listed domain with an id and
    gets no domain creation accepted requests no indicator creation:
    an indicator is posted only under a domain that resolved to an
    id. *)
Theorem no_domain_no_indicator (fuel : nat) (domains : list domain_spec) (w : W) :
  let run := import_complete_data fuel (Domains domains) (init w) in
  Forall (λ domain, truthy (dom_id domain) = None)
         (listed_domains (serve GET_domains w).1) →
  count_log domain_created (log run.2) = 0%nat →
  count_log is_POST_indicators (log run.2) = 0%nat.
Proof.
  cbn zeta. intros Hlisted.
  destruct (import_complete_data_phases fuel domains (init w))
    as (d1 & d2 & d3 & o & s' & -> & Hlog & Hd1 & Hd2 & Ho).
  cbn [snd]. cbn [log init world app] in Hlog, Ho. rewrite Hlog.
  rewrite !count_log_cons, !count_log_app.
  assert (Forall (λ e, is_POST_domains e = true) d1) as Hp1.
  { apply (Forall_requests (λ r, is_POST_domains (r, None) = true)).
    rewrite Hd1. apply Forall_fmap, Forall_forall. by intros dj _. }
  rewrite (count_log_other is_POST_domains is_POST_indicators d1),
          (count_log_other is_GET_indicators is_POST_indicators d2);
    try done; try (by intros [[] ?]).
  rewrite (count_log_other is_GET_indicators domain_created d2);
    try done; try (by intros [[] ?]).
  cbn [is_POST_indicators domain_created is_POST_domains fst andb Nat.add].
  intros Hnone.
  destruct Ho as [(_ & -> & _)|(m & existing & Hd3 & _ & _ & s1 & Hloop & Hlog1)];
    [done|].
  destruct (import_domains_unresolved
              (list_to_set (dom_name <$> listed_domains (serve GET_domains w).1))
              domains (map_domain_ids (listed_domains (serve GET_domains w).1))
              (logged (init w) GET_domains (status_of (serve GET_domains w).1)
                      (serve GET_domains w).2))
    as (m' & s1' & d & Hloop' & Hlog' & Hsame).
  rewrite Hloop in Hloop'. injection Hloop' as <- <-.
  cbn [log logged init app] in Hlog', Hlog1.
  assert (d = d1) as -> by congruence.
  rewrite Hsame in Hd3 by lia.
  rewrite import_targets_unresolved in Hd3.
  - destruct d3; [done|discriminate Hd3].
  - intros d _. by apply map_domain_ids_unresolved.
Qed.

(** X10. A backfill pass whose first page of indicators fails, or
    comes empty, reports that no indicator was found and returns false
    after that one request. *)
Theorem backfill_without_indicators (fuel : nat) (w : W) :
  let page := serve (GET_indicators (Some 0%nat) 50) w in
  no_success page.1 ∨ (∃ resp, page.1 = Some resp ∧ json resp = []) →
  add_resources_to_all_indicators (S fuel) (init w)
  = (Return false,
     State page.2 [(GET_indicators (Some 0%nat) 50, status_of page.1)]
           [AddingResources; NoIndicatorsFound]).
Proof.
  cbn zeta. intros H.
  unfold add_resources_to_all_indicators, bind at 1 2. cbn [print].
  unfold get_all_indicators_with_pagination. cbn [pagination_loop].
  unfold bind at 1, try_except, bind at 1. rewrite requests_eq.
  cbn [world init]. change limit with 50%nat.
  destruct (serve (GET_indicators (Some 0%nat) 50) w) as [o w']. cbn [fst snd] in *.
  destruct o as [[st l]|]; cbn [status_code json ret]; [|done].
  case_bool_decide as Hst.
  - destruct H as [H|(resp & [= <-] & Hresp)]; [done|]. cbn in Hresp. by subst l.
  - done.
Qed.

(** X11. The endpoint test only reads, prints nothing that
    is modelled and never raises, so it cannot change what the run
    wrote nor its exit status; a transport error ends it at once. *)
Theorem endpoint_test_only_reads (fuel : nat) (s : state W) :
  let run := test_api_endpoints fuel s in
  let first := serve (GET_indicators None 5) (world s) in
  (run.1 = Return tt ∨ run.1 = OutOfFuel)
  ∧ console run.2 = console s
  ∧ (∃ d, log run.2 = log s ++ d ∧ Forall (λ e, is_GET e = true) d)
  ∧ (first.1 = None →
     run = (Return tt, logged s (GET_indicators None 5) None first.2)).
Proof.
  cbn zeta.
  destruct (test_api_endpoints_effect fuel s) as (o & s' & Heq & Ho & d & Hl & Hc & Hd).
  rewrite Heq. cbn [fst snd]. split; [done|]. split; [done|]. split; [by exists d|].
  intros Hfirst. rewrite <- Heq.
  unfold test_api_endpoints, try_except, bind at 1. rewrite requests_eq.
  destruct (serve (GET_indicators None 5) (world s)) as [o1 w1].
  cbn [fst snd] in *. by subst o1.
Qed.

Lemma accepted_reply_spec {A} (o : option (response A)) :
  reply_accepted o = true ↔ ∃ resp, accepted_reply o resp.
Proof.
  unfold reply_accepted, accepted_reply, in_200_201. destruct o as [resp|].
  - rewrite orb_true_iff, !bool_decide_eq_true. split; [by eauto|].
    by intros (? & [= <-] & ?).
  - split; [done|]. by intros (? & ? & _).
Qed.

(** X12. The five helpers that talk to the services never raise,
    and each makes one request.  [check_service_health] returns True
    exactly when the reply has status 200.  [create_domain] and
    [create_resource_in_service] return the id of the reply when it came
    with status 200 or 201, and None on a transport error or another
    status.  [create_indicator] and [add_resource_to_indicator] return
    True exactly when the reply came with status 200 or 201. *)
Theorem write_helpers_never_raise (domain_data : domain_data)
    (indicator_data : indicator_data) (domain_id subdomain_name : string)
    (indicator_name indicator_id : option string) (resource_id : string)
    (s : state W) :
  let r1 := POST_domains domain_data in
  let r2 := POST_indicators domain_id subdomain_name indicator_data in
  let r3 := POST_resources (make_resource_data indicator_name indicator_id) in
  let r4 := POST_indicator_resources (fmt indicator_id) resource_id in
  let reply r := (serve r (world s)).1 in
  (∃ b, (check_service_health s).1 = Return b
        ∧ (b = true ↔ healthy (world s))
        ∧ log (check_service_health s).2
          = log s ++ [(GET_health, status_of (reply GET_health))])
  ∧ (∃ id, (create_domain domain_data s).1 = Return id
           ∧ (∀ resp, accepted_reply (reply r1) resp → id = dom_id (json resp))
           ∧ (¬ (∃ resp, accepted_reply (reply r1) resp) → id = None)
           ∧ log (create_domain domain_data s).2 = log s ++ [(r1, status_of (reply r1))])
  ∧ (∃ b, (create_indicator indicator_data domain_id subdomain_name s).1 = Return b
          ∧ (b = true ↔ ∃ resp, accepted_reply (reply r2) resp)
          ∧ log (create_indicator indicator_data domain_id subdomain_name s).2
            = log s ++ [(r2, status_of (reply r2))])
  ∧ (∃ id, (create_resource_in_service indicator_name indicator_id s).1 = Return id
           ∧ (∀ resp, accepted_reply (reply r3) resp → id = res_id (json resp))
           ∧ (¬ (∃ resp, accepted_reply (reply r3) resp) → id = None)
           ∧ log (create_resource_in_service indicator_name indicator_id s).2
             = log s ++ [(r3, status_of (reply r3))])
  ∧ (∃ b, (add_resource_to_indicator indicator_id resource_id s).1 = Return b
          ∧ (b = true ↔ ∃ resp, accepted_reply (reply r4) resp)
          ∧ log (add_resource_to_indicator indicator_id resource_id s).2
            = log s ++ [(r4, status_of (reply r4))]).
Proof.
  cbn zeta.
  rewrite check_service_health_eq, create_domain_eq, create_indicator_eq,
    create_resource_in_service_eq, add_resource_to_indicator_eq.
  cbn zeta. unfold healthy.
  destruct (serve GET_health (world s)) as [o0 w0].
  destruct (serve (POST_domains domain_data) (world s)) as [o1 w1].
  destruct (serve (POST_indicators _ _ _) (world s)) as [o2 w2].
  destruct (serve (POST_resources _) (world s)) as [o3 w3].
  destruct (serve (POST_indicator_resources _ _) (world s)) as [o4 w4].
  cbn [fst snd log logged].
  pose proof (accepted_reply_spec o1) as H1.
  pose proof (accepted_reply_spec o2) as H2.
  pose proof (accepted_reply_spec o3) as H3.
  pose proof (accepted_reply_spec o4) as H4.
  split; [|split; [|split; [|split]]].
  - eexists. split; [done|]. split; [|done].
    destruct o0 as [[st []]|]; cbn; [|done].
    by rewrite bool_decide_eq_true.
  - eexists. split; [done|]. split; [|split; [|done]].
    + intros resp [-> Hst]. cbn [reply_accepted] in H1.
      rewrite (proj2 H1); [done|]. by exists resp.
    + intros Hno. destruct o1 as [resp|]; [|done]. cbn [reply_accepted] in H1.
      destruct (in_200_201 (status_code resp)); [|done].
      destruct Hno. by apply H1.
  - eexists. split; [done|]. split; [|done].
    by rewrite <- H2.
  - eexists. split; [done|]. split; [|split; [|done]].
    + intros resp [-> Hst]. cbn [reply_accepted] in H3.
      rewrite (proj2 H3); [done|]. by exists resp.
    + intros Hno. destruct o3 as [resp|]; [|done]. cbn [reply_accepted] in H3.
      destruct (in_200_201 (status_code resp)); [|done].
      destruct Hno. by apply H3.
  - eexists. split; [done|]. split; [|done].
    by rewrite <- H4.
Qed.

End ScriptProperties.

(** ** Lookups and payloads *)

Lemma index_by_name_snoc indicators indicator :
  index_by_name (indicators ++ [indicator])
  = match truthy (ind_name indicator) with
    | Some indicator_name => <[indicator_name := indicator]> (index_by_name indicators)
    | None => index_by_name indicators
    end.
Proof. unfold index_by_name. by rewrite foldl_snoc. Qed.

(** X13. When several live records have the same name, both lookups
    keep the last one: the lookup of the indicators by name, which
    leaves out the records without a name or with the empty name, and
    the map from the names of the domains to their ids. *)
Theorem lookups_keep_the_last_record :
  (∀ indicators name,
     index_by_name indicators !! name
     = if bool_decide (name = "") then None
       else last (filter (λ indicator, ind_name indicator = Some name) indicators))
  ∧ (∀ existing_domains name,
       map_domain_ids existing_domains !! name
       = dom_id <$> last (filter (λ domain, dom_name domain = name) existing_domains)).
Proof.
  split.
  - intros indicators name.
    induction indicators as [|indicator indicators IH] using rev_ind.
    { by case_bool_decide. }
    rewrite index_by_name_snoc, filter_app.
    destruct (truthy (ind_name indicator)) as [n|] eqn:Hn.
    + apply truthy_Some in Hn as [Hn Hne].
      destruct (decide (n = name)) as [->|Hneq].
      * rewrite lookup_insert_eq, bool_decide_eq_false_2 by done.
        rewrite filter_cons_True, filter_nil by done. by rewrite last_snoc.
      * rewrite lookup_insert_ne, IH by done.
        rewrite filter_cons_False, filter_nil by congruence.
        by rewrite app_nil_r.
    + rewrite IH. case_bool_decide as Hname; [done|].
      rewrite filter_cons_False, filter_nil; [by rewrite app_nil_r|].
      intros Heq. rewrite Heq in Hn. cbn in Hn.
      by rewrite bool_decide_eq_false_2 in Hn.
  - intros existing_domains name.
    induction existing_domains as [|domain existing_domains IH] using rev_ind; [done|].
    rewrite map_domain_ids_snoc, filter_app.
    destruct (decide (dom_name domain = name)) as [<-|Hneq].
    + rewrite lookup_insert_eq, filter_cons_True, filter_nil by done.
      by rewrite last_snoc.
    + rewrite lookup_insert_ne, IH by done.
      rewrite filter_cons_False, filter_nil by done. by rewrite app_nil_r.
Qed.

(** X14. The favourites of an indicator payload are a number
    from 0 to 4 whatever the id of the document is, negative ones
    included, and 0 when the document gives no id; without a
    categorization the governance flag is false. *)
Theorem indicator_payload_bounds (indicator_json : indicator_spec)
    (subdomain_name : string) :
  let data := make_indicator_data indicator_json subdomain_name in
  0 ≤ id_favourites data < 5
  ∧ (i_id indicator_json = None → id_favourites data = 0)
  ∧ (i_categorization indicator_json = None → id_governance data = false).
Proof.
  cbn zeta. unfold make_indicator_data. cbn [id_favourites id_governance].
  split; [|split].
  - apply Z.mod_pos_bound. lia.
  - by intros ->.
  - by intros ->.
Qed.

(** X15. The wrapper id of a resource determines the id of its
    indicator when the indicator has one; an indicator without an id
    gets the wrapper id of the indicator whose id is the text None. *)
Theorem wrapper_id_determines_indicator (name1 name2 : option string) :
  (∀ id1 id2,
     rd_wrapper_id (make_resource_data name1 (Some id1))
     = rd_wrapper_id (make_resource_data name2 (Some id2)) ↔ id1 = id2)
  ∧ rd_wrapper_id (make_resource_data name1 None)
    = rd_wrapper_id (make_resource_data name2 (Some "None")).
Proof.
  split; [|reflexivity]. intros id1 id2. cbn. split; [|by intros ->].
  intros Heq. by simplify_eq.
Qed.

(** ** The paginated fetch *)

Lemma fmap_seq_S {A} (f : nat → A) n :
  f <$> seq 0 (S n) = f 0%nat :: ((λ k, f (S k)) <$> seq 0 n).
Proof.
  cbn [seq fmap list_fmap]. f_equal.
  by rewrite <- fmap_S_seq, <- list_fmap_compose.
Qed.

Section Pages.

Context {W : Type} `{!Services W}.

(** The loop asks for one page after the other and stops at the first
    reply that does not bring a page. *)
Lemma pagination_loop_trace fuel all_indicators skip (s : state W) :
  ∃ n,
    (∀ k, (k < n)%nat →
       ∃ resp, (page_reply k skip (world s)).1 = Some resp
               ∧ status_code resp = 200 ∧ json resp ≠ [])
    ∧ ((n < fuel)%nat
       ∧ ((page_reply n skip (world s)).1 = None
          ∨ ∃ resp, (page_reply n skip (world s)).1 = Some resp
                    ∧ (status_code resp ≠ 200 ∨ json resp = []))
       ∧ pagination_loop fuel all_indicators skip s
         = (Return (all_indicators
                    ++ concat ((λ k, default [] (json <$> (page_reply k skip (world s)).1))
                               <$> seq 0 n)),
            State (page_reply n skip (world s)).2
                  (log s ++ ((λ k, (GET_indicators (Some (skip + k * limit)%nat) limit,
                                    status_of (page_reply k skip (world s)).1))
                             <$> seq 0 (S n)))
                  (console s))
       ∨ n = fuel
         ∧ pagination_loop fuel all_indicators skip s
           = (OutOfFuel,
              State (match fuel with
                     | O => world s
                     | S m => (page_reply m skip (world s)).2
                     end)
                    (log s ++ ((λ k, (GET_indicators (Some (skip + k * limit)%nat) limit,
                                      status_of (page_reply k skip (world s)).1))
                               <$> seq 0 fuel))
                    (console s))).
Proof.
  revert all_indicators skip s.
  induction fuel as [|fuel IH]; intros all_indicators skip s.
  { exists 0%nat. split; [intros k Hk; lia|]. right. split; [done|].
    cbn. rewrite app_nil_r. by destruct s. }
  cbn [pagination_loop]. unfold bind, try_except. rewrite requests_eq.
  destruct (serve (GET_indicators (Some skip) limit) (world s)) as [o w] eqn:Hserve.
  assert (∀ k, page_reply (S k) skip (world s) = page_reply k (skip + limit) w)
    as Hshift.
  { intros k. cbn [page_reply]. by rewrite Hserve. }
  assert (page_reply 0 skip (world s) = (o, w)) as Hfirst by done.
  assert (skip + 0 * limit = skip)%nat as Hzero by lia.
  assert (∀ (acc : list indicator_record),
    (o = None ∨ ∃ resp, o = Some resp ∧ (status_code resp ≠ 200 ∨ json resp = [])) →
    ∃ n,
      (∀ k, (k < n)%nat →
         ∃ resp, (page_reply k skip (world s)).1 = Some resp
                 ∧ status_code resp = 200 ∧ json resp ≠ [])
      ∧ ((n < S fuel)%nat
         ∧ ((page_reply n skip (world s)).1 = None
            ∨ ∃ resp, (page_reply n skip (world s)).1 = Some resp
                      ∧ (status_code resp ≠ 200 ∨ json resp = []))
         ∧ (Return acc, logged s (GET_indicators (Some skip) limit) (status_of o) w)
           = (Return (acc
                      ++ concat ((λ k, default [] (json <$> (page_reply k skip (world s)).1))
                                 <$> seq 0 n)),
              State (page_reply n skip (world s)).2
                    (log s ++ ((λ k, (GET_indicators (Some (skip + k * limit)%nat) limit,
                                      status_of (page_reply k skip (world s)).1))
                               <$> seq 0 (S n)))
                    (console s))
         ∨ n = S fuel ∧ False)) as Hstop.
  { intros acc Ho. exists 0%nat. split; [intros k Hk; lia|]. left.
    split; [lia|]. rewrite Hfirst. cbn [fst snd]. split; [done|].
    cbn [seq fmap list_fmap concat]. rewrite Hfirst. cbn [fst].
    by rewrite app_nil_r, Hzero. }
  destruct o as [[c l]|]; cbn [status_code json ret].
  2:{ destruct (Hstop all_indicators) as (n & Hn & [H1|[_ []]]); [by left|].
      exists n. split; [done|]. left. done. }
  case_bool_decide as Hc.
  2:{ destruct (Hstop all_indicators) as (n & Hn & [H1|[_ []]]).
      { right. eexists. split; [done|]. by left. }
      exists n. split; [done|]. left. done. }
  destruct l as [|i l].
  { destruct (Hstop all_indicators) as (n & Hn & [H1|[_ []]]).
    { right. eexists. split; [done|]. by right. }
    exists n. split; [done|]. left. done. }
  cbn [ret].
  match goal with
  | |- context [pagination_loop fuel ?a ?k ?s1] =>
    destruct (IH a k s1) as (n & Hpages & Hend)
  end.
  cbn [world logged log console] in Hpages, Hend.
  exists (S n). split.
  { intros [|k] Hk.
    - rewrite Hfirst. eexists. split; [done|]. by split.
    - rewrite Hshift. apply Hpages. lia. }
  rewrite !Hshift.
  assert ((λ k, default [] (json <$> (page_reply k skip (world s)).1)) <$> seq 0 (S n)
          = (i :: l)
            :: ((λ k, default [] (json <$> (page_reply k (skip + limit) w).1))
                <$> seq 0 n)) as Hbrought.
  { rewrite fmap_seq_S, Hfirst. cbn [fst]. f_equal.
    apply list_fmap_ext. intros _ k _. by rewrite Hshift. }
  assert (∀ m,
    (λ k, (GET_indicators (Some (skip + k * limit)%nat) limit,
           status_of (page_reply k skip (world s)).1)) <$> seq 0 (S m)
    = (GET_indicators (Some skip) limit, Some c)
      :: ((λ k, (GET_indicators (Some (skip + limit + k * limit)%nat) limit,
                 status_of (page_reply k (skip + limit) w).1)) <$> seq 0 m))
    as Hasked.
  { intros m. rewrite fmap_seq_S, Hfirst, Hzero. cbn [fst]. f_equal.
    apply list_fmap_ext. intros _ k _. rewrite Hshift.
    replace (skip + S k * limit)%nat with (skip + limit + k * limit)%nat by lia.
    done. }
  destruct Hend as [(Hlt & Hlast & ->)|(-> & ->)]; [left|right].
  - split; [lia|]. split; [done|].
    rewrite Hbrought, Hasked. cbn [concat].
    by rewrite <- !(assoc_L (++)).
  - split; [done|].
    assert (match fuel with
            | O => w
            | S m => (page_reply m (skip + limit) w).2
            end = (page_reply fuel skip (world s)).2) as ->.
    { destruct fuel as [|m]; [by rewrite Hfirst|]. by rewrite Hshift. }
    rewrite Hasked. by rewrite <- !(assoc_L (++)).
Qed.

(** X16. Whatever the catalog service answers, the fetch asks for
    the pages at the offsets 0, 50, 100, ... with limit 50, one request
    each and in this order; [page_reply k] is the reply to the request
    number [k].  It stops at the first request whose reply fails, is
    not a 200 or brings an empty page: every request before it was
    answered 200 with a page that is not empty, the result is these
    pages in their order, and the log has the requests up to that one
    and no other.  When the model runs out of fuel, every request made
    was answered 200 with a page that is not empty. *)
Theorem fetch_requests_consecutive_pages (fuel : nat) (w : W) :
  let run := get_all_indicators_with_pagination fuel (init w) in
  let reply k := (page_reply k 0 w).1 in
  let request k := (GET_indicators (Some (k * 50)%nat) 50, status_of (reply k)) in
  ∃ n,
    (∀ k, (k < n)%nat →
       ∃ resp, reply k = Some resp ∧ status_code resp = 200 ∧ json resp ≠ [])
    ∧ ((n < fuel)%nat
       ∧ (reply n = None
          ∨ ∃ resp, reply n = Some resp ∧ (status_code resp ≠ 200 ∨ json resp = []))
       ∧ run.1 = Return (concat ((λ k, default [] (json <$> reply k)) <$> seq 0 n))
       ∧ log run.2 = request <$> seq 0 (S n)
       ∨ n = fuel
         ∧ run.1 = OutOfFuel
         ∧ log run.2 = request <$> seq 0 fuel).
Proof.
  cbn zeta. unfold get_all_indicators_with_pagination.
  destruct (pagination_loop_trace fuel [] 0%nat (init w)) as (n & Hpages & Hend).
  cbn [init world log app] in Hpages, Hend.
  exists n. split; [done|].
  destruct Hend as [(Hlt & Hlast & ->)|(-> & ->)]; [left|right].
  - by repeat split.
  - by repeat split.
Qed.

End Pages.

Section Endless.

Context {W : Type} `{!Services W}.
Variable I : W → Prop.
Hypothesis I_serve : ∀ r w, I w → I (serve r w).2.
Hypothesis I_page :
  ∀ w skip, I w →
    ∃ resp, (serve (GET_indicators (Some skip) limit) w).1 = Some resp
            ∧ status_code resp = 200
            ∧ (json resp : list indicator_record) ≠ [].

Lemma endless_pagination_loop fuel all_indicators skip (s : state W) :
  I (world s) →
  (pagination_loop fuel all_indicators skip s).1 = OutOfFuel
  ∧ length (log (pagination_loop fuel all_indicators skip s).2)
    = (length (log s) + fuel)%nat.
Proof.
  revert all_indicators skip s.
  induction fuel as [|fuel IH]; intros all_indicators skip s Hs.
  { cbn. split; [done|lia]. }
  cbn [pagination_loop]. unfold bind, try_except. rewrite requests_eq.
  destruct (I_page (world s) skip Hs) as (resp & Hresp & Hst & Hpage).
  pose proof (I_serve (GET_indicators (Some skip) limit) (world s) Hs) as Hnext.
  destruct (serve (GET_indicators (Some skip) limit) (world s)) as [o w].
  cbn [fst snd] in Hresp, Hnext. subst o. cbn [ret].
  rewrite bool_decide_eq_true_2 by done.
  destruct (json resp) as [|i l]; [done|]. cbn [ret].
  match goal with
  | |- context [pagination_loop fuel ?a ?k ?s1] =>
    destruct (IH a k s1) as [Hout Hlen]; [done|]
  end.
  split; [exact Hout|]. rewrite Hlen.
  cbn [log logged]. rewrite length_app. cbn [length]. lia.
Qed.

Lemma endless_import_domains (names : gset (option string)) domains m (s : state W) :
  I (world s) →
  ∃ m' s', for_each domains (import_domain names) m s = (Return m', s')
           ∧ I (world s').
Proof.
  revert m s. induction domains as [|x domains IH]; intros m s Hs.
  { by exists m, s. }
  cbn [for_each]. unfold bind, import_domain at 1.
  case_bool_decide; [by apply IH|].
  unfold bind. rewrite create_domain_eq.
  pose proof (I_serve (POST_domains (make_domain_data x)) (world s) Hs) as Hnext.
  destruct (serve (POST_domains (make_domain_data x)) (world s)) as [o w].
  cbn [snd] in Hnext.
  destruct (truthy _); cbn [ret]; by apply IH.
Qed.

End Endless.

(** X17. The fetch has no bound of its own: it stops only at a
    request that fails or brings an empty page.  Against services that
    answer every page request with a non-empty page, as a catalog that
    ignores [skip] does, the fetch never returns, whatever the fuel,
    and neither does the import. *)
Theorem fetch_needs_an_empty_page {W : Type} `{!Services W} (I : W → Prop)
    (fuel : nat) (domains : list domain_spec) (w : W) :
  (∀ r w, I w → I (serve r w).2) →
  (∀ w skip, I w →
     ∃ resp, (serve (GET_indicators (Some skip) 50) w).1 = Some resp
             ∧ status_code resp = 200
             ∧ (json resp : list indicator_record) ≠ []) →
  I w →
  (get_all_indicators_with_pagination fuel (init w)).1 = OutOfFuel
  ∧ length (log (get_all_indicators_with_pagination fuel (init w)).2) = fuel
  ∧ (import_complete_data fuel (Domains domains) (init w)).1 = OutOfFuel.
Proof.
  intros Hserve Hpage Hw.
  destruct (endless_pagination_loop I Hserve Hpage fuel [] 0%nat (init w) Hw)
    as [Hout Hlen].
  split; [exact Hout|]. split; [exact Hlen|].
  cbn [import_complete_data]. unfold bind at 1. rewrite get_existing_domains_eq.
  pose proof (Hserve GET_domains w Hw) as H0. cbn [init world].
  destruct (serve GET_domains w) as [o0 w0]. cbn [snd] in H0.
  unfold bind at 1.
  match goal with
  | |- context [for_each domains (import_domain ?names) ?m ?s0] =>
    destruct (endless_import_domains I Hserve names domains m s0)
      as (m' & s1 & -> & H1); [done|]
  end.
  unfold bind at 1, get_existing_indicators, bind at 1.
  unfold get_all_indicators_with_pagination.
  destruct (endless_pagination_loop I Hserve Hpage fuel [] 0%nat s1 H1) as [Hout1 _].
  destruct (pagination_loop fuel [] 0 s1) as [o s2]. cbn [fst] in Hout1.
  by subst o.
Qed.


Lemma unreliable_pagination_loop fuel all_indicators skip (s : state unreliable) :
  ∃ k o s',
    pagination_loop fuel all_indicators skip s = (o, s')
    ∧ (o = Return (all_indicators
                   ++ take k (drop skip (live_indicators (behind (world s)))))
       ∨ o = OutOfFuel).
Proof.
  revert all_indicators skip s.
  induction fuel as [|fuel IH]; intros all_indicators skip s.
  { exists 0%nat, OutOfFuel, s. by eauto. }
  cbn [pagination_loop]. unfold bind, try_except. rewrite requests_eq.
  unfold serve at 1, unreliable_services.
  destruct (dropped (world s) _).
  { exists 0%nat. eexists _, _. split; [done|]. left. by rewrite take_0, app_nil_r. }
  rewrite reference_page. cbn [status_code json ret].
  rewrite bool_decide_eq_true_2 by done.
  destruct (take limit (drop skip (live_indicators (behind (world s)))))
    as [|i l] eqn:Hpage.
  { exists 0%nat. eexists _, _. split; [done|]. left. by rewrite take_0, app_nil_r. }
  cbn [ret].
  match goal with
  | |- context [pagination_loop fuel ?a ?k ?s1] =>
    destruct (IH a k s1) as (k' & o & s' & Heq & Ho)
  end.
  exists (limit + k')%nat, o, s'. split; [exact Heq|].
  destruct Ho as [-> | ->]; [left|by right].
  cbn [world logged behind]. rewrite <- Hpage, <- (assoc_L (++)).
  by rewrite <- take_take_drop, drop_drop.
Qed.

(** X18. Behind a network that loses requests, the fetch returns a
    prefix of the live indicators, in their order: what is lost can only
    cut the snapshot short. *)
Theorem partial_fetch_is_prefix (fuel : nat) (u : unreliable)
    (all_indicators : list indicator_record) :
  (get_all_indicators_with_pagination fuel (init u)).1 = Return all_indicators →
  all_indicators `prefix_of` live_indicators (behind u).
Proof.
  unfold get_all_indicators_with_pagination.
  destruct (unreliable_pagination_loop fuel [] 0%nat (init u))
    as (k & o & s' & -> & Ho).
  cbn [fst]. intros ->. destruct Ho as [Ho|Ho]; [|done].
  injection Ho as ->. cbn. apply prefix_take.
Qed.

(** ** The import against the reference services *)

Section ReferenceNames.

Implicit Types (s : state live_state) (w : live_state).

(** The domain phase appends the domains whose name is not in [names],
    in the order of the document. *)
Lemma reference_import_domains_names (names : gset (option string)) domains m s :
  ∃ m' s',
    for_each domains (import_domain names) m s = (Return m', s')
    ∧ live_indicators (world s') = live_indicators (world s)
    ∧ dom_name <$> live_domains (world s')
      = (dom_name <$> live_domains (world s))
        ++ (Some <$> (d_name <$> filter (λ d, Some (d_name d) ∉ names) domains)).
Proof.
  revert m s. induction domains as [|d domains IH]; intros m s.
  { exists m, s. by rewrite app_nil_r. }
  cbn [for_each]. unfold bind, import_domain at 1.
  destruct (decide (Some (d_name d) ∈ names)) as [Hin|Hout].
  - rewrite bool_decide_eq_true_2 by done. cbn [ret].
    destruct (IH m s) as (m' & s' & -> & Hind & Hdom).
    exists m', s'. split; [done|]. split; [done|].
    by rewrite filter_cons_False by (intros ?; contradiction).
  - rewrite bool_decide_eq_false_2 by done.
    unfold bind. rewrite reference_create_domain. cbn zeta.
    cbn [dom_id]. rewrite truthy_object_id. cbn [ret].
    match goal with
    | |- context [for_each domains _ ?m1 ?s1] =>
      destruct (IH m1 s1) as (m' & s' & -> & Hind & Hdom)
    end.
    cbn [logged world live_domains live_indicators] in Hind, Hdom.
    exists m', s'. split; [done|]. split; [done|].
    rewrite Hdom, filter_cons_True by done.
    rewrite fmap_app, <- (assoc_L (++)). done.
Qed.

(** The indicator phase appends the indicators that are not in the
    lookup, in the order of the document. *)
Lemma reference_import_targets_names existing
    (T : list (string * string * indicator_spec)) c s :
  ∃ c' s',
    for_each T (λ t, import_indicator existing t.1.1 t.1.2 t.2) c s = (Return c', s')
    ∧ live_domains (world s') = live_domains (world s)
    ∧ ind_name <$> live_indicators (world s')
      = (ind_name <$> live_indicators (world s))
        ++ (Some <$> (i_name <$> (filter (λ t, existing !! i_name t.2 = None) T).*2)).
Proof.
  revert c s. induction T as [|t T IH]; intros c s.
  { exists c, s. by rewrite app_nil_r. }
  cbn [for_each]. unfold bind, import_indicator at 1.
  destruct (existing !! i_name t.2) as [found|] eqn:Hlookup.
  - rewrite bool_decide_eq_true_2 by done. cbn [ret].
    match goal with
    | |- context [for_each T _ ?c1 ?s1] =>
      destruct (IH c1 s1) as (c' & s' & -> & Hdom & Hind)
    end.
    exists c', s'. split; [done|]. split; [done|].
    rewrite filter_cons_False; [done|]. by rewrite Hlookup.
  - rewrite bool_decide_eq_false_2 by (intros [? ?]; done).
    unfold bind. rewrite reference_create_indicator. cbn [ret].
    match goal with
    | |- context [for_each T _ ?c1 ?s1] =>
      destruct (IH c1 s1) as (c' & s' & -> & Hdom & Hind)
    end.
    cbn [logged world live_domains live_indicators] in Hdom, Hind.
    exists c', s'. split; [done|]. split; [done|].
    rewrite Hind, filter_cons_True by (by rewrite Hlookup).
    rewrite fmap_app, <- (assoc_L (++)). done.
Qed.

Lemma reference_import_unique fuel domains s :
  unique_names (world s) →
  NoDup (d_name <$> domains) →
  NoDup (i_name <$> desired_indicators domains) →
  Forall (λ i, i_name i ≠ "") (desired_indicators domains) →
  (ceil_div (length (live_indicators (world s))) limit < fuel)%nat →
  unique_names (world (import_complete_data fuel (Domains domains) s).2).
Proof.
  intros [Hdoms Hinds] Hdnames Hinames Hnonempty Hfuel.
  cbn [import_complete_data]. unfold bind at 1.
  rewrite reference_get_existing_domains. cbn iota beta.
  unfold bind at 1.
  set (names := list_to_set (dom_name <$> live_domains (world s))
                : gset (option string)).
  destruct (reference_import_domains_names names domains
              (map_domain_ids (live_domains (world s)))
              (logged s GET_domains (Some 200) (world s)))
    as (m & s1 & -> & Hind1 & Hdom1).
  cbn [logged world] in Hind1, Hdom1.
  unfold bind at 1. rewrite reference_get_existing_indicators by by rewrite Hind1.
  cbn iota beta. unfold bind at 1. rewrite import_indicators_flat.
  match goal with
  | |- context [for_each (import_targets m domains) _ ?c1 ?s2] =>
    destruct (reference_import_targets_names
                (index_by_name (live_indicators (world s1)))
                (import_targets m domains) c1 s2) as (c & s3 & -> & Hdom3 & Hind3)
  end.
  cbn [bind print ret snd world] in *. split.
  - rewrite Hdom3, Hdom1. apply NoDup_app. split; [done|]. split.
    + intros x Hx (n & -> & (d & -> & [Hout _]%list_elem_of_filter)%list_elem_of_fmap)
        %list_elem_of_fmap.
      apply Hout. by apply elem_of_list_to_set.
    + apply (NoDup_fmap_2 Some).
      eapply sublist_NoDup; [exact Hdnames|apply fmap_sublist, sublist_filter].
  - rewrite Hind3, Hind1. apply NoDup_app. split; [done|]. split.
    + intros x Hx (n & -> & (i & -> & (t & -> & [Hnone Ht]%list_elem_of_filter)
         %list_elem_of_fmap)%list_elem_of_fmap)%list_elem_of_fmap.
      assert (is_Some (index_by_name (live_indicators (world s1)) !! i_name t.2))
        as [? Hsome]; [|cbn beta in Hnone; congruence].
      apply index_by_name_lookup. rewrite Hind1. split; [|done].
      rewrite Forall_forall in Hnonempty. apply Hnonempty.
      eapply elem_of_sublist; [|apply (import_targets_indicators m domains)].
      by apply list_elem_of_fmap_2.
    + apply (NoDup_fmap_2 Some).
      eapply sublist_NoDup; [exact Hinames|].
      apply fmap_sublist. etrans; [|apply (import_targets_indicators m domains)].
      apply fmap_sublist, sublist_filter.
Qed.

Lemma unique_names_skeleton w w' :
  skeleton w' = skeleton w → unique_names w → unique_names w'.
Proof. intros [= Hd Hi]. unfold unique_names. by rewrite Hd, Hi. Qed.

(** X19. Against services that accept every creation, a run keeps
    the names of the live domains pairwise distinct, and those of the
    live indicators, when the names of the document are pairwise
    distinct and none of its indicators has the empty name; so does the
    import on its own. *)
Theorem run_keeps_names_unique (w : live_state) (domains : list domain_spec)
    (fuel : nat) :
  unique_names w →
  NoDup (d_name <$> domains) →
  NoDup (i_name <$> desired_indicators domains) →
  Forall (λ i, i_name i ≠ "") (desired_indicators domains) →
  (ceil_div (length (live_indicators w) + length (desired_indicators domains)) 50
   < fuel)%nat →
  unique_names (world (import_complete_data fuel (Domains domains) (init w)).2)
  ∧ unique_names (world (main fuel (Domains domains) (init w)).2).
Proof.
  intros Hw Hdnames Hinames Hnonempty Hfuel.
  assert (ceil_div (length (live_indicators w)) limit < fuel)%nat as Hfuel0.
  { eapply Nat.le_lt_trans; [|exact Hfuel]. apply ceil_div_mono. lia. }
  split; [by apply reference_import_unique|].
  unfold main, bind at 1. rewrite check_service_health_eq.
  cbn [init world]. change (serve GET_health w) with (Some (Response 200 tt), w).
  cbn iota beta. cbn [status_code]. rewrite bool_decide_eq_true_2 by done.
  cbn [negb]. unfold bind at 1.
  match goal with
  | |- context [import_complete_data fuel (Domains domains) ?s0] =>
    pose proof (reference_import_unique fuel domains s0 Hw Hdnames Hinames
                  Hnonempty Hfuel0) as Hunique;
    destruct (reference_import_run fuel domains s0) as (b & s1 & E1 & _ & Hlen)
  end; [done|].
  rewrite E1 in Hunique |- *. cbn [snd logged world] in Hunique, Hlen.
  destruct b; [|done].
  unfold bind.
  destruct (reference_add_resources_returns fuel s1) as (b2 & s2 & -> & Hsk2).
  { eapply Nat.le_lt_trans; [|exact Hfuel]. by apply ceil_div_mono. }
  destruct (reference_test_api_returns fuel s2) as (s3 & -> & Hw3).
  { eapply Nat.le_lt_trans; [|exact Hfuel]. apply ceil_div_mono.
    by rewrite (skeleton_count _ _ Hsk2). }
  cbn [snd]. rewrite Hw3. by eapply unique_names_skeleton.
Qed.

(** X20. Against services that accept every creation, with
    fuel for the pages, a run ends, and so does the import on its own;
    afterwards every desired domain is live, and so is every desired
    indicator of a domain that has a non-empty id. *)
Theorem run_converges (w : live_state) (domains : list domain_spec) (fuel : nat) :
  (ceil_div (length (live_indicators w) + length (desired_indicators domains)) 50
   < fuel)%nat →
  let imported := import_complete_data fuel (Domains domains) (init w) in
  let run := main fuel (Domains domains) (init w) in
  (∃ b, imported.1 = Return b)
  ∧ settled domains (world imported.2)
  ∧ is_Some (exit_status run.1)
  ∧ settled domains (world run.2).
Proof.
  intros Hfuel. cbn zeta.
  destruct (reference_import_run fuel domains (init w)) as (b & s1 & -> & Hs1 & _).
  { eapply Nat.le_lt_trans; [|exact Hfuel]. apply ceil_div_mono. cbn. lia. }
  destruct (reference_main_run fuel domains w Hfuel) as (o & s2 & -> & Ho & Hs2 & _).
  cbn [fst snd]. by eauto.
Qed.

End ReferenceNames.

(** ** The backfill against the reference services *)

Lemma contains_underscore_cons c s :
  PyStr.contains "_" (String c s)
  = bool_decide ("_"%char = c) || PyStr.contains "_" s.
Proof. cbn. by rewrite andb_true_r. Qed.

Lemma pretty_N_go_underscore x s :
  PyStr.contains "_" (pretty_N_go x s) = PyStr.contains "_" s.
Proof.
  revert s. induction (N.lt_wf_0 x) as [x _ IH]; intros s.
  destruct (decide (x = 0)%N) as [->|Hx]; [by rewrite pretty_N_go_0|].
  rewrite pretty_N_go_step by lia. rewrite IH by (apply N.div_lt; lia).
  rewrite contains_underscore_cons.
  rewrite bool_decide_eq_false_2; [done|]. unfold pretty_N_char. by repeat case_match.
Qed.

(** The ids of the reference services have no underscore. *)
Lemma object_id_underscore n : PyStr.contains "_" (object_id n) = false.
Proof.
  unfold object_id. rewrite !PyStrFacts.app_cons, PyStrFacts.app_nil_l.
  rewrite !contains_underscore_cons.
  rewrite !bool_decide_eq_false_2 by done. cbn [orb].
  unfold pretty, pretty_nat, pretty, pretty_N.
  case_decide; [done|]. by rewrite pretty_N_go_underscore.
Qed.

(** So they are no placeholders. *)
Lemma object_id_not_placeholder n :
  bool_decide (object_id n = "string") = false
  ∧ PyStr.endswith (object_id n) "_resource" = false.
Proof.
  split; [by apply bool_decide_eq_false_2|].
  apply not_true_is_false. intros [pre Hpre]%PyStrFacts.endswith_spec.
  pose proof (object_id_underscore n) as Hno. rewrite Hpre in Hno.
  assert (PyStr.contains "_" (pre +:+ "_resource") = true); [|congruence].
  apply PyStrFacts.contains_spec. by exists pre, "resource".
Qed.

Lemma add_resource_other indicator_id resource_id (l : list indicator_record) :
  Forall (λ i, ind_id i ≠ Some indicator_id) l →
  add_resource indicator_id resource_id <$> l = l.
Proof.
  induction 1 as [|i l Hi _ IH]; [done|]. cbn [fmap list_fmap].
  unfold add_resource at 1. rewrite bool_decide_eq_false_2 by done. by f_equal.
Qed.

Lemma resource_exists_app r l1 l2 :
  resource_exists r (l1 ++ l2) = resource_exists r l1 || resource_exists r l2.
Proof. apply existsb_app. Qed.

Section ReferenceBackfill.

Implicit Types (s : state live_state) (w : live_state).

(** One turn of the loop on an indicator without resources: a resource
    is created and appended to the resources of the indicator. *)
Lemma reference_backfill_fresh indicator indicator_id done rest c s :
  live_indicators (world s) = done ++ indicator :: rest →
  ind_resources indicator = [] →
  ind_id indicator = Some indicator_id →
  Forall (λ i, ind_id i ≠ Some indicator_id) (done ++ rest) →
  let new_id := object_id (next_id (world s)) in
  ∃ s' d,
    backfill_indicator indicator c s
    = (Return (Counters (total_indicators c + 1) (updated_indicators c + 1)
                        (total_resources c + 1)), s')
    ∧ live_indicators (world s')
      = done ++ add_resource indicator_id new_id indicator :: rest
    ∧ live_resources (world s')
      = live_resources (world s) ++ [{| res_id := Some new_id |}]
    ∧ log s' = log s ++ d
    ∧ count_log linked d = 1%nat.
Proof.
  intros Hlive Hres Hid Hothers. cbn zeta.
  unfold backfill_indicator, bind. rewrite needs_backfill_eq. cbn zeta.
  rewrite Hres. rewrite create_and_link_eq. cbn zeta.
  rewrite reference_serve_POST_resources.
  assert (created_id (Some (Response 201
            {| res_id := Some (object_id (next_id (world s))) |}))
          = Some (object_id (next_id (world s)))) as -> by done.
  rewrite truthy_object_id, Hid. cbn [fmt default].
  rewrite (reference_serve_link indicator_id _ _ indicator);
    [|cbn [live_indicators]; rewrite Hlive; set_solver|done].
  cbn [link_accepted status_code]. cbn [in_200_201 bool_decide decide_rel orb].
  change (in_200_201 200) with true. cbn iota.
  eexists _, _. split; [reflexivity|].
  cbn [world logged printed live_indicators live_resources log].
  split; [|split; [done|split]].
  - rewrite Hlive, fmap_app. cbn [fmap list_fmap].
    apply Forall_app in Hothers as [Hdone Hrest].
    by rewrite !add_resource_other by done.
  - rewrite <- !(assoc_L (++)). reflexivity.
  - rewrite count_log_app, !count_log_singleton. done.
Qed.

Lemma reference_backfill_fresh_loop rest :
  ∀ done c s,
    live_indicators (world s) = done ++ rest →
    Forall (λ i, ind_resources i = []) rest →
    Forall (λ i, is_Some (ind_id i)) rest →
    NoDup (ind_id <$> done ++ rest) →
    ∃ c' s' rest' d,
      for_each rest backfill_indicator c s = (Return c', s')
      ∧ live_indicators (world s') = done ++ rest'
      ∧ length rest' = length rest
      ∧ Forall (linked_once (world s')) rest'
      ∧ (∀ r, resource_exists r (live_resources (world s)) = true →
              resource_exists r (live_resources (world s')) = true)
      ∧ updated_indicators c' = (updated_indicators c + length rest)%nat
      ∧ log s' = log s ++ d
      ∧ count_log linked d = length rest.
Proof.
  induction rest as [|indicator rest IH]; intros done c s Hlive Hres Hids Hnodup.
  { exists c, s, [], []. rewrite !app_nil_r in *. cbn [length].
    repeat split; try done; try lia. }
  apply Forall_cons in Hres as [Hres Hres'].
  apply Forall_cons in Hids as [[indicator_id Hid] Hids'].
  assert (Forall (λ i, ind_id i ≠ Some indicator_id) (done ++ rest)) as Hothers.
  { rewrite fmap_app, fmap_cons in Hnodup.
    apply NoDup_app in Hnodup as (_ & Hdisjoint & [Hfresh _]%NoDup_cons).
    apply Forall_app. split; apply Forall_forall; intros i Hi Heq.
    - apply (Hdisjoint (ind_id i)); [by apply list_elem_of_fmap_2|].
      rewrite Heq, <- Hid. by left.
    - apply Hfresh. rewrite Hid, <- Heq. by apply list_elem_of_fmap_2. }
  destruct (reference_backfill_fresh indicator indicator_id done rest c s)
    as (s1 & d1 & E1 & Hlive1 & Hres1 & Hlog1 & Hlinked1); try done.
  set (indicator' := add_resource indicator_id (object_id (next_id (world s)))
                       indicator) in *.
  assert (ind_id indicator' = ind_id indicator) as Hid'.
  { unfold indicator', add_resource. by case_bool_decide. }
  assert (ind_resources indicator' = [object_id (next_id (world s))]) as Hres''.
  { unfold indicator', add_resource. rewrite bool_decide_eq_true_2 by done.
    cbn. by rewrite Hres. }
  cbn [for_each]. unfold bind. rewrite E1.
  match goal with
  | |- context [for_each rest backfill_indicator ?c1 s1] =>
    destruct (IH (done ++ [indicator']) c1 s1)
      as (c' & s' & rest' & d & -> & Hlive' & Hlen & Hlinked & Hmono & Hu & Hlog & Hcount)
  end; try done.
  { by rewrite Hlive1, <- (assoc_L (++)). }
  { rewrite <- (assoc_L (++)). cbn [app]. rewrite fmap_app, fmap_cons, Hid'.
    by rewrite fmap_app, fmap_cons in Hnodup. }
  exists c', s', (indicator' :: rest'), (d1 ++ d). split; [done|].
  split; [by rewrite Hlive', <- (assoc_L (++))|].
  split; [cbn; by rewrite Hlen|].
  split; [|split; [|split; [|split]]].
  - constructor; [|done]. exists (next_id (world s)). split; [done|].
    apply Hmono. rewrite Hres1, resource_exists_app.
    apply orb_true_iff. right. cbn. by rewrite bool_decide_eq_true_2.
  - intros r Hr. apply Hmono. rewrite Hres1, resource_exists_app.
    by rewrite Hr.
  - cbn in Hu |- *. lia.
  - by rewrite Hlog, Hlog1, <- (assoc_L (++)).
  - rewrite count_log_app, Hcount, Hlinked1. done.
Qed.

(** One turn of the loop on an indicator whose resource exists: the
    listing is read and nothing is written. *)
Lemma reference_backfill_confirmed indicator c s :
  linked_once (world s) indicator →
  ∃ s',
    backfill_indicator indicator c s
    = (Return (Counters (total_indicators c + 1) (updated_indicators c)
                        (total_resources c)), s')
    ∧ world s' = world s
    ∧ log s' = log s ++ [(GET_resources, Some 200)].
Proof.
  intros (n & Hres & Hexists).
  destruct (object_id_not_placeholder n) as [Hdummy Hgenerated].
  unfold backfill_indicator, bind. rewrite needs_backfill_eq. cbn zeta.
  rewrite Hres, Hdummy, Hgenerated, reference_serve_GET_resources.
  rewrite andb_false_r. cbn [membership_confirmed status_code json].
  rewrite Hexists, bool_decide_eq_true_2 by done. cbn [andb negb ret].
  by eexists.
Qed.

Lemma reference_backfill_confirmed_loop indicators c s :
  Forall (linked_once (world s)) indicators →
  ∃ c' s' d,
    for_each indicators backfill_indicator c s = (Return c', s')
    ∧ world s' = world s
    ∧ updated_indicators c' = updated_indicators c
    ∧ log s' = log s ++ d
    ∧ Forall (λ e, is_GET e = true) d.
Proof.
  revert c s. induction indicators as [|indicator indicators IH]; intros c s Hall.
  { exists c, s, []. by rewrite app_nil_r. }
  apply Forall_cons in Hall as [Hone Hall].
  destruct (reference_backfill_confirmed indicator c s Hone) as (s1 & E1 & Hw1 & Hl1).
  cbn [for_each]. unfold bind. rewrite E1.
  match goal with
  | |- context [for_each indicators backfill_indicator ?c1 s1] =>
    destruct (IH c1 s1) as (c' & s' & d & -> & Hw & Hu & Hl & Hd)
  end.
  { by rewrite Hw1. }
  exists c', s', ((GET_resources, Some 200) :: d). split; [done|].
  split; [by rewrite Hw, Hw1|]. split; [done|].
  split; [by rewrite Hl, Hl1, <- (assoc_L (++))|]. by constructor.
Qed.

(** A pass over indicators whose links are all confirmed. *)
Lemma reference_confirmed_pass fuel w :
  (ceil_div (length (live_indicators w)) 50 < fuel)%nat →
  Forall (linked_once w) (live_indicators w) →
  ∃ s',
    add_resources_to_all_indicators fuel (init w) = (Return false, s')
    ∧ Forall (λ e, is_GET e = true) (log s')
    ∧ world s' = w.
Proof.
  intros Hfuel Hall.
  unfold add_resources_to_all_indicators, bind at 1 2. cbn [print].
  unfold get_all_indicators_with_pagination.
  rewrite reference_pagination_loop; cbn [world init]; [|by rewrite Nat.sub_0_r].
  cbn [app]. rewrite drop_0.
  assert (Forall (λ e, is_GET e = true)
            (page_requests 0
               (S (ceil_div (length (live_indicators w) - 0) limit)))) as Hpages.
  { eapply Forall_impl; [apply page_requests_only_GET|]. by intros [[] ?]. }
  destruct (live_indicators w) as [|indicator indicators] eqn:Hinds.
  { by eexists. }
  unfold bind. cbn [print].
  match goal with
  | |- context [for_each ?l backfill_indicator ?c ?s1] =>
    destruct (reference_backfill_confirmed_loop l c s1)
      as (c' & s' & d & -> & Hw & Hu & Hl & Hd)
  end; [done|].
  cbn [fst snd world log updated_indicators] in *.
  rewrite Hu. eexists. split; [reflexivity|]. cbn [log world].
  rewrite Hl, Hw. cbn [log init app]. split; [|done]. apply Forall_app. by split.
Qed.

(** A pass over indicators without resources. *)
Lemma reference_fresh_pass fuel w :
  Forall (λ i, ind_resources i = []) (live_indicators w) →
  Forall (λ i, is_Some (ind_id i)) (live_indicators w) →
  NoDup (ind_id <$> live_indicators w) →
  (ceil_div (length (live_indicators w)) 50 < fuel)%nat →
  ∃ s',
    add_resources_to_all_indicators fuel (init w)
    = (Return (bool_decide (live_indicators w ≠ [])), s')
    ∧ count_log linked (log s') = length (live_indicators w)
    ∧ length (live_indicators (world s')) = length (live_indicators w)
    ∧ Forall (linked_once (world s')) (live_indicators (world s')).
Proof.
  intros Hfresh Hids Hnodup Hfuel.
  unfold add_resources_to_all_indicators, bind at 1 2. cbn [print].
  unfold get_all_indicators_with_pagination.
  rewrite reference_pagination_loop; cbn [world init]; [|by rewrite Nat.sub_0_r].
  cbn [app]. rewrite drop_0.
  assert (count_log linked
            (page_requests 0
               (S (ceil_div (length (live_indicators w) - 0) limit))) = 0%nat)
    as Hpages.
  { eapply count_log_other; [apply page_requests_only_GET|]. by intros [[] ?]. }
  destruct (live_indicators w) as [|indicator indicators] eqn:Hinds.
  { eexists. split; [reflexivity|]. cbn [log world]. rewrite Hinds. done. }
  unfold bind. cbn [print].
  match goal with
  | |- context [for_each ?l backfill_indicator ?c ?s1] =>
    destruct (reference_backfill_fresh_loop l [] c s1)
      as (c' & s' & rest' & d & -> & Hlive & Hlen & Hlinked & _ & Hu & Hlog & Hcount)
  end; try done.
  cbn [fst snd world log updated_indicators app] in *.
  rewrite Hu. eexists. split; [reflexivity|]. cbn [log world].
  rewrite Hlog, Hlive. cbn [log init app]. by rewrite count_log_app, Hpages, Hcount.
Qed.

(** X21. Against the reference services, a backfill pass over
    indicators that have no resource and pairwise distinct ids links
    one new resource to each of them; a second pass finds every link
    confirmed by the listing, writes nothing and returns false. *)
Theorem second_backfill_pass_writes_nothing (w : live_state) (fuel : nat) :
  Forall (λ i, ind_resources i = []) (live_indicators w) →
  Forall (λ i, is_Some (ind_id i)) (live_indicators w) →
  NoDup (ind_id <$> live_indicators w) →
  (ceil_div (length (live_indicators w)) 50 < fuel)%nat →
  let pass1 := add_resources_to_all_indicators fuel (init w) in
  let pass2 := add_resources_to_all_indicators fuel (init (world pass1.2)) in
  pass1.1 = Return (bool_decide (live_indicators w ≠ []))
  ∧ count_log linked (log pass1.2) = length (live_indicators w)
  ∧ Forall (λ i, ∃ r, ind_resources i = [r]
                      ∧ resource_exists r (live_resources (world pass1.2)) = true)
           (live_indicators (world pass1.2))
  ∧ pass2.1 = Return false
  ∧ Forall (λ e, is_GET e = true) (log pass2.2)
  ∧ world pass2.2 = world pass1.2.
Proof.
  intros Hfresh Hids Hnodup Hfuel. cbn zeta.
  destruct (reference_fresh_pass fuel w Hfresh Hids Hnodup Hfuel)
    as (s1 & -> & Hcount & Hlen & Hlinked).
  cbn [fst snd].
  destruct (reference_confirmed_pass fuel (world s1)) as (s2 & -> & Hreads & Hworld).
  { by rewrite Hlen. }
  { done. }
  cbn [fst snd]. repeat split; try done.
  eapply Forall_impl; [exact Hlinked|]. intros i (n & Hres & Hex). by eauto.
Qed.

End ReferenceBackfill.

(** ** The further properties on sample data *)

(** An unreadable document, and services that are offline. *)
Lemma main_stops_after_health_check_witness :
  main 5 Unreadable (init empty_services)
  = (Raise (SystemExit 1), State empty_services [(GET_health, Some 200)] [])
  ∧ main 5 (Domains [economy]) (init offline)
    = (Raise (SystemExit 1), State offline [(GET_health, None)] []).
Proof.
  split.
  - exact (main_stops_after_health_check 5 Unreadable empty_services
             (or_intror (or_introl eq_refl))).
  - exact (main_stops_after_health_check 5 (Domains [economy]) offline
             (or_introl (λ H, H))).
Defined.

(** The summary of the import of the scenario. *)
Lemma import_summary_accounts_witness :
  let s' := (import_complete_data 5 (Domains [economy]) (init empty_services)).2 in
  ImportSummary 1 1 1 0 0 ∈ console s'
  ∧ 1%nat = length [economy]
  ∧ 1%nat = count_log indicator_created (log s')
  ∧ 1%nat = (0 + count_log is_POST_indicators (log s'))%nat.
Proof.
  cbn zeta.
  assert (console (import_complete_data 5 (Domains [economy]) (init empty_services)).2
          = [ImportSummary 1 1 1 0 0]) as Hconsole by (vm_compute; reflexivity).
  assert (ImportSummary 1 1 1 0 0
          ∈ console (import_complete_data 5 (Domains [economy])
                       (init empty_services)).2) as Hin.
  { rewrite Hconsole. apply list_elem_of_singleton. reflexivity. }
  destruct (import_summary_accounts 5 [economy] empty_services 1 1 1 0 0 Hin)
    as (Hn & _ & Hc & Ht & _).
  by repeat split.
Defined.

(** The second run of the scenario. *)
Lemma no_creation_no_backfill_witness :
  count_log indicator_created
    (log (main 5 (Domains [economy]) (init seeded_services)).2) = 0%nat
  ∧ Forall (λ e, backfill_exchange e = false)
           (log (main 5 (Domains [economy]) (init seeded_services)).2).
Proof.
  assert (count_log indicator_created
            (log (main 5 (Domains [economy]) (init seeded_services)).2) = 0%nat)
    as Hnone by (vm_compute; reflexivity).
  split; [exact Hnone|].
  exact (no_creation_no_backfill 5 (Domains [economy]) seeded_services Hnone).
Defined.

(** A pass whose link write is lost: one resource created, none reported. *)
Lemma resources_created_within_bounds_witness :
  let s' := (add_resources_to_all_indicators 5 (init links_lost)).2 in
  ResourceSummary 1 0 0 ∈ console s'
  ∧ (0 ≤ count_log is_POST_indicator_resources (log s'))%nat
  ∧ (count_log is_POST_indicator_resources (log s')
     ≤ count_log resource_created (log s'))%nat
  ∧ (count_log resource_created (log s') ≤ count_log is_POST_resources (log s'))%nat
  ∧ (count_log is_POST_resources (log s') ≤ 1)%nat.
Proof.
  cbn zeta.
  assert (console (add_resources_to_all_indicators 5 (init links_lost)).2
          = [AddingResources; FoundTotalIndicators 1; CreatingResource "GDP";
             FailedToLink "oid2" "GDP"; ResourceSummary 1 0 0]) as Hconsole
    by (vm_compute; reflexivity).
  assert (ResourceSummary 1 0 0
          ∈ console (add_resources_to_all_indicators 5 (init links_lost)).2) as Hin.
  { rewrite Hconsole. do 4 right. left. }
  split; [exact Hin|].
  exact (resources_created_within_bounds 5 links_lost 1 0 0 Hin).
Defined.

(** A pass over an empty catalog, and one over services that are offline. *)
Lemma backfill_without_indicators_witness :
  add_resources_to_all_indicators 5 (init empty_services)
  = (Return false,
     State empty_services [(GET_indicators (Some 0%nat) 50, Some 200)]
           [AddingResources; NoIndicatorsFound])
  ∧ add_resources_to_all_indicators 5 (init offline)
    = (Return false,
       State offline [(GET_indicators (Some 0%nat) 50, None)]
             [AddingResources; NoIndicatorsFound]).
Proof.
  split.
  - exact (backfill_without_indicators 4 empty_services
             (or_intror (ex_intro _ (Response 200 []) (conj eq_refl eq_refl)))).
  - exact (backfill_without_indicators 4 offline (or_introl I)).
Defined.

(** The endpoint test against services that are offline. *)
Lemma endpoint_test_only_reads_witness :
  test_api_endpoints 5 (init offline)
  = (Return tt, State offline [(GET_indicators None 5, None)] []).
Proof.
  destruct (endpoint_test_only_reads 5 (init offline)) as (_ & _ & _ & Hfirst).
  exact (Hfirst eq_refl).
Defined.

(** Creations against services that are offline, and against the
    services of the scenario. *)
Lemma write_helpers_never_raise_witness :
  (create_domain (make_domain_data economy) (init offline)).1 = Return None
  ∧ (create_resource_in_service (Some "GDP") (Some "oid1") (init offline)).1
    = Return None
  ∧ (create_indicator (make_indicator_data gdp "Trade") "oid0" "Trade"
       (init offline)).1 = Return false
  ∧ (add_resource_to_indicator (Some "oid1") "oid2" (init offline)).1 = Return false
  ∧ (create_domain (make_domain_data economy) (init empty_services)).1
    = Return (Some "oid0")
  ∧ (create_resource_in_service (Some "GDP") (Some "oid1") (init imported_services)).1
    = Return (Some "oid2")
  ∧ (create_indicator (make_indicator_data gdp "Trade") "oid0" "Trade"
       (init empty_services)).1 = Return true
  ∧ (add_resource_to_indicator (Some "oid1") "oid2" (init imported_services)).1
    = Return true.
Proof.
  destruct (write_helpers_never_raise (make_domain_data economy)
              (make_indicator_data gdp "Trade") "oid0" "Trade" (Some "GDP")
              (Some "oid1") "oid2" (init offline))
    as (_ & (id1 & E1 & _ & N1 & _) & (b2 & E2 & B2 & _)
        & (id3 & E3 & _ & N3 & _) & (b4 & E4 & B4 & _)).
  destruct (write_helpers_never_raise (make_domain_data economy)
              (make_indicator_data gdp "Trade") "oid0" "Trade" (Some "GDP")
              (Some "oid1") "oid2" (init empty_services))
    as (_ & (id1' & E1' & A1 & _) & (b2' & E2' & B2' & _) & _).
  destruct (write_helpers_never_raise (make_domain_data economy)
              (make_indicator_data gdp "Trade") "oid0" "Trade" (Some "GDP")
              (Some "oid1") "oid2" (init imported_services))
    as (_ & _ & _ & (id3' & E3' & A3 & _) & (b4' & E4' & B4' & _)).
  assert (∀ A (resp : response A), ¬ (∃ resp, accepted_reply (@None (response A)) resp))
    as Hlost.
  { intros A _ (resp & Hresp & _). discriminate. }
  rewrite E1, E2, E3, E4, E1', E2', E3', E4'.
  rewrite (N1 (Hlost _ (Response 0 {| dom_id := None; dom_name := None |}))).
  rewrite (N3 (Hlost _ (Response 0 {| res_id := None |}))).
  assert (b2 = false) as ->.
  { destruct b2; [|done]. destruct (proj1 B2 eq_refl) as (resp & Hresp & _).
    discriminate. }
  assert (b4 = false) as ->.
  { destruct b4; [|done]. destruct (proj1 B4 eq_refl) as (resp & Hresp & _).
    discriminate. }
  rewrite (A1 _ (conj eq_refl (or_intror eq_refl))).
  rewrite (A3 _ (conj eq_refl (or_intror eq_refl))).
  rewrite (proj2 B2' (ex_intro _ _ (conj eq_refl (or_intror eq_refl)))).
  rewrite (proj2 B4' (ex_intro _ _ (conj eq_refl (or_introl eq_refl)))).
  by repeat split.
Defined.

(** The fetch of 51 indicators when the request for the second page is
    lost. *)
Lemma fetch_requests_consecutive_pages_witness :
  (get_all_indicators_with_pagination 5 (init second_page_lost)).1
  = Return (replicate 50 linked_gdp)
  ∧ log (get_all_indicators_with_pagination 5 (init second_page_lost)).2
    = [(GET_indicators (Some 0%nat) 50, Some 200);
       (GET_indicators (Some 50%nat) 50, None)].
Proof.
  destruct (fetch_requests_consecutive_pages 5 second_page_lost)
    as (n & Hpages & Hend).
  assert (n = 1%nat) as ->.
  { destruct n as [|[|n]]; [|done|].
    - exfalso. destruct Hend as [(_ & Hlast & _)|(? & _)]; [|done].
      destruct Hlast as [Hnone|(resp & Hresp & Hbad)].
      + vm_compute in Hnone. discriminate.
      + vm_compute in Hresp. injection Hresp as <-.
        destruct Hbad as [Hbad|Hbad]; [by apply Hbad|discriminate].
    - destruct (Hpages 1%nat) as (resp & Hresp & _); [lia|].
      vm_compute in Hresp. discriminate. }
  destruct Hend as [(_ & _ & Hret & Hlog)|(? & _)]; [|done].
  rewrite Hret, Hlog. split; vm_compute; reflexivity.
Defined.

(** The first run of the scenario keeps the names distinct. *)
Lemma run_keeps_names_unique_witness :
  unique_names (world (import_complete_data 5 (Domains [economy])
                         (init empty_services)).2)
  ∧ unique_names (world (main 5 (Domains [economy]) (init empty_services)).2).
Proof.
  apply (run_keeps_names_unique empty_services [economy] 5).
  - split; constructor.
  - apply (bool_decide_unpack _). vm_compute. exact I.
  - apply (bool_decide_unpack _). vm_compute. exact I.
  - apply (bool_decide_unpack _). vm_compute. exact I.
  - vm_compute. lia.
Defined.

(** The import of the scenario when the creations of domains are lost. *)
Lemma no_domain_no_indicator_witness :
  count_log domain_created
    (log (import_complete_data 5 (Domains [economy]) (init domains_refused)).2)
  = 0%nat
  ∧ count_log is_POST_indicators
      (log (import_complete_data 5 (Domains [economy]) (init domains_refused)).2)
    = 0%nat.
Proof.
  assert (count_log domain_created
            (log (import_complete_data 5 (Domains [economy])
                    (init domains_refused)).2) = 0%nat)
    as Hnone by (vm_compute; reflexivity).
  split; [exact Hnone|].
  apply (no_domain_no_indicator 5 [economy] domains_refused); [|exact Hnone].
  constructor.
Defined.

(** The first run of the scenario leaves the services settled. *)
Lemma run_converges_witness :
  settled [economy] (world (import_complete_data 5 (Domains [economy])
                              (init empty_services)).2)
  ∧ is_Some (exit_status (main 5 (Domains [economy]) (init empty_services)).1)
  ∧ settled [economy] (world (main 5 (Domains [economy]) (init empty_services)).2).
Proof.
  assert (ceil_div (length (live_indicators empty_services)
                    + length (desired_indicators [economy])) 50 < 5)%nat
    as Hfuel by (vm_compute; lia).
  destruct (run_converges empty_services [economy] 5 Hfuel) as (_ & H1 & H2 & H3).
  split; [exact H1|]. split; [exact H2|exact H3].
Defined.

(** A catalog that ignores [skip] and has an indicator: the fetch and
    the import use up any fuel. *)
Lemma fetch_needs_an_empty_page_witness :
  (get_all_indicators_with_pagination 7 (init stuck_catalog)).1 = OutOfFuel
  ∧ length (log (get_all_indicators_with_pagination 7 (init stuck_catalog)).2)
    = 7%nat
  ∧ (import_complete_data 7 (Domains [economy]) (init stuck_catalog)).1 = OutOfFuel.
Proof.
  apply (fetch_needs_an_empty_page (λ u, live_indicators (served u) ≠ [])).
  - intros r [w] Hw. cbn [served] in Hw.
    destruct r; unfold serve, ignoring_skip_services, serve, reference_services;
      cbn [snd served live_indicators]; try exact Hw.
    + intros Heq. by apply app_eq_nil in Heq as [_ ?].
    + destruct (existsb _ _); cbn [snd served live_indicators]; [|exact Hw].
      intros Heq. apply fmap_nil_inv in Heq. by apply Hw.
  - intros [w] skip Hw. eexists. split; [reflexivity|]. split; [reflexivity|].
    cbn [json served] in *. destruct (live_indicators w); [done|]. cbn. done.
  - vm_compute. discriminate.
Defined.

(** An indicator of the document without id and categorization. *)
Lemma indicator_payload_bounds_witness :
  let anonymous :=
    {| i_name := "GDP"; i_id := None; i_categorization := None;
       i_characteristics :=
         {| periodicity := "annual"; source := "WorldBank"; scale := "billions" |} |} in
  id_favourites (make_indicator_data anonymous "Trade") = 0
  ∧ id_governance (make_indicator_data anonymous "Trade") = false.
Proof.
  cbn zeta.
  match goal with
  | |- id_favourites (make_indicator_data ?i ?sub) = _ ∧ _ =>
    destruct (indicator_payload_bounds i sub) as (_ & Hf & Hg)
  end.
  split; [apply Hf|apply Hg]; reflexivity.
Defined.

(** The first 50 of 51 indicators, when the second page is lost. *)
Lemma partial_fetch_is_prefix_witness :
  replicate 50 linked_gdp `prefix_of` live_indicators (behind second_page_lost).
Proof.
  apply (partial_fetch_is_prefix 5 second_page_lost). vm_compute. reflexivity.
Defined.

(** Two passes after the import of the scenario. *)
Lemma second_backfill_pass_writes_nothing_witness :
  let pass1 := add_resources_to_all_indicators 5 (init imported_services) in
  let pass2 := add_resources_to_all_indicators 5 (init (world pass1.2)) in
  pass1.1 = Return true
  ∧ count_log linked (log pass1.2) = 1%nat
  ∧ pass2.1 = Return false
  ∧ Forall (λ e, is_GET e = true) (log pass2.2)
  ∧ world pass2.2 = world pass1.2.
Proof.
  assert (Forall (λ i, ind_resources i = []) (live_indicators imported_services))
    as H1 by (apply (bool_decide_unpack _); vm_compute; exact I).
  assert (Forall (λ i, is_Some (ind_id i)) (live_indicators imported_services))
    as H2 by (apply (bool_decide_unpack _); vm_compute; exact I).
  assert (NoDup (ind_id <$> live_indicators imported_services))
    as H3 by (apply (bool_decide_unpack _); vm_compute; exact I).
  assert (ceil_div (length (live_indicators imported_services)) 50 < 5)%nat
    as H4 by (vm_compute; lia).
  destruct (second_backfill_pass_writes_nothing imported_services 5 H1 H2 H3 H4)
    as (Hb & Hcount & _ & Hfalse & Hreads & Hworld).
  cbn zeta. split; [|by repeat split].
  rewrite Hb. reflexivity.
Defined.
